(** * configure-tauri.mjs: a model of the configuration script

    The script reads five JSON configuration objects, edits them from the
    process environment, makes sure the icon files of the host platform
    exist (download, derive from a known source, copy the default), and
    writes the five configurations back.

    The model threads an explicit world (file store, the five imported
    JSON objects, a trace of the calls made to the outside) through a small
    monad with JavaScript exceptions and [process.exit].  Everything the
    script obtains from the runtime or from a library (HTTP, sharp,
    icon-gen, path.join, parseInt, JSON.stringify, file-system faults) is a
    field of the [Host] record. *)

From Stdlib Require Import ZArith String Ascii List Bool Lia.
From stdpp Require Import gmap strings list fin_maps pretty.

Set Warnings "-register-all".

Local Open Scope string_scope.
Local Open Scope Z_scope.
Local Open Scope list_scope.

Abbreviation bytes := (list Byte.byte).

(** ** JavaScript strings *)

Definition nl : string := String (ascii_of_nat 10) EmptyString.

(** [s.startsWith(p)] *)
Definition startsWith (s p : string) : bool := String.prefix p s.

(** [s.endsWith(p)]: the last [length p] characters of [s] are [p]. *)
Definition endsWith (s p : string) : bool :=
  let n := String.length s in
  let k := String.length p in
  (k <=? n)%nat && String.eqb (String.substring (n - k) k s) p.

(** The bytes written for a JavaScript string (its UTF-8 encoding; a model
    string is already a byte sequence). *)
Definition utf8 (s : string) : bytes := String.list_byte_of_string s.

(** ** JSON values as JavaScript objects

    [JUndefined] and [JNaN] are not JSON but are values the script can
    store.  A JavaScript array is an object too: a named property assigned
    to it is kept in [named] (JSON.stringify ignores it). *)

Inductive json : Type :=
| JUndefined
| JNull
| JBool (b : bool)
| JNum (z : Z)
| JNaN
| JStr (s : string)
| JArr (items : list json) (named : list (string * json))
| JObj (props : list (string * json)).

(** Truthiness, as tested by [if (v)] and [!v]. *)
Definition truthy (v : json) : bool :=
  match v with
  | JUndefined | JNull | JNaN => false
  | JBool b => b
  | JNum z => negb (z =? 0)
  | JStr s => negb (String.eqb s "")
  | JArr _ _ | JObj _ => true
  end.

(** The text of a value in a template literal: [`${v}`]. *)
Fixpoint js_text (v : json) : string :=
  match v with
  | JUndefined => "undefined"
  | JNull => "null"
  | JBool b => if b then "true" else "false"
  | JNum z => pretty z
  | JNaN => "NaN"
  | JStr s => s
  | JArr items _ =>
      String.concat ","
        (map (fun x => match x with
                       | JUndefined | JNull => ""
                       | _ => js_text x
                       end) items)
  | JObj _ => "[object Object]"
  end.

(** Own properties, in insertion order. *)
Fixpoint assoc_get (k : string) (ps : list (string * json)) : json :=
  match ps with
  | [] => JUndefined
  | (k', v) :: ps' => if String.eqb k k' then v else assoc_get k ps'
  end.

Fixpoint assoc_set (k : string) (x : json) (ps : list (string * json))
  : list (string * json) :=
  match ps with
  | [] => [(k, x)]
  | (k', v) :: ps' =>
      if String.eqb k k' then (k', x) :: ps' else (k', v) :: assoc_set k x ps'
  end.

(** Results of operations that can throw; the string is [error.message]. *)
Inductive Res (A : Type) : Type :=
| Ok (a : A)
| Err (message : string).
Arguments Ok {A} a.
Arguments Err {A} message.

Global Instance Res_ret : MRet Res := fun A a => Ok a.
Global Instance Res_bind : MBind Res := fun A B f r =>
  match r with
  | Ok a => f a
  | Err e => Err e
  end.

(** A step of a member expression: [.name] or [[i]]. *)
Inductive key : Type :=
| Prop_ (name : string)
| Idx (i : nat).

Definition key_name (k : key) : string :=
  match k with
  | Prop_ s => s
  | Idx i => pretty i
  end.

Definition type_error_read (v : json) (k : key) : string :=
  "Cannot read properties of "
    +:+ (match v with JNull => "null" | _ => "undefined" end)
    +:+ " (reading '" +:+ key_name k +:+ "')".

Definition type_error_set (v : json) (k : string) : string :=
  match v with
  | JUndefined => "Cannot set properties of undefined (setting '" +:+ k +:+ "')"
  | JNull => "Cannot set properties of null (setting '" +:+ k +:+ "')"
  | _ => "Cannot create property '" +:+ k +:+ "' on a primitive value"
  end.

(** [v.name] and [v[i]]: a TypeError on undefined and null, [undefined] for
    a property that is not there.  Inherited members ([length], [toString],
    ...) are left out: the script reads none of them. *)
Definition js_get (k : key) (v : json) : Res json :=
  match v with
  | JUndefined | JNull => Err (type_error_read v k)
  | JObj ps => Ok (assoc_get (key_name k) ps)
  | JArr items named =>
      match k with
      | Idx i => Ok (nth i items JUndefined)
      | Prop_ s => Ok (assoc_get s named)
      end
  | JStr s =>
      match k with
      | Idx i =>
          Ok (match String.get i s with
              | Some c => JStr (String c EmptyString)
              | None => JUndefined
              end)
      | Prop_ _ => Ok JUndefined
      end
  | JBool _ | JNum _ | JNaN => Ok JUndefined
  end.

(** [v.name = x], giving the object after the assignment.  The script is an
    ES module, hence strict: assigning to a property of a primitive throws. *)
Definition js_set (k : string) (x : json) (v : json) : Res json :=
  match v with
  | JObj ps => Ok (JObj (assoc_set k x ps))
  | JArr items named => Ok (JArr items (assoc_set k x named))
  | _ => Err (type_error_set v k)
  end.

(** The object [v] once its member [k] has become [c] (the member was
    obtained by [js_get k v] and mutated in place). *)
Definition js_put (k : key) (c : json) (v : json) : json :=
  match v with
  | JObj ps => JObj (assoc_set (key_name k) c ps)
  | JArr items named =>
      match k with
      | Idx i => JArr (<[i := c]> items) named
      | Prop_ s => JArr items (assoc_set s c named)
      end
  | _ => v
  end.

(** [v.k1.k2...kn] *)
Fixpoint js_read (path : list key) (v : json) : Res json :=
  match path with
  | [] => Ok v
  | k :: path' => c ← js_get k v; js_read path' c
  end.

(** [v.k1.k2...kn.last = x] *)
Fixpoint js_assign (path : list key) (last : string) (x : json) (v : json)
  : Res json :=
  match path with
  | [] => js_set last x v
  | k :: path' =>
      c ← js_get k v;
      c' ← js_assign path' last x c;
      Ok (js_put k c' v)
  end.

(** ** The host: runtime and libraries *)

(** The values of [os.platform()] documented by Node.js. *)
Inductive NodePlatform : Type :=
| aix | android | darwin | freebsd | haiku | linux
| openbsd | sunos | win32 | cygwin | netbsd.

Global Instance NodePlatform_eq_dec : EqDecision NodePlatform.
Proof. solve_decision. Defined.

Definition platform_name (p : NodePlatform) : string :=
  match p with
  | aix => "aix" | android => "android" | darwin => "darwin"
  | freebsd => "freebsd" | haiku => "haiku" | linux => "linux"
  | openbsd => "openbsd" | sunos => "sunos" | win32 => "win32"
  | cygwin => "cygwin" | netbsd => "netbsd"
  end.

(** The sharp pipelines of the script.  Every [resize] has the options
    [{fit: "contain", background: {r: 0, g: 0, b: 0, alpha: 0}}]. *)
Inductive SharpStep : Type :=
| Resize (width height : json)
| Png9          (* .png({ compressionLevel: 9 }) *)
| PngForce      (* .png({ force: true }) *)
| EnsureAlpha.

Inductive SharpInput : Type :=
| FromBuffer (data : bytes)
| FromPath (path : string).

Inductive FsOp : Type :=
| OpWrite (path : string)
| OpMkdir (dir : string).

Record Host : Type := {
  (** [os.platform()] *)
  os_platform : NodePlatform;
  (** [None] when the dynamic import of axios failed; otherwise the body of
      the response to [axios.get(url, {responseType: "arraybuffer"})], or
      the message of the error it throws *)
  axios : option (string -> Res bytes);
  (** [sharp(input)...toBuffer()] on the bytes of the input *)
  sharp : list SharpStep -> bytes -> Res bytes;
  (** icon-gen: the .ico built from the content of the source file
      ([None]: no such file) with the given sizes *)
  icongen : option bytes -> list Z -> Res bytes;
  (** an error of the operating system on a write, copy or mkdir
      (permissions, missing directory, ...) *)
  fs_fault : FsOp -> option string;
  (** [path.join(a, b)] *)
  path_join : string -> string -> string;
  (** the built-in [parseInt(s)] *)
  parseInt : string -> json;
  (** [JSON.stringify(v, null, 2)] *)
  JSON_stringify : json -> string
}.

(** ** The world *)

Inductive Level : Type := Log | Warn | Error.

(** Calls made to the outside, as they are made. *)
Inductive Event : Type :=
| Console (level : Level) (message : string)
| HttpGet (url : string)
| SharpCall (steps : list SharpStep) (input : SharpInput)
| IconGen (src dir name : string) (sizes : list Z)
| WriteFile (path : string) (data : bytes)
| CopyFile (src dst : string)
| MkDir (dir : string).

(** The imported JSON modules. *)
Inductive ConfigRef : Type :=
| PakeJson | TauriJson | WindowsJson | MacosJson | LinuxJson.

Global Instance ConfigRef_eq_dec : EqDecision ConfigRef.
Proof. solve_decision. Defined.

Record World : Type := {
  files : gmap string bytes;
  dirs : gset string;
  pakeJson : json;
  tauriJson : json;
  windowsJson : json;
  macosJson : json;
  linuxJson : json;
  (** most recent call first *)
  trace : list Event
}.

Definition set_files (f : gmap string bytes) (w : World) : World :=
  {| files := f; dirs := dirs w; pakeJson := pakeJson w;
     tauriJson := tauriJson w; windowsJson := windowsJson w;
     macosJson := macosJson w; linuxJson := linuxJson w; trace := trace w |}.

Definition set_dirs (d : gset string) (w : World) : World :=
  {| files := files w; dirs := d; pakeJson := pakeJson w;
     tauriJson := tauriJson w; windowsJson := windowsJson w;
     macosJson := macosJson w; linuxJson := linuxJson w; trace := trace w |}.

Definition set_trace (t : list Event) (w : World) : World :=
  {| files := files w; dirs := dirs w; pakeJson := pakeJson w;
     tauriJson := tauriJson w; windowsJson := windowsJson w;
     macosJson := macosJson w; linuxJson := linuxJson w; trace := t |}.

Definition config (r : ConfigRef) (w : World) : json :=
  match r with
  | PakeJson => pakeJson w
  | TauriJson => tauriJson w
  | WindowsJson => windowsJson w
  | MacosJson => macosJson w
  | LinuxJson => linuxJson w
  end.

Definition set_config (r : ConfigRef) (v : json) (w : World) : World :=
  {| files := files w; dirs := dirs w;
     pakeJson := match r with PakeJson => v | _ => pakeJson w end;
     tauriJson := match r with TauriJson => v | _ => tauriJson w end;
     windowsJson := match r with WindowsJson => v | _ => windowsJson w end;
     macosJson := match r with MacosJson => v | _ => macosJson w end;
     linuxJson := match r with LinuxJson => v | _ => linuxJson w end;
     trace := trace w |}.

(** A file or a directory is at [path]. *)
Definition exists_on_disk (w : World) (path : string) : bool :=
  bool_decide (is_Some (files w !! path)) || bool_decide (path ∈ dirs w).

(** ** The monad: state, exceptions and [process.exit] *)

Inductive Outcome (A : Type) : Type :=
| Ret (a : A)
| Throw (message : string)
| Exit (code : Z).
Arguments Ret {A} a.
Arguments Throw {A} message.
Arguments Exit {A} code.

Definition M (A : Type) : Type := World -> Outcome A * World.

Global Instance M_ret : MRet M := fun A a w => (Ret a, w).
Global Instance M_bind : MBind M := fun A B f m w =>
  match m w with
  | (Ret a, w') => f a w'
  | (Throw e, w') => (Throw e, w')
  | (Exit c, w') => (Exit c, w')
  end.

Definition throw {A} (message : string) : M A := fun w => (Throw message, w).

(** [process.exit(code)]: nothing after it runs, no handler catches it. *)
Definition process_exit {A} (code : Z) : M A := fun w => (Exit code, w).

(** [try { body } catch (error) { handler(error.message) }] *)
Definition try_catch {A} (body : M A) (handler : string -> M A) : M A :=
  fun w =>
    match body w with
    | (Throw e, w') => handler e w'
    | r => r
    end.

Definition lift {A} (r : Res A) : M A :=
  match r with
  | Ok a => mret a
  | Err e => throw e
  end.

Definition emit (e : Event) : M unit :=
  fun w => (Ret tt, set_trace (e :: trace w) w).

(** A primitive given by its effect on the world. *)
Definition primitive {A} (f : World -> Outcome A * World) : M A := f.

Definition console_log (s : string) : M unit := emit (Console Log s).
Definition console_warn (s : string) : M unit := emit (Console Warn s).
Definition console_error (s : string) : M unit := emit (Console Error s).

(** [xs.forEach(f)] *)
Fixpoint forEach {A} (xs : list A) (f : A -> M unit) : M unit :=
  match xs with
  | [] => mret tt
  | x :: xs' => f x ;; forEach xs' f
  end.

(** Reading and assigning members of an imported JSON module. *)
Definition read_config (r : ConfigRef) (path : list key) : M json :=
  fun w => lift (js_read path (config r w)) w.

Definition assign_config (r : ConfigRef) (path : list key) (last : string)
    (x : json) : M unit :=
  fun w =>
    match js_assign path last x (config r w) with
    | Ok v => (Ret tt, set_config r v w)
    | Err e => (Throw e, w)
    end.

(** ** The script *)

(** [process.env[k]] inside a template literal *)
Definition env_text (env : gmap string string) (k : string) : string :=
  match env !! k with
  | Some v => v
  | None => "undefined"
  end.

(** [process.env[k]] as a value *)
Definition env_value (env : gmap string string) (k : string) : json :=
  match env !! k with
  | Some v => JStr v
  | None => JUndefined
  end.

(** [if (process.env[k])]: set and not empty *)
Definition env_truthy (env : gmap string string) (k : string) : bool :=
  truthy (env_value env k).

Definition requiredEnvVars : list string := ["URL"; "NAME"; "TITLE"; "NAME_ZH"].

Module LinuxVars.
Record t : Type := {
  configFile : string;
  iconPath : string;
  defaultIcon : string;
  icons : list string;
  desktopEntry : string;
  desktopEntryPath : string;
  desktopConfig : string * string
}.
End LinuxVars.

Module DarwinVars.
Record t : Type := {
  configFile : string;
  iconPath : string;
  defaultIcon : string;
  icons : list string
}.
End DarwinVars.

Module Win32Vars.
Record t : Type := {
  configFile : string;
  iconPath : string;
  hdIconPath : string;
  defaultIcon : string;
  hdDefaultIcon : string;
  icons : list string;
  resources : list string
}.
End Win32Vars.

(** An entry of [CONFIG.platforms]. *)
Inductive PlatformVars : Type :=
| OfLinux (c : LinuxVars.t)
| OfDarwin (c : DarwinVars.t)
| OfWin32 (c : Win32Vars.t).

Module CONFIG.
Section WithEnv.
Variable env : gmap string string.

Definition identifier : string := "com.pake." +:+ env_text env "NAME".
Definition productName : string := "com-pake-" +:+ env_text env "NAME".

Definition paths_pakeConfig : string := "src-tauri/pake.json".
Definition paths_tauriConfig : string := "src-tauri/tauri.conf.json".

Definition platforms_linux : LinuxVars.t :=
  {| LinuxVars.configFile := "src-tauri/tauri.linux.conf.json";
     LinuxVars.iconPath := "src-tauri/png/" +:+ env_text env "NAME" +:+ "_512.png";
     LinuxVars.defaultIcon := "src-tauri/png/icon_512.png";
     LinuxVars.icons := ["png/" +:+ env_text env "NAME" +:+ "_512.png"];
     LinuxVars.desktopEntry :=
       "[Desktop Entry]" +:+ nl
       +:+ "Encoding=UTF-8" +:+ nl
       +:+ "Categories=Office" +:+ nl
       +:+ "Exec=" +:+ productName +:+ nl
       +:+ "Icon=" +:+ productName +:+ nl
       +:+ "Name=" +:+ productName +:+ nl
       +:+ "Name[zh_CN]=" +:+ env_text env "NAME_ZH" +:+ nl
       +:+ "StartupNotify=true" +:+ nl
       +:+ "Terminal=false" +:+ nl
       +:+ "Type=Application" +:+ nl;
     LinuxVars.desktopEntryPath := "src-tauri/assets/" +:+ productName +:+ ".desktop";
     LinuxVars.desktopConfig :=
       ("/usr/share/applications/" +:+ productName +:+ ".desktop",
        "assets/" +:+ productName +:+ ".desktop") |}.

Definition platforms_darwin : DarwinVars.t :=
  {| DarwinVars.configFile := "src-tauri/tauri.macos.conf.json";
     DarwinVars.iconPath := "src-tauri/icons/" +:+ env_text env "NAME" +:+ ".icns";
     DarwinVars.defaultIcon := "src-tauri/icons/icon.icns";
     DarwinVars.icons := ["icons/" +:+ env_text env "NAME" +:+ ".icns"] |}.

Definition platforms_win32 : Win32Vars.t :=
  {| Win32Vars.configFile := "src-tauri/tauri.windows.conf.json";
     Win32Vars.iconPath := "src-tauri/png/" +:+ env_text env "NAME" +:+ "_256.ico";
     Win32Vars.hdIconPath := "src-tauri/png/" +:+ env_text env "NAME" +:+ "_256.ico";
     Win32Vars.defaultIcon := "src-tauri/png/icon_256.ico";
     Win32Vars.hdDefaultIcon := "src-tauri/png/icon_256.ico";
     Win32Vars.icons := ["png/" +:+ env_text env "NAME" +:+ "_256.ico"];
     Win32Vars.resources := ["png/" +:+ env_text env "NAME" +:+ "_256.ico"] |}.

(** [CONFIG.platforms[platform]] *)
Definition platforms (p : NodePlatform) : option PlatformVars :=
  match p with
  | linux => Some (OfLinux platforms_linux)
  | darwin => Some (OfDarwin platforms_darwin)
  | win32 => Some (OfWin32 platforms_win32)
  | _ => None
  end.

End WithEnv.
End CONFIG.

(** The digits captured by [/(\d+)\.png$/] in [path], if the expression
    matches: the longest run of digits just before a final ".png". *)
Definition is_digit (c : ascii) : bool :=
  let n := nat_of_ascii c in (48 <=? n)%nat && (n <=? 57)%nat.

Fixpoint take_digits (s : string) : string :=
  match s with
  | String c s' => if is_digit c then String c (take_digits s') else EmptyString
  | EmptyString => EmptyString
  end.

Definition match_png_size (path : string) : option string :=
  if endsWith path ".png" then
    let stem := String.substring 0 (String.length path - 4) path in
    let digits := String.rev (take_digits (String.rev stem)) in
    if String.eqb digits "" then None else Some digits
  else None.

Section Script.
Variable h : Host.
Variable env : gmap string string.

(** *** File system and library calls *)

Definition existsSync (path : string) : M bool :=
  fun w => (Ret (exists_on_disk w path), w).

Definition writeFileSync (path : string) (data : bytes) : M unit :=
  emit (WriteFile path data) ;;
  primitive (fun w =>
    if bool_decide (path ∈ dirs w) then
      (Throw ("EISDIR: illegal operation on a directory, open '" +:+ path +:+ "'"), w)
    else
      match fs_fault h (OpWrite path) with
      | Some e => (Throw e, w)
      | None => (Ret tt, set_files (<[path := data]> (files w)) w)
      end).

Definition copyFileSync (src dst : string) : M unit :=
  emit (CopyFile src dst) ;;
  primitive (fun w =>
    match files w !! src with
    | None =>
        (Throw ("ENOENT: no such file or directory, copyfile '" +:+ src
                +:+ "' -> '" +:+ dst +:+ "'"), w)
    | Some data =>
        if bool_decide (dst ∈ dirs w) then
          (Throw ("EISDIR: illegal operation on a directory, copyfile '" +:+ src
                  +:+ "' -> '" +:+ dst +:+ "'"), w)
        else
          match fs_fault h (OpWrite dst) with
          | Some e => (Throw e, w)
          | None => (Ret tt, set_files (<[dst := data]> (files w)) w)
          end
    end).

(** [mkdirSync(dir, { recursive: true })] *)
Definition mkdirSync (dir : string) : M unit :=
  emit (MkDir dir) ;;
  primitive (fun w =>
    match fs_fault h (OpMkdir dir) with
    | Some e => (Throw e, w)
    | None => (Ret tt, set_dirs ({[dir]} ∪ dirs w) w)
    end).

(** [await axios.get(url, { responseType: "arraybuffer" })], then
    [Buffer.from(response.data)] *)
Definition axios_get (get : string -> Res bytes) (url : string) : M bytes :=
  emit (HttpGet url) ;; lift (get url).

(** [await sharp(buffer)...toBuffer()] *)
Definition sharp_buffer (steps : list SharpStep) (buffer : bytes) : M bytes :=
  emit (SharpCall steps (FromBuffer buffer)) ;; lift (sharp h steps buffer).

(** [await sharp(path)...toBuffer()] *)
Definition sharp_path (steps : list SharpStep) (path : string) : M bytes :=
  emit (SharpCall steps (FromPath path)) ;;
  primitive (fun w =>
    match files w !! path with
    | Some data => lift (sharp h steps data) w
    | None => (Throw ("Input file is missing: " +:+ path), w)
    end).

(** [await icongen(src, dir, { report: false, ico: { name, sizes } })]:
    writes [dir/name.ico]. *)
Definition icongen_ico (src dir name : string) (sizes : list Z) : M unit :=
  emit (IconGen src dir name sizes) ;;
  primitive (fun w =>
    match icongen h (files w !! src) sizes with
    | Ok data =>
        (Ret tt, set_files (<[dir +:+ "/" +:+ name +:+ ".ico" := data]> (files w)) w)
    | Err e => (Throw e, w)
    end).

(** *** Environment validation *)

Definition validateEnvironment : M unit :=
  let missing := filter (fun key => env !! key = None) requiredEnvVars in
  (if (0 <? length missing)%nat then
     console_error ("Missing required environment variables: "
                    +:+ String.concat ", " missing) ;;
     process_exit 1
   else mret tt) ;;
  console_log "Environment variables:" ;;
  forEach requiredEnvVars
    (fun key => console_log ("  " +:+ key +:+ ": " +:+ env_text env key)).

(** *** Base configuration *)

(** [process.env[k] === "true"] *)
Definition env_is_true (k : string) : json :=
  JBool (bool_decide (env !! k = Some "true")).

(** [if (b) { m }] *)
Definition when (b : bool) (m : M unit) : M unit := if b then m else mret tt.

Definition window0 : list key := [Prop_ "windows"; Idx 0].

Definition updateBaseConfigs : M unit :=
  console_log "Updating base configurations..." ;;
  console_log ("URL: " +:+ env_text env "URL") ;;
  console_log ("NAME: " +:+ env_text env "NAME") ;;
  console_log ("TITLE: " +:+ env_text env "TITLE") ;;
  console_log ("WIDTH: " +:+ env_text env "WIDTH") ;;
  console_log ("HEIGHT: " +:+ env_text env "HEIGHT") ;;
  console_log ("HIDE_TITLE_BAR: " +:+ env_text env "HIDE_TITLE_BAR") ;;
  console_log ("SHOW_SYSTEM_TRAY: " +:+ env_text env "SHOW_SYSTEM_TRAY") ;;
  console_log ("FORCE_INTERNAL_NAVIGATION: "
               +:+ env_text env "FORCE_INTERNAL_NAVIGATION") ;;
  console_log ("ICON: " +:+ env_text env "ICON") ;;
  (* Update pake.json *)
  assign_config PakeJson window0 "url" (env_value env "URL") ;;
  (* Update window configuration *)
  when (env_truthy env "WIDTH")
    (let width := parseInt h (env_text env "WIDTH") in
     assign_config PakeJson window0 "width" width ;;
     console_log ("Set window width to: " +:+ js_text width)) ;;
  when (env_truthy env "HEIGHT")
    (let height := parseInt h (env_text env "HEIGHT") in
     assign_config PakeJson window0 "height" height ;;
     console_log ("Set window height to: " +:+ js_text height)) ;;
  when (env_truthy env "FULLSCREEN")
    (let fullscreen := env_is_true "FULLSCREEN" in
     assign_config PakeJson window0 "fullscreen" fullscreen ;;
     console_log ("Set fullscreen to: " +:+ js_text fullscreen)) ;;
  when (env_truthy env "HIDE_TITLE_BAR")
    (let hideTitleBar := env_is_true "HIDE_TITLE_BAR" in
     assign_config PakeJson window0 "hide_title_bar" hideTitleBar ;;
     console_log ("Set hide_title_bar to: " +:+ js_text hideTitleBar)) ;;
  when (env_truthy env "FORCE_INTERNAL_NAVIGATION")
    (let forceInternalNav := env_is_true "FORCE_INTERNAL_NAVIGATION" in
     assign_config PakeJson window0 "force_internal_navigation" forceInternalNav ;;
     console_log ("Set force_internal_navigation to: "
                  +:+ js_text forceInternalNav)) ;;
  (* Update system tray configuration *)
  when (env_truthy env "SHOW_SYSTEM_TRAY")
    (let showTray := env_is_true "SHOW_SYSTEM_TRAY" in
     assign_config PakeJson [Prop_ "system_tray"] "macos" showTray ;;
     assign_config PakeJson [Prop_ "system_tray"] "linux" showTray ;;
     assign_config PakeJson [Prop_ "system_tray"] "windows" showTray ;;
     console_log ("Set system tray to: " +:+ js_text showTray
                  +:+ " for all platforms")) ;;
  (* Update system tray icon path in pake.json *)
  tray_path ← read_config PakeJson [Prop_ "system_tray_path"];
  when (truthy tray_path)
    (let path := "icons/" +:+ env_text env "NAME" +:+ ".png" in
     assign_config PakeJson [] "system_tray_path" (JStr path) ;;
     console_log ("Set system tray icon path to: " +:+ path)) ;;
  (* Update tauri.conf.json *)
  assign_config TauriJson [] "productName" (env_value env "TITLE") ;;
  assign_config TauriJson [] "identifier" (JStr (CONFIG.identifier env)) ;;
  console_log ("Set product name to: " +:+ env_text env "TITLE") ;;
  console_log ("Set identifier to: " +:+ CONFIG.identifier env) ;;
  (* Update tray icon path in tauri.conf.json *)
  app ← read_config TauriJson [Prop_ "app"];
  trayIcon ← (if truthy app then read_config TauriJson [Prop_ "app"; Prop_ "trayIcon"]
              else mret app);
  when (truthy trayIcon)
    (let path := "png/" +:+ env_text env "NAME" +:+ "_512.png" in
     assign_config TauriJson [Prop_ "app"; Prop_ "trayIcon"] "iconPath" (JStr path) ;;
     console_log ("Set tauri tray icon path to: " +:+ path)).

(** *** Icons *)

Definition downloadIcon (url destinationPath : string) : M bool :=
  match axios h with
  | None =>
      console_error "Cannot download icon: axios not available" ;;
      mret false
  | Some get =>
      try_catch
        (console_log ("Downloading icon from " +:+ url +:+ " to " +:+ destinationPath) ;;
         response ← axios_get get url;
         (* Ensure the directory exists *)
         let dir := path_join h destinationPath ".." in
         dir_exists ← existsSync dir;
         when (negb dir_exists) (mkdirSync dir) ;;
         (* Convert the icon; an .ico target keeps the original bytes *)
         buffer ← try_catch
           (let isIco := endsWith destinationPath ".ico" in
            let isPng := endsWith destinationPath ".png" in
            if isPng then
              sharp_buffer [Resize (JNum 512) (JNum 512); Png9] response
            else if negb isIco then
              sharp_buffer [Resize (JNum 512) (JNum 512)] response
            else mret response)
           (fun conversionError =>
              console_warn ("Icon conversion failed, using original: "
                            +:+ conversionError) ;;
              mret response);
         writeFileSync destinationPath buffer ;;
         console_log ("Icon downloaded and processed successfully to "
                      +:+ destinationPath) ;;
         mret true)
        (fun error =>
           console_error ("Failed to download icon from " +:+ url +:+ ": " +:+ error) ;;
           mret false)
  end.

Definition ensureRgbaPng (iconPath : string) : M unit :=
  try_catch
    (buffer ← sharp_path [EnsureAlpha; PngForce] iconPath;
     writeFileSync iconPath buffer)
    (fun error =>
       console_warn ("Failed to normalize " +:+ iconPath +:+ " to RGBA: " +:+ error)).

(** The body of the [try] in the loop over the possible sources: derive
    [iconPath] from [source]. *)
Definition generate_from_source (iconPath source : string) : M unit :=
  let isPng := endsWith iconPath ".png" in
  let isIco := endsWith iconPath ".ico" in
  if isIco then
    (* For ICO files, copy the ICO binary directly *)
    copyFileSync source iconPath
  else
    let size := if isPng then JNum 512 else JNum 256 in
    buffer ← sharp_path [Resize size size] source;
    buffer ← (if isPng then sharp_buffer [Png9] buffer else mret buffer);
    writeFileSync iconPath buffer.

(** [for (const source of possibleSources) { ... break; ... }]: the result
    is [sourceFound]. *)
Fixpoint try_sources (iconPath description : string) (sources : list string)
  : M bool :=
  match sources with
  | [] => mret false
  | source :: rest =>
      present ← existsSync source;
      if (present : bool) then
        console_log ("Found source icon at " +:+ source +:+ ", generating "
                     +:+ description) ;;
        generated ← try_catch
          (generate_from_source iconPath source ;;
           console_log ("Generated " +:+ description +:+ " from " +:+ source) ;;
           mret true)
          (fun error =>
             console_warn ("Failed to generate " +:+ description +:+ " from "
                           +:+ source +:+ ": " +:+ error) ;;
             mret false);
        if (generated : bool) then mret true else try_sources iconPath description rest
      else try_sources iconPath description rest
  end.

Definition possibleSources (defaultPath : string) : list string :=
  ["src-tauri/icons/icon.icns";
   "src-tauri/png/icon_512.png";
   "src-tauri/png/icon_32.ico";
   defaultPath].

(** The second [if (!existsSync(iconPath))] block: known sources, then the
    default icon.  The result is the new value of [iconCreated]. *)
Definition create_from_sources (iconPath defaultPath description : string)
    (iconCreated : bool) : M bool :=
  sourceFound ← try_sources iconPath description (possibleSources defaultPath);
  (* Final fallback - copy default icon *)
  default_exists ← existsSync defaultPath;
  if negb (sourceFound : bool) && (default_exists : bool) then
    console_warn ("Using default icon for " +:+ description) ;;
    copyFileSync defaultPath iconPath ;;
    mret true
  else mret (iconCreated || sourceFound).

(** The custom icon URL: [process.env.ICON && process.env.ICON.startsWith("http")] *)
Definition has_icon_url : bool :=
  env_truthy env "ICON" && startsWith (env_text env "ICON") "http".

Definition ensureIconExists (iconPath defaultPath description : string)
    (ensureRgba : bool) : M unit :=
  icon_exists ← existsSync iconPath;
  iconCreated ←
    (if negb (icon_exists : bool) then
       (* Check if we have a custom icon URL *)
       iconCreated ←
         (if has_icon_url then
            console_log ("Attempting to download custom icon from "
                         +:+ env_text env "ICON") ;;
            downloaded ← downloadIcon (env_text env "ICON") iconPath;
            if (downloaded : bool) then
              console_log ("Successfully downloaded " +:+ description +:+ " from URL") ;;
              mret true
            else
              console_warn ("Failed to download " +:+ description
                            +:+ ", trying fallback options") ;;
              mret false
          else mret false);
       (* If icon still doesn't exist, try to create it from a source *)
       icon_exists ← existsSync iconPath;
       if negb (icon_exists : bool) then
         create_from_sources iconPath defaultPath description iconCreated
       else mret iconCreated
     else mret true);
  (* Additional processing for PNG icons *)
  icon_exists ← existsSync iconPath;
  when (ensureRgba && iconCreated && icon_exists && endsWith iconPath ".png")
    (try_catch (ensureRgbaPng iconPath)
       (fun error => console_warn ("Failed to normalize PNG to RGBA: " +:+ error))) ;;
  (* Final validation *)
  icon_exists ← existsSync iconPath;
  when (negb icon_exists && negb (bool_decide (env !! "PAKE_CREATE_APP" = Some "1")))
    (console_error ("Failed to create " +:+ description +:+ " at " +:+ iconPath)).

(** *** Platform configuration *)

Definition updatePlatformConfig (platformConfig : ConfigRef) (icons : list string)
  : M unit :=
  (* Ensure bundle object exists *)
  bundle ← read_config platformConfig [Prop_ "bundle"];
  when (negb (truthy bundle))
    (assign_config platformConfig [] "bundle" (JObj [])) ;;
  assign_config platformConfig [Prop_ "bundle"] "icon" (JArr (map JStr icons) []) ;;
  assign_config platformConfig [] "identifier" (JStr (CONFIG.identifier env)) ;;
  assign_config platformConfig [] "productName" (env_value env "TITLE").

Definition macosIcons : list string :=
  ["src-tauri/png/icon_128.png";
   "src-tauri/png/icon_256.png";
   "src-tauri/png/icon_512.png"].

(** The first of the sources that exists, or [null]. *)
Fixpoint find_source (sources : list string) : M (option string) :=
  match sources with
  | [] => mret None
  | source :: rest =>
      present ← existsSync source;
      if (present : bool) then mret (Some source) else find_source rest
  end.

Definition generate_macos_icon (sourceIcon iconPath : string) : M unit :=
  present ← existsSync iconPath;
  when (negb present)
    (try_catch
       (digits ← match match_png_size iconPath with
                 | Some d => mret d
                 | None => throw "Cannot read properties of null (reading '1')"
                 end;
        let size := parseInt h digits in
        console_log ("Generating macOS icon size " +:+ js_text size +:+ "x"
                     +:+ js_text size) ;;
        buffer ← sharp_path [Resize size size; Png9] sourceIcon;
        writeFileSync iconPath buffer ;;
        console_log ("Generated macOS icon: " +:+ iconPath))
       (fun error =>
          console_warn ("Failed to generate " +:+ iconPath +:+ ": " +:+ error))).

Definition platformHandlers_linux (config : LinuxVars.t) : M unit :=
  ensureIconExists (LinuxVars.iconPath config) (LinuxVars.defaultIcon config)
    "Linux icon" true ;;
  (* Update desktop entry *)
  assign_config LinuxJson [Prop_ "bundle"; Prop_ "linux"; Prop_ "deb"] "files"
    (JObj [(fst (LinuxVars.desktopConfig config),
            JStr (snd (LinuxVars.desktopConfig config)))]) ;;
  writeFileSync (LinuxVars.desktopEntryPath config)
    (utf8 (LinuxVars.desktopEntry config)) ;;
  updatePlatformConfig LinuxJson (LinuxVars.icons config).

Definition platformHandlers_darwin (config : DarwinVars.t) : M unit :=
  ensureIconExists (DarwinVars.iconPath config) (DarwinVars.defaultIcon config)
    "macOS icon" false ;;
  (* Find a source icon to generate from *)
  sourceIcon ← find_source
    [DarwinVars.iconPath config;
     "src-tauri/png/icon_512.png";
     "src-tauri/png/icon_256.png";
     "src-tauri/png/icon_128.png";
     DarwinVars.defaultIcon config];
  match sourceIcon with
  | Some sourceIcon => forEach macosIcons (generate_macos_icon sourceIcon)
  | None => mret tt
  end ;;
  updatePlatformConfig MacosJson (DarwinVars.icons config).

Definition ico_sizes : list Z := [16; 32; 48; 64; 128; 256].

(** The block [if (!existsSync(config.iconPath)) { try { icongen } catch { copy
    the default } }] of the win32 handler. *)
Definition generate_windows_ico (config : Win32Vars.t) (basePngPath : string)
  : M unit :=
  ico_exists ← existsSync (Win32Vars.iconPath config);
  when (negb ico_exists)
    (try_catch
       (console_log ("Generating Windows ICO from " +:+ basePngPath +:+ " -> "
                     +:+ Win32Vars.iconPath config) ;;
        icongen_ico basePngPath "src-tauri/png" (env_text env "NAME" +:+ "_256")
          ico_sizes)
       (fun error =>
          console_warn ("Failed to generate Windows ICO: " +:+ error) ;;
          default_exists ← existsSync (Win32Vars.defaultIcon config);
          when default_exists
            (console_warn "Falling back to default Windows icon" ;;
             copyFileSync (Win32Vars.defaultIcon config)
               (Win32Vars.iconPath config)))).

Definition platformHandlers_win32 (config : Win32Vars.t) : M unit :=
  (* Ensure a base 512x512 PNG exists for this app *)
  let basePngPath := "src-tauri/png/" +:+ env_text env "NAME" +:+ "_512.png" in
  ensureIconExists basePngPath "src-tauri/png/icon_512.png"
    "Windows base icon PNG" true ;;
  (* Generate a multi-size ICO from the base PNG using icon-gen *)
  generate_windows_ico config basePngPath ;;
  (* Update both bundle.icon and bundle.resources for Windows *)
  assign_config WindowsJson [Prop_ "bundle"] "resources"
    (JArr (map JStr (Win32Vars.resources config)) []) ;;
  updatePlatformConfig WindowsJson (Win32Vars.icons config).

(** [platformHandlers[platform](CONFIG.platforms[platform])] *)
Definition platformHandlers (platformConfig : PlatformVars) : M unit :=
  match platformConfig with
  | OfLinux config => platformHandlers_linux config
  | OfDarwin config => platformHandlers_darwin config
  | OfWin32 config => platformHandlers_win32 config
  end.

Definition saveConfigurations : M unit :=
  let configs :=
    [(CONFIG.paths_pakeConfig, PakeJson);
     (CONFIG.paths_tauriConfig, TauriJson);
     (LinuxVars.configFile (CONFIG.platforms_linux env), LinuxJson);
     (DarwinVars.configFile (CONFIG.platforms_darwin env), MacosJson);
     (Win32Vars.configFile (CONFIG.platforms_win32 env), WindowsJson)] in
  forEach configs
    (fun '(path, data) =>
       text ← primitive (fun w => (Ret (JSON_stringify h (config data w)), w));
       writeFileSync path (utf8 (text +:+ nl))).

(** *** Main execution *)

Definition main : M unit :=
  try_catch
    (validateEnvironment ;;
     updateBaseConfigs ;;
     let platform := os_platform h in
     match CONFIG.platforms env platform with
     | None => throw ("Unsupported platform: " +:+ platform_name platform)
     | Some platformConfig => platformHandlers platformConfig
     end ;;
     saveConfigurations ;;
     console_log ("✅ Tauri configuration complete for " +:+ platform_name platform))
    (fun error =>
       console_error ("❌ Configuration failed: " +:+ error) ;;
       process_exit 1).

End Script.

(** The exit status of the process running [main]. *)
Definition exit_code (o : Outcome unit) : Z :=
  match o with
  | Ret _ => 0
  | Throw _ => 1
  | Exit c => c
  end.

(** * Vocabulary for stating properties of runs *)

(** ** Relations between the world before and after a computation *)

Definition respects {A} (R : relation World) (m : M A) : Prop :=
  forall w, R w (m w).2.

(** [f] has the same value afterwards. *)
Definition same {X} (f : World -> X) : relation World :=
  fun w w' => f w' = f w.

(** The calls made are all in [P]. *)
Definition trace_grows (P : Event -> Prop) : relation World :=
  fun w w' => exists new, trace w' = new ++ trace w /\ Forall P new.

(** [Q] is not lost. *)
Definition keeps (Q : World -> Prop) : relation World :=
  fun w w' => Q w -> Q w'.

Definition both (R1 R2 : relation World) : relation World :=
  fun w w' => R1 w w' /\ R2 w w'.

(** [Q] holds whenever the computation returns. *)
Definition establishes {A} (Q : World -> Prop) (m : M A) : Prop :=
  forall w a w', m w = (Ret a, w') -> Q w'.

(** The computation never calls [process.exit]. *)
Definition no_exit {A} (m : M A) : Prop :=
  forall w c, (m w).1 <> Exit c.

(** What a member expression reads in an imported JSON module. *)
Definition field (r : ConfigRef) (q : list key) (w : World) : Res json :=
  js_read q (config r w).

Definition is_container (v : json) : bool :=
  match v with
  | JObj _ | JArr _ _ => true
  | _ => false
  end.

Definition key_eqb (k k' : key) : bool :=
  match k, k' with
  | Prop_ s, Prop_ s' => String.eqb s s'
  | Idx i, Idx j => Nat.eqb i j
  | _, _ => false
  end.

(** Two member expressions that part at some step into different members. *)
Fixpoint diverge (p q : list key) : bool :=
  match p, q with
  | k :: p', k' :: q' =>
      if key_eqb k k' then diverge p' q'
      else negb (String.eqb (key_name k) (key_name k'))
  | _, _ => false
  end.

(** Kinds of calls. *)
Definition is_console (e : Event) : Prop :=
  match e with
  | Console _ _ => True
  | _ => False
  end.

(** Only console output, no change to the file store. *)
Definition quiet : relation World :=
  both (same files) (both (same dirs) (trace_grows is_console)).

(** ** Sample inputs *)

(** [a] without its last segment. *)
Fixpoint drop_segment (s : string) : string :=
  match s with
  | EmptyString => EmptyString
  | String c s' => if Ascii.eqb c "/" then s' else drop_segment s'
  end.

Definition parent_dir (a : string) : string :=
  String.rev (drop_segment (String.rev a)).

Definition sample_host (p : NodePlatform) : Host :=
  {| os_platform := p;
     axios := Some (fun url => Ok [Byte.x01]);
     sharp := fun steps data => Ok (Byte.x02 :: data);
     icongen := fun src sizes =>
       match src with
       | Some data => Ok (Byte.x03 :: data)
       | None => Err "source not found"
       end;
     fs_fault := fun _ => None;
     path_join := fun a b =>
       if String.eqb b ".." then parent_dir a else a +:+ "/" +:+ b;
     parseInt := fun s => if String.eqb s "800" then JNum 800 else JNaN;
     JSON_stringify := fun v => js_text v |}.

Definition sample_env : gmap string string :=
  <["URL" := "https://example.com"]>
    (<["NAME" := "Foo"]> (<["TITLE" := "Foo App"]> (<["NAME_ZH" := "Fu"]> ∅))).

Definition sample_pake : json :=
  JObj [("windows",
         JArr [JObj [("url", JStr "https://weekly.tw93.fun/");
                     ("width", JNum 1200); ("height", JNum 780);
                     ("fullscreen", JBool false)]] []);
        ("system_tray",
         JObj [("macos", JBool false); ("linux", JBool true);
               ("windows", JBool true)])].

Definition sample_world : World :=
  {| files := <["src-tauri/png/icon_512.png" := [Byte.x09]]> ∅;
     dirs := ∅;
     pakeJson := sample_pake;
     tauriJson := JObj [("productName", JStr "Weekly")];
     windowsJson := JObj [("bundle", JObj [])];
     macosJson := JObj [];
     linuxJson := JObj [("bundle", JObj [("linux", JObj [("deb", JObj [])])])];
     trace := [] |}.

(** ** The optional overrides of the base configuration

    Each entry: the environment variable, the member of pake.json it
    overrides, and the value stored. *)
Definition overrides (h : Host) (env : gmap string string)
  : list (string * list key * json) :=
  [("WIDTH", window0 ++ [Prop_ "width"], parseInt h (env_text env "WIDTH"));
   ("HEIGHT", window0 ++ [Prop_ "height"], parseInt h (env_text env "HEIGHT"));
   ("FULLSCREEN", window0 ++ [Prop_ "fullscreen"], env_is_true env "FULLSCREEN");
   ("HIDE_TITLE_BAR", window0 ++ [Prop_ "hide_title_bar"],
    env_is_true env "HIDE_TITLE_BAR");
   ("FORCE_INTERNAL_NAVIGATION", window0 ++ [Prop_ "force_internal_navigation"],
    env_is_true env "FORCE_INTERNAL_NAVIGATION");
   ("SHOW_SYSTEM_TRAY", [Prop_ "system_tray"] ++ [Prop_ "macos"],
    env_is_true env "SHOW_SYSTEM_TRAY");
   ("SHOW_SYSTEM_TRAY", [Prop_ "system_tray"] ++ [Prop_ "linux"],
    env_is_true env "SHOW_SYSTEM_TRAY");
   ("SHOW_SYSTEM_TRAY", [Prop_ "system_tray"] ++ [Prop_ "windows"],
    env_is_true env "SHOW_SYSTEM_TRAY")].

Definition sample_env_sized : gmap string string :=
  <["WIDTH" := "800"]> (<["FULLSCREEN" := "true"]> sample_env).

(** The platform configuration object the handler of a platform edits. *)
Definition active_config (p : NodePlatform) : option ConfigRef :=
  match p with
  | linux => Some LinuxJson
  | darwin => Some MacosJson
  | win32 => Some WindowsJson
  | _ => None
  end.

Definition is_fetch (e : Event) : Prop :=
  match e with
  | HttpGet _ => True
  | _ => False
  end.

Definition sample_env_empty_name : gmap string string :=
  <["NAME" := ""]> sample_env.

Definition sample_env_local_icon : gmap string string :=
  <["ICON" := "/home/me/icon.png"]> sample_env.

(** The calls of the RGBA normalisation of the PNG at [p]. *)
Definition rgba_only (p : string) (e : Event) : Prop :=
  match e with
  | Console Warn _ => True
  | SharpCall steps input => steps = [EnsureAlpha; PngForce] /\ input = FromPath p
  | WriteFile q _ => q = p
  | _ => False
  end.

Definition sample_world_with_icon : World :=
  set_files (<["src-tauri/png/Foo_512.png" := [Byte.x05]]> (files sample_world))
    sample_world.

(** The calls of the copy-through path to the target [p]: no sharp call, no
    icon generation; a write to [p] of the body of the response to [url],
    as received; copies to [p]. *)
Definition copied_through (h : Host) (url p : string) (e : Event) : Prop :=
  match e with
  | SharpCall _ _ => False
  | IconGen _ _ _ _ => False
  | WriteFile q data => q = p /\ exists get, axios h = Some get /\ get url = Ok data
  | CopyFile _ q => q = p
  | _ => True
  end.

Definition sample_env_remote_icon : gmap string string :=
  <["ICON" := "https://example.com/icon.png"]> sample_env.

(** The download of [url] fails: axios is not available, or the request
    throws. *)
Definition fetch_fails (h : Host) (url : string) : Prop :=
  axios h = None \/ exists get e, axios h = Some get /\ get url = Err e.

(** The resize pipeline of the known-source tier for the target [p]. *)
Definition source_resize (p : string) : list SharpStep :=
  let size := if endsWith p ".png" then JNum 512 else JNum 256 in
  [Resize size size].

(** The conversion pipeline of the download tier for the target [p]. *)
Definition download_conversion (p : string) : list SharpStep :=
  if endsWith p ".png" then [Resize (JNum 512) (JNum 512); Png9]
  else [Resize (JNum 512) (JNum 512)].

Definition is_error_line (e : Event) : Prop :=
  match e with
  | Console Error _ => True
  | _ => False
  end.

(** A host on which every image conversion fails. *)
Definition sample_host_no_sharp (p : NodePlatform) : Host :=
  {| os_platform := p;
     axios := axios (sample_host p);
     sharp := fun steps data => Err "Input buffer contains unsupported image format";
     icongen := icongen (sample_host p);
     fs_fault := fs_fault (sample_host p);
     path_join := path_join (sample_host p);
     parseInt := parseInt (sample_host p);
     JSON_stringify := JSON_stringify (sample_host p) |}.

(** A host on which axios throws and icon-gen fails. *)
Definition sample_host_offline (p : NodePlatform) : Host :=
  {| os_platform := p;
     axios := Some (fun url => Err "getaddrinfo ENOTFOUND");
     sharp := sharp (sample_host p);
     icongen := fun src sizes => Err "icon generation failed";
     fs_fault := fs_fault (sample_host p);
     path_join := path_join (sample_host p);
     parseInt := parseInt (sample_host p);
     JSON_stringify := JSON_stringify (sample_host p) |}.

Definition sample_world_dirs : World :=
  set_dirs {["src-tauri/png"]} sample_world.

Definition sample_world_win32 : World :=
  set_files (<["src-tauri/png/icon_256.ico" := [Byte.x07]]> (files sample_world))
    sample_world_dirs.

Definition is_icongen (e : Event) : bool :=
  match e with
  | IconGen _ _ _ _ => true
  | _ => false
  end.

(** The invocations of the icon generator in a trace. *)
Definition generator_calls (t : list Event) : list Event :=
  List.filter is_icongen t.

(** The base PNG of the win32 handler. *)
Definition win32_basePng (env : gmap string string) : string :=
  "src-tauri/png/" +:+ env_text env "NAME" +:+ "_512.png".

(** The one invocation of the icon generator by the win32 handler. *)
Definition win32_generator_call (env : gmap string string) : Event :=
  IconGen (win32_basePng env) "src-tauri/png" (env_text env "NAME" +:+ "_256")
    [16; 32; 48; 64; 128; 256].

Definition sample_world_with_ico : World :=
  set_files (<["src-tauri/png/Foo_256.ico" := [Byte.x08]]>
               (files sample_world_with_icon))
    sample_world_with_icon.

(** ** Further vocabulary *)

(** The files [saveConfigurations] writes, with the object each one holds. *)
Definition saved_files (env : gmap string string) : list (string * ConfigRef) :=
  [(CONFIG.paths_pakeConfig, PakeJson);
   (CONFIG.paths_tauriConfig, TauriJson);
   (LinuxVars.configFile (CONFIG.platforms_linux env), LinuxJson);
   (DarwinVars.configFile (CONFIG.platforms_darwin env), MacosJson);
   (Win32Vars.configFile (CONFIG.platforms_win32 env), WindowsJson)].

(** The text written for a configuration object. *)
Definition saved_text (h : Host) (v : json) : bytes :=
  utf8 (JSON_stringify h v +:+ nl).

(** The last two blocks of [ensureIconExists] ("Additional processing for PNG
    icons" and "Final validation"), as a function of [iconCreated]. *)
Definition icon_postprocess (h : Host) (env : gmap string string)
    (iconPath description : string) (ensureRgba iconCreated : bool) : M unit :=
  icon_exists ← existsSync iconPath;
  when (ensureRgba && iconCreated && icon_exists && endsWith iconPath ".png")
    (try_catch (ensureRgbaPng h iconPath)
       (fun error => console_warn ("Failed to normalize PNG to RGBA: " +:+ error))) ;;
  icon_exists ← existsSync iconPath;
  when (negb icon_exists && negb (bool_decide (env !! "PAKE_CREATE_APP" = Some "1")))
    (console_error ("Failed to create " +:+ description +:+ " at " +:+ iconPath)).

(** [config.icons] of an entry of [CONFIG.platforms]. *)
Definition platform_icons (pc : PlatformVars) : list string :=
  match pc with
  | OfLinux c => LinuxVars.icons c
  | OfDarwin c => DarwinVars.icons c
  | OfWin32 c => Win32Vars.icons c
  end.

(** A world whose linux configuration object is empty. *)
Definition sample_world_bare_linux : World :=
  set_config LinuxJson (JObj []) sample_world.

(** * Reasoning about runs *)

Lemma bind_run {A B} (m : M A) (f : A -> M B) (w : World) :
  (m ≫= f) w =
  match m w with
  | (Ret a, w') => f a w'
  | (Throw e, w') => (Throw e, w')
  | (Exit c, w') => (Exit c, w')
  end.
Proof. reflexivity. Qed.

(** A successful sequence is a successful first part followed by a
    successful second part. *)
Lemma bind_ret_inv {A B} (m : M A) (f : A -> M B) (w w' : World) (b : B) :
  (m ≫= f) w = (Ret b, w') ->
  exists a w1, m w = (Ret a, w1) /\ f a w1 = (Ret b, w').
Proof.
  rewrite bind_run. destruct (m w) as [[a | e | c] w1]; intros H.
  - exists a, w1. split; [reflexivity | exact H].
  - discriminate H.
  - discriminate H.
Qed.

Global Instance same_preorder {X} (f : World -> X) : PreOrder (same f).
Proof.
  split.
  - intros w. reflexivity.
  - intros w1 w2 w3 H12 H23. unfold same in *. congruence.
Qed.

Global Instance trace_grows_preorder (P : Event -> Prop) : PreOrder (trace_grows P).
Proof.
  split.
  - intros w. exists []. split; [reflexivity | constructor].
  - intros w1 w2 w3 (n1 & E1 & F1) (n2 & E2 & F2).
    exists (n2 ++ n1). split.
    + rewrite E2, E1. apply app_assoc.
    + apply Forall_app. split; assumption.
Qed.

Global Instance keeps_preorder (Q : World -> Prop) : PreOrder (keeps Q).
Proof.
  split.
  - intros w H. exact H.
  - intros w1 w2 w3 H12 H23 H. apply H23, H12, H.
Qed.

Global Instance both_preorder (R1 R2 : relation World)
  `{!PreOrder R1} `{!PreOrder R2} : PreOrder (both R1 R2).
Proof.
  split.
  - intros w. split; reflexivity.
  - intros w1 w2 w3 [H12 H12'] [H23 H23']. split; etrans; eassumption.
Qed.

Section Respects.
Context (R : relation World) `{!PreOrder R}.

Lemma respects_ret {A} (a : A) : respects R (mret a).
Proof. intros w. simpl. reflexivity. Qed.

Lemma respects_throw {A} (e : string) : respects R (@throw A e).
Proof. intros w. simpl. reflexivity. Qed.

Lemma respects_exit {A} (c : Z) : respects R (@process_exit A c).
Proof. intros w. simpl. reflexivity. Qed.

Lemma respects_lift {A} (r : Res A) : respects R (lift r).
Proof. destruct r; [apply respects_ret | apply respects_throw]. Qed.

Lemma respects_bind {A B} (m : M A) (f : A -> M B) :
  respects R m -> (forall a, respects R (f a)) -> respects R (m ≫= f).
Proof.
  intros Hm Hf w. rewrite bind_run. specialize (Hm w).
  destruct (m w) as [[a | e | c] w1]; simpl in *; try assumption.
  etrans; [exact Hm | apply Hf].
Qed.

Lemma respects_try_catch {A} (body : M A) (handler : string -> M A) :
  respects R body -> (forall e, respects R (handler e)) ->
  respects R (try_catch body handler).
Proof.
  intros Hb Hh w. unfold try_catch. specialize (Hb w).
  destruct (body w) as [[a | e | c] w1]; simpl in *; try assumption.
  etrans; [exact Hb | apply Hh].
Qed.

Lemma respects_if {A} (b : bool) (m1 m2 : M A) :
  respects R m1 -> respects R m2 -> respects R (if b then m1 else m2).
Proof. destruct b; auto. Qed.

Lemma respects_when (b : bool) (m : M unit) :
  respects R m -> respects R (when b m).
Proof. intros H. destruct b; [exact H | apply respects_ret]. Qed.

Lemma respects_forEach {A} (xs : list A) (f : A -> M unit) :
  (forall x, respects R (f x)) -> respects R (forEach xs f).
Proof.
  intros Hf. induction xs as [| x xs IH]; simpl.
  - apply respects_ret.
  - apply respects_bind; [apply Hf | intros _; exact IH].
Qed.

Lemma respects_read_config (r : ConfigRef) (path : list key) :
  respects R (read_config r path).
Proof.
  intros w. unfold read_config. destruct (js_read path (config r w)); simpl; reflexivity.
Qed.

End Respects.

Lemma respects_both {A} (R1 R2 : relation World) (m : M A) :
  respects R1 m -> respects R2 m -> respects (both R1 R2) m.
Proof. intros H1 H2 w. split; [apply H1 | apply H2]. Qed.

Create HintDb world discriminated.

#[export] Hint Resolve respects_ret respects_throw respects_exit respects_lift
  respects_bind respects_try_catch respects_if respects_when respects_forEach
  respects_read_config : world.

(** ** Member reads and assignments *)

Lemma assoc_get_set_eq (k : string) (x : json) (ps : list (string * json)) :
  assoc_get k (assoc_set k x ps) = x.
Proof.
  induction ps as [| [k' v] ps IH]; simpl.
  - rewrite String.eqb_refl. reflexivity.
  - destruct (String.eqb k k') eqn:E; simpl; rewrite E; [reflexivity | exact IH].
Qed.

Lemma assoc_get_set_ne (k k' : string) (x : json) (ps : list (string * json)) :
  String.eqb k k' = false ->
  assoc_get k' (assoc_set k x ps) = assoc_get k' ps.
Proof.
  intros Hne. induction ps as [| [k0 v] ps IH]; simpl.
  - rewrite String.eqb_sym, Hne. reflexivity.
  - destruct (String.eqb k k0) eqn:E; simpl.
    + apply String.eqb_eq in E. subst k0.
      rewrite String.eqb_sym, Hne. reflexivity.
    + destruct (String.eqb k' k0); [reflexivity | exact IH].
Qed.

Lemma js_assign_container (path : list key) (last : string) (x v v' : json) :
  js_assign path last x v = Ok v' -> is_container v = true.
Proof.
  revert v v'. induction path as [| k path IH]; intros v v' H.
  - destruct v; simpl in H; try discriminate; reflexivity.
  - simpl in H. destruct (js_get k v) as [c |] eqn:G; simpl in H; [| discriminate].
    destruct (js_assign path last x c) as [c' |] eqn:A; simpl in H; [| discriminate].
    apply IH in A.
    destruct v; simpl in G; try reflexivity; try discriminate;
      try (injection G as <-; discriminate A).
    destruct k; injection G as <-; [discriminate A |].
    destruct (String.get i s); discriminate A.
Qed.

Lemma js_get_put_eq (k : key) (c c' v : json) :
  js_get k v = Ok c -> is_container c = true ->
  js_get k (js_put k c' v) = Ok c'.
Proof.
  intros G C. destruct v; simpl in G; try discriminate;
    try (injection G as <-; discriminate C).
  - destruct k; injection G as <-; [discriminate C |].
    destruct (String.get i s); discriminate C.
  - destruct k as [s | i]; simpl.
    + rewrite assoc_get_set_eq. reflexivity.
    + injection G as <-. f_equal.
      rewrite !nth_lookup in *.
      destruct (items !! i) as [y |] eqn:L; simpl in C; [| discriminate C].
      rewrite list_lookup_insert_eq; [reflexivity |].
      eapply lookup_lt_Some. exact L.
  - simpl. rewrite assoc_get_set_eq. reflexivity.
Qed.

(** Reading back the member that was assigned gives the assigned value. *)
Lemma js_read_assign_same (path : list key) (last : string) (x v v' : json) :
  js_assign path last x v = Ok v' ->
  js_read (path ++ [Prop_ last]) v' = Ok x.
Proof.
  revert v v'. induction path as [| k path IH]; intros v v' H.
  - destruct v; simpl in H; try discriminate; injection H as <-; simpl;
      rewrite assoc_get_set_eq; reflexivity.
  - simpl in H. destruct (js_get k v) as [c |] eqn:G; simpl in H; [| discriminate].
    destruct (js_assign path last x c) as [c' |] eqn:A; simpl in H; [| discriminate].
    injection H as <-. simpl.
    rewrite (js_get_put_eq k c c' v G (js_assign_container _ _ _ _ _ A)). simpl.
    eapply IH. exact A.
Qed.

Lemma key_eqb_eq (k k' : key) : key_eqb k k' = true -> k = k'.
Proof.
  destruct k, k'; simpl; intros H; try discriminate.
  - apply String.eqb_eq in H. congruence.
  - apply Nat.eqb_eq in H. congruence.
Qed.

Lemma js_get_put_ne (k k' : key) (c' v : json) :
  key_eqb k k' = false ->
  String.eqb (key_name k) (key_name k') = false ->
  js_get k' (js_put k c' v) = js_get k' v.
Proof.
  intros Hk Hn. destruct v; try reflexivity.
  - destruct k as [s | i], k' as [s' | j]; simpl in *; try reflexivity.
    + rewrite assoc_get_set_ne; [reflexivity | exact Hn].
    + f_equal. rewrite !nth_lookup.
      rewrite list_lookup_insert_ne; [reflexivity |].
      apply Nat.eqb_neq. exact Hk.
  - simpl. rewrite assoc_get_set_ne; [reflexivity | exact Hn].
Qed.

(** An assignment does not change what a diverging member expression reads. *)
Lemma js_read_assign_diverge (path : list key) (last : string) (x v v' : json)
    (q : list key) :
  js_assign path last x v = Ok v' ->
  diverge (path ++ [Prop_ last]) q = true ->
  js_read q v' = js_read q v.
Proof.
  revert v v' q. induction path as [| k path IH]; intros v v' q H D.
  - destruct q as [| k' q]; cbn [app diverge] in D; [discriminate D |].
    destruct (key_eqb (Prop_ last) k') eqn:E; [discriminate D |].
    apply negb_true_iff in D.
    assert (G : js_get k' v' = js_get k' v).
    { destruct v; simpl in H; try discriminate; injection H as <-.
      - destruct k' as [s' | j]; simpl in *; [| reflexivity].
        rewrite assoc_get_set_ne; [reflexivity | exact D].
      - simpl. rewrite assoc_get_set_ne; [reflexivity | exact D]. }
    simpl. rewrite G. reflexivity.
  - simpl in H. destruct (js_get k v) as [c |] eqn:G; simpl in H; [| discriminate].
    destruct (js_assign path last x c) as [c' |] eqn:A; simpl in H; [| discriminate].
    injection H as <-.
    destruct q as [| k' q]; cbn [app diverge] in D; [discriminate D |].
    destruct (key_eqb k k') eqn:E.
    + apply key_eqb_eq in E. subst k'. simpl.
      rewrite (js_get_put_eq k c c' v G (js_assign_container _ _ _ _ _ A)), G. simpl.
      eapply IH; eassumption.
    + apply negb_true_iff in D. simpl.
      rewrite (js_get_put_ne k k' c' v E D). reflexivity.
Qed.

(** ** Effects of the primitives *)

Ltac unfold_prim :=
  unfold existsSync, writeFileSync, copyFileSync, mkdirSync, axios_get,
    sharp_buffer, sharp_path, icongen_ico, console_log, console_warn,
    console_error, assign_config, primitive, emit, lift, throw.

Ltac solve_rel :=
  lazymatch goal with
  | |- both _ _ _ _ => split; solve_rel
  | |- same _ _ _ => reflexivity
  | |- trace_grows _ _ _ =>
      first [ exists []; split; [reflexivity | constructor]
            | eexists [_]; split; [reflexivity | repeat constructor; simpl; auto] ]
  | |- keeps _ _ _ => let H := fresh in intros H; exact H
  end.

Ltac prim_respects :=
  let w := fresh "w" in
  intros w; unfold_prim; rewrite ?bind_run; simpl;
  repeat (case_match; simpl); solve_rel.

#[export] Hint Extern 2 (respects _ (existsSync _)) => prim_respects : world.
#[export] Hint Extern 2 (respects _ (writeFileSync _ _ _)) => prim_respects : world.
#[export] Hint Extern 2 (respects _ (copyFileSync _ _ _)) => prim_respects : world.
#[export] Hint Extern 2 (respects _ (mkdirSync _ _)) => prim_respects : world.
#[export] Hint Extern 2 (respects _ (axios_get _ _)) => prim_respects : world.
#[export] Hint Extern 2 (respects _ (sharp_buffer _ _ _)) => prim_respects : world.
#[export] Hint Extern 2 (respects _ (sharp_path _ _ _)) => prim_respects : world.
#[export] Hint Extern 2 (respects _ (icongen_ico _ _ _ _ _)) => prim_respects : world.
#[export] Hint Extern 2 (respects _ (console_log _)) => prim_respects : world.
#[export] Hint Extern 2 (respects _ (console_warn _)) => prim_respects : world.
#[export] Hint Extern 2 (respects _ (console_error _)) => prim_respects : world.
#[export] Hint Extern 3 (respects _ (assign_config _ _ _ _)) => prim_respects : world.
#[export] Hint Extern 1 (PreOrder _) => apply _ : world.

Lemma updateBaseConfigs_quiet (h : Host) (env : gmap string string) :
  respects quiet (updateBaseConfigs h env).
Proof. unfold updateBaseConfigs, quiet. eauto 100 with world. Qed.

(** ** Computations that never exit *)

Lemma no_exit_ret {A} (a : A) : no_exit (mret a).
Proof. intros w c. discriminate. Qed.

Lemma no_exit_throw {A} (e : string) : no_exit (@throw A e).
Proof. intros w c. discriminate. Qed.

Lemma no_exit_bind {A B} (m : M A) (f : A -> M B) :
  no_exit m -> (forall a, no_exit (f a)) -> no_exit (m ≫= f).
Proof.
  intros Hm Hf w c. rewrite bind_run. specialize (Hm w).
  destruct (m w) as [[a | e | c'] w1]; simpl in *.
  - apply Hf.
  - discriminate.
  - exfalso. eapply Hm. reflexivity.
Qed.

Lemma no_exit_try_catch {A} (body : M A) (handler : string -> M A) :
  no_exit body -> (forall e, no_exit (handler e)) -> no_exit (try_catch body handler).
Proof.
  intros Hb Hh w c. unfold try_catch. specialize (Hb w).
  destruct (body w) as [[a | e | c'] w1]; simpl in *.
  - discriminate.
  - apply Hh.
  - exfalso. eapply Hb. reflexivity.
Qed.

Lemma no_exit_if {A} (b : bool) (m1 m2 : M A) :
  no_exit m1 -> no_exit m2 -> no_exit (if b then m1 else m2).
Proof. destruct b; auto. Qed.

Lemma no_exit_when (b : bool) (m : M unit) : no_exit m -> no_exit (when b m).
Proof. intros H. destruct b; [exact H | apply no_exit_ret]. Qed.

Lemma no_exit_forEach {A} (xs : list A) (f : A -> M unit) :
  (forall x, no_exit (f x)) -> no_exit (forEach xs f).
Proof.
  intros Hf. induction xs as [| x xs IH]; simpl.
  - apply no_exit_ret.
  - apply no_exit_bind; [apply Hf | intros _; exact IH].
Qed.

Lemma no_exit_read_config (r : ConfigRef) (path : list key) :
  no_exit (read_config r path).
Proof.
  intros w c. unfold read_config. destruct (js_read path (config r w)); discriminate.
Qed.

#[export] Hint Resolve no_exit_ret no_exit_throw no_exit_bind no_exit_try_catch
  no_exit_if no_exit_when no_exit_forEach no_exit_read_config : world.

Ltac prim_no_exit :=
  let w := fresh "w" in
  let c := fresh "c" in
  intros w c; unfold_prim; rewrite ?bind_run; simpl;
  repeat (case_match; simpl); discriminate.

#[export] Hint Extern 2 (no_exit (existsSync _)) => prim_no_exit : world.
#[export] Hint Extern 2 (no_exit (writeFileSync _ _ _)) => prim_no_exit : world.
#[export] Hint Extern 2 (no_exit (copyFileSync _ _ _)) => prim_no_exit : world.
#[export] Hint Extern 2 (no_exit (mkdirSync _ _)) => prim_no_exit : world.
#[export] Hint Extern 2 (no_exit (axios_get _ _)) => prim_no_exit : world.
#[export] Hint Extern 2 (no_exit (sharp_buffer _ _ _)) => prim_no_exit : world.
#[export] Hint Extern 2 (no_exit (sharp_path _ _ _)) => prim_no_exit : world.
#[export] Hint Extern 2 (no_exit (icongen_ico _ _ _ _ _)) => prim_no_exit : world.
#[export] Hint Extern 2 (no_exit (console_log _)) => prim_no_exit : world.
#[export] Hint Extern 2 (no_exit (console_warn _)) => prim_no_exit : world.
#[export] Hint Extern 2 (no_exit (console_error _)) => prim_no_exit : world.
#[export] Hint Extern 2 (no_exit (assign_config _ _ _ _)) => prim_no_exit : world.

Lemma updateBaseConfigs_no_exit (h : Host) (env : gmap string string) :
  no_exit (updateBaseConfigs h env).
Proof. unfold updateBaseConfigs. eauto 100 with world. Qed.

(** ** Fields of the configuration objects *)

Lemma config_set_config_eq (r : ConfigRef) (v : json) (w : World) :
  config r (set_config r v w) = v.
Proof. destruct r; reflexivity. Qed.

Lemma config_set_config_ne (r r' : ConfigRef) (v : json) (w : World) :
  r <> r' -> config r' (set_config r v w) = config r' w.
Proof. intros Hne. destruct r, r'; try reflexivity; congruence. Qed.

Lemma assign_config_field_same (r : ConfigRef) (path : list key) (last : string)
    (x : json) (r' : ConfigRef) (q : list key) :
  r <> r' \/ diverge (path ++ [Prop_ last]) q = true ->
  respects (same (field r' q)) (assign_config r path last x).
Proof.
  intros Hcase w. unfold assign_config, same, field.
  destruct (js_assign path last x (config r w)) as [v |] eqn:A; simpl; [| reflexivity].
  destruct (decide (r = r')) as [<- | Hne].
  - rewrite config_set_config_eq. destruct Hcase as [Hne | D]; [congruence |].
    eapply js_read_assign_diverge; eassumption.
  - rewrite config_set_config_ne by exact Hne. reflexivity.
Qed.

Lemma assign_config_establishes (r : ConfigRef) (path : list key) (last : string)
    (x : json) :
  establishes (fun w => field r (path ++ [Prop_ last]) w = Ok x)
    (assign_config r path last x).
Proof.
  intros w a w' H. unfold assign_config in H. unfold field.
  destruct (js_assign path last x (config r w)) as [v |] eqn:A; [| discriminate H].
  injection H as _ <-. rewrite config_set_config_eq.
  eapply js_read_assign_same. exact A.
Qed.

Lemma establishes_bind_l {A B} (Q : World -> Prop) (m : M A) (f : A -> M B) :
  establishes Q m -> (forall a, respects (keeps Q) (f a)) ->
  establishes Q (m ≫= f).
Proof.
  intros Hm Hf w b w' H. apply bind_ret_inv in H. destruct H as (a & w1 & H1 & H2).
  specialize (Hf a w1). rewrite H2 in Hf. apply Hf. eapply Hm. exact H1.
Qed.

Lemma establishes_bind_r {A B} (Q : World -> Prop) (m : M A) (f : A -> M B) :
  (forall a, establishes Q (f a)) -> establishes Q (m ≫= f).
Proof.
  intros Hf w b w' H. apply bind_ret_inv in H. destruct H as (a & w1 & H1 & H2).
  eapply Hf. exact H2.
Qed.

Lemma respects_keeps_of_same {A X} (f : World -> X) (v : X) (m : M A) :
  respects (same f) m -> respects (keeps (fun w => f w = v)) m.
Proof. intros H w Hq. rewrite (H w). exact Hq. Qed.

#[export] Hint Extern 1 (respects (same (field _ _)) (assign_config _ _ _ _)) =>
  apply assign_config_field_same;
  first [ left; discriminate | right; reflexivity ] : world.

Ltac establish :=
  first
    [ apply assign_config_establishes
    | apply establishes_bind_l;
      [ establish
      | intros; apply respects_keeps_of_same; solve [eauto 100 with world] ]
    | apply establishes_bind_r; intros; establish ].

Lemma env_truthy_false (env : gmap string string) (k : string) :
  env !! k = None \/ env !! k = Some "" -> env_truthy env k = false.
Proof. unfold env_truthy, env_value. intros [-> | ->]; reflexivity. Qed.

Section BaseConfig.
Variable h : Host.
Variable env : gmap string string.

Lemma updateBaseConfigs_url :
  establishes (fun w => field PakeJson (window0 ++ [Prop_ "url"]) w
                        = Ok (env_value env "URL"))
    (updateBaseConfigs h env).
Proof. unfold updateBaseConfigs, when. establish. Qed.

Lemma updateBaseConfigs_productName :
  establishes (fun w => field TauriJson ([] ++ [Prop_ "productName"]) w
                        = Ok (env_value env "TITLE"))
    (updateBaseConfigs h env).
Proof. unfold updateBaseConfigs, when. establish. Qed.

Lemma updateBaseConfigs_identifier :
  establishes (fun w => field TauriJson ([] ++ [Prop_ "identifier"]) w
                        = Ok (JStr (CONFIG.identifier env)))
    (updateBaseConfigs h env).
Proof. unfold updateBaseConfigs, when. establish. Qed.

Lemma override_skipped (k : string) (q : list key) (v : json) :
  (k, q, v) ∈ overrides h env ->
  env_truthy env k = false ->
  respects (same (field PakeJson q)) (updateBaseConfigs h env).
Proof.
  intros Hin Hk. unfold overrides in Hin.
  repeat (apply elem_of_cons in Hin; destruct Hin as [Hin | Hin];
          [injection Hin as -> -> -> | ]);
    try (inversion Hin; fail);
    unfold updateBaseConfigs, when; rewrite Hk; eauto 100 with world.
Qed.

Lemma override_applied (k : string) (q : list key) (v : json) :
  (k, q, v) ∈ overrides h env ->
  env_truthy env k = true ->
  establishes (fun w => field PakeJson q w = Ok v) (updateBaseConfigs h env).
Proof.
  intros Hin Hk. unfold overrides in Hin.
  repeat (apply elem_of_cons in Hin; destruct Hin as [Hin | Hin];
          [injection Hin as -> -> -> | ]);
    try (inversion Hin; fail);
    unfold updateBaseConfigs, when; rewrite Hk; establish.
Qed.

End BaseConfig.

(** ** Effects of the icon functions *)

Lemma find_source_respects (R : relation World) `{!PreOrder R}
    (sources : list string) :
  (forall s, respects R (existsSync s)) -> respects R (find_source sources).
Proof.
  intros He. induction sources as [| s rest IH]; simpl.
  - apply (respects_ret R).
  - apply (respects_bind R); [apply He |].
    intros present. destruct present; [apply (respects_ret R) | exact IH].
Qed.

Lemma try_sources_respects (R : relation World) `{!PreOrder R} (h : Host)
    (iconPath description : string) (sources : list string) :
  (forall s, respects R (existsSync s)) ->
  (forall s, respects R (console_log s)) ->
  (forall s, respects R (console_warn s)) ->
  (forall source, respects R (generate_from_source h iconPath source)) ->
  respects R (try_sources h iconPath description sources).
Proof.
  intros He Hl Hw Hg. induction sources as [| s rest IH]; simpl.
  - apply (respects_ret R).
  - apply (respects_bind R); [apply He |].
    intros present. destruct present; [| exact IH].
    apply (respects_bind R); [apply Hl |]. intros _.
    apply (respects_bind R).
    + apply (respects_try_catch R).
      * apply (respects_bind R); [apply Hg |]. intros _.
        apply (respects_bind R); [apply Hl |]. intros _. apply (respects_ret R).
      * intros e. apply (respects_bind R); [apply Hw |]. intros _. apply (respects_ret R).
    + intros generated. destruct generated; [apply (respects_ret R) | exact IH].
Qed.

#[export] Hint Resolve find_source_respects try_sources_respects : world.

#[export] Hint Extern 2 (respects _ (primitive _)) => prim_respects : world.
#[export] Hint Extern 4 (respects _ (generate_from_source _ _ _)) =>
  unfold generate_from_source : world.
#[export] Hint Extern 4 (respects _ (downloadIcon ?h _ _)) =>
  unfold downloadIcon; destruct (axios h) : world.
#[export] Hint Extern 4 (respects _ (ensureRgbaPng _ _)) =>
  unfold ensureRgbaPng : world.
#[export] Hint Extern 4 (respects _ (create_from_sources _ _ _ _ _)) =>
  unfold create_from_sources : world.
#[export] Hint Extern 4 (respects _ (ensureIconExists _ _ _ _ _ _)) =>
  unfold ensureIconExists : world.
#[export] Hint Extern 4 (respects _ (updatePlatformConfig _ _ _)) =>
  unfold updatePlatformConfig : world.
#[export] Hint Extern 4 (respects _ (generate_macos_icon ?h _ ?p)) =>
  unfold generate_macos_icon; destruct (match_png_size p) : world.
#[export] Hint Extern 4 (respects _ (generate_windows_ico _ _ _ _)) =>
  unfold generate_windows_ico : world.
#[export] Hint Extern 4 (respects _ (saveConfigurations _ _)) =>
  unfold saveConfigurations : world.
#[export] Hint Extern 1 (respects _ (let '(_, _) := ?x in _)) =>
  destruct x : world.

Section IconFrames.
Variable h : Host.
Variable env : gmap string string.

(** Resolving an icon leaves the five configuration objects alone. *)
Lemma ensureIconExists_config (r : ConfigRef)
    (iconPath defaultPath description : string) (ensureRgba : bool) :
  respects (same (config r))
    (ensureIconExists h env iconPath defaultPath description ensureRgba).
Proof. eauto 200 with world. Qed.

Lemma saveConfigurations_config (r : ConfigRef) :
  respects (same (config r)) (saveConfigurations h env).
Proof. eauto 200 with world. Qed.

Lemma generate_windows_ico_config (r : ConfigRef) (c : Win32Vars.t)
    (basePngPath : string) :
  respects (same (config r)) (generate_windows_ico h env c basePngPath).
Proof. eauto 200 with world. Qed.

Lemma generate_macos_icons_config (r : ConfigRef) (sourceIcon : string) :
  respects (same (config r)) (forEach macosIcons (generate_macos_icon h sourceIcon)).
Proof. eauto 200 with world. Qed.

End IconFrames.

(** ** Identifiers in the configuration objects *)

#[export] Hint Extern 4 (respects _ (platformHandlers_linux _ _ _)) =>
  unfold platformHandlers_linux : world.
#[export] Hint Extern 4 (respects _ (platformHandlers_darwin _ _ _)) =>
  unfold platformHandlers_darwin : world.
#[export] Hint Extern 4 (respects _ (platformHandlers_win32 _ _ _)) =>
  unfold platformHandlers_win32 : world.
#[export] Hint Extern 1 (respects _ (match ?x with Some _ => _ | None => _ end)) =>
  destruct x : world.

Section Identifiers.
Variable h : Host.
Variable env : gmap string string.

Lemma updatePlatformConfig_identifier (r : ConfigRef) (icons : list string) :
  establishes (fun w => field r ([] ++ [Prop_ "identifier"]) w
                        = Ok (JStr (CONFIG.identifier env)))
    (updatePlatformConfig env r icons).
Proof. unfold updatePlatformConfig, when. establish. Qed.

Lemma updatePlatformConfig_productName (r : ConfigRef) (icons : list string) :
  establishes (fun w => field r ([] ++ [Prop_ "productName"]) w
                        = Ok (env_value env "TITLE"))
    (updatePlatformConfig env r icons).
Proof. unfold updatePlatformConfig, when. establish. Qed.

(** The handler of a platform ends with [updatePlatformConfig] on the
    configuration object of that platform. *)
Lemma platformHandlers_establishes (Q : ConfigRef -> World -> Prop)
    (p : NodePlatform) (pc : PlatformVars) (r : ConfigRef) :
  (forall r icons, establishes (Q r) (updatePlatformConfig env r icons)) ->
  CONFIG.platforms env p = Some pc -> active_config p = Some r ->
  establishes (Q r) (platformHandlers h env pc).
Proof.
  intros HQ Hpc Hr.
  destruct p; try discriminate Hpc; injection Hpc as <-; injection Hr as <-;
    unfold platformHandlers, platformHandlers_linux, platformHandlers_darwin,
      platformHandlers_win32;
    do 3 (apply establishes_bind_r; intros ?); apply HQ.
Qed.

Lemma platformHandlers_other_config (p : NodePlatform) (pc : PlatformVars)
    (r r' : ConfigRef) :
  CONFIG.platforms env p = Some pc -> active_config p = Some r -> r <> r' ->
  respects (same (config r')) (platformHandlers h env pc).
Proof.
  intros Hpc Hr Hne.
  destruct p; try discriminate Hpc; injection Hpc as <-; injection Hr as <-;
    unfold platformHandlers; destruct r'; try congruence; eauto 200 with world.
Qed.

Lemma updateBaseConfigs_pake_top (name : string) :
  name = "identifier" \/ name = "productName" ->
  respects (same (field PakeJson [Prop_ name])) (updateBaseConfigs h env).
Proof.
  intros [-> | ->]; unfold updateBaseConfigs; eauto 100 with world.
Qed.

End Identifiers.

(** ** Environment validation *)

Lemma validateEnvironment_missing (env : gmap string string) (w : World)
    (key : string) :
  key ∈ requiredEnvVars -> env !! key = None ->
  exists message,
    validateEnvironment env w =
    (Exit 1, set_trace (Console Error message :: trace w) w).
Proof.
  intros Hin Hnone. unfold validateEnvironment.
  assert (Hk : key ∈ filter (fun key => env !! key = None) requiredEnvVars).
  { apply list_elem_of_filter. split; assumption. }
  destruct (filter (fun key => env !! key = None) requiredEnvVars) as [| k0 ks] eqn:E.
  - inversion Hk.
  - eexists. reflexivity.
Qed.

Lemma validateEnvironment_present (env : gmap string string) (w : World) :
  (forall key, key ∈ requiredEnvVars -> is_Some (env !! key)) ->
  exists new,
    validateEnvironment env w = (Ret tt, set_trace (new ++ trace w) w)
    /\ Forall is_console new.
Proof.
  intros Hall. unfold validateEnvironment.
  destruct (filter (fun key => env !! key = None) requiredEnvVars) as [| k0 ks] eqn:E.
  - exists [Console Log ("  NAME_ZH: " +:+ env_text env "NAME_ZH");
            Console Log ("  TITLE: " +:+ env_text env "TITLE");
            Console Log ("  NAME: " +:+ env_text env "NAME");
            Console Log ("  URL: " +:+ env_text env "URL");
            Console Log "Environment variables:"].
    split; [reflexivity | repeat constructor].
  - assert (Hk : k0 ∈ filter (fun key => env !! key = None) requiredEnvVars).
    { rewrite E. left. }
    apply list_elem_of_filter in Hk. destruct Hk as [Hnone Hin].
    destruct (Hall k0 Hin) as [v Hv]. congruence.
Qed.

(** Validation either returns or exits with status 1, and only prints. *)
Lemma validateEnvironment_cases (env : gmap string string) (w : World) :
  exists o new,
    validateEnvironment env w = (o, set_trace (new ++ trace w) w)
    /\ Forall is_console new /\ (o = Ret tt \/ o = Exit 1).
Proof.
  unfold validateEnvironment.
  destruct (filter (fun key => env !! key = None) requiredEnvVars) as [| k0 ks].
  - exists (Ret tt),
      [Console Log ("  NAME_ZH: " +:+ env_text env "NAME_ZH");
       Console Log ("  TITLE: " +:+ env_text env "TITLE");
       Console Log ("  NAME: " +:+ env_text env "NAME");
       Console Log ("  URL: " +:+ env_text env "URL");
       Console Log "Environment variables:"].
    split; [reflexivity | split; [repeat constructor | auto]].
  - eexists (Exit 1), [_].
    split; [reflexivity | split; [repeat constructor | auto]].
Qed.

(** ** C5 *)

(** C5. When one of the four mandatory variables (URL, NAME, TITLE, NAME_ZH)
    is absent from the environment, the program exits with status 1 having
    done nothing but print one error line: no file of the store, no
    directory and none of the five configuration objects has changed, and
    the trace holds no write, copy or any other call. *)
Theorem missing_parameter_is_fatal (h : Host) (env : gmap string string)
    (w : World) (key : string) :
  key ∈ requiredEnvVars -> env !! key = None ->
  let r := main h env w in
  r.1 = Exit 1
  /\ exit_code r.1 <> 0
  /\ files r.2 = files w
  /\ dirs r.2 = dirs w
  /\ (forall c, config c r.2 = config c w)
  /\ exists message, trace r.2 = Console Error message :: trace w.
Proof.
  intros Hin Hnone.
  destruct (validateEnvironment_missing env w key Hin Hnone) as (msg & E).
  assert (Hmain : main h env w = (Exit 1, set_trace (Console Error msg :: trace w) w)).
  { unfold main, try_catch. rewrite bind_run, E. reflexivity. }
  simpl. rewrite Hmain. simpl.
  split; [reflexivity |].
  split; [discriminate |].
  split; [reflexivity |].
  split; [reflexivity |].
  split; [intros c; destruct c; reflexivity |].
  exists msg. reflexivity.
Qed.

Lemma missing_parameter_is_fatal_witness :
  (main (sample_host linux) (delete "NAME" sample_env) sample_world).1 = Exit 1
  /\ files (main (sample_host linux) (delete "NAME" sample_env) sample_world).2
     = files sample_world.
Proof.
  destruct (missing_parameter_is_fatal (sample_host linux) (delete "NAME" sample_env)
              sample_world "NAME") as (Hexit & _ & Hfiles & _).
  - unfold requiredEnvVars. apply elem_of_cons. right. apply elem_of_cons. left.
    reflexivity.
  - apply lookup_delete_eq.
  - split; [exact Hexit | exact Hfiles].
Defined.

(** ** C6 *)

(** C6. On a host whose platform is none of linux, darwin and win32 the
    program exits with status 1, and up to that point it has only printed:
    the file store is unchanged, so none of the five configuration files
    (nor any other file) has been rewritten. *)
Theorem unsupported_platform_is_fatal (h : Host) (env : gmap string string)
    (w : World) :
  os_platform h <> linux -> os_platform h <> darwin -> os_platform h <> win32 ->
  let r := main h env w in
  r.1 = Exit 1
  /\ exit_code r.1 <> 0
  /\ files r.2 = files w
  /\ dirs r.2 = dirs w
  /\ exists new, trace r.2 = new ++ trace w /\ Forall is_console new.
Proof.
  intros Hl Hd Hw.
  assert (Hp : CONFIG.platforms env (os_platform h) = None).
  { destruct (os_platform h); try reflexivity; congruence. }
  assert (Hq : quiet w (main h env w).2 /\ (main h env w).1 = Exit 1).
  { unfold main, try_catch. rewrite bind_run.
    destruct (validateEnvironment_cases env w) as (o & new & E & F & [-> | ->]);
      rewrite E.
    - assert (Q1 : quiet w (set_trace (new ++ trace w) w)).
      { repeat split. exists new. auto. }
      rewrite bind_run, Hp.
      pose proof (updateBaseConfigs_quiet h env (set_trace (new ++ trace w) w)) as Q2.
      pose proof (updateBaseConfigs_no_exit h env (set_trace (new ++ trace w) w)) as N.
      destruct (updateBaseConfigs h env (set_trace (new ++ trace w) w))
        as [[[] | e | c] w2]; simpl in Q2, N.
      + split; [| reflexivity]. simpl. etrans; [exact Q1 |]. etrans; [exact Q2 |].
        repeat split. eexists [_]. split; [reflexivity | repeat constructor].
      + split; [| reflexivity]. simpl. etrans; [exact Q1 |]. etrans; [exact Q2 |].
        repeat split. eexists [_]. split; [reflexivity | repeat constructor].
      + exfalso. eapply N. reflexivity.
    - split; [| reflexivity]. simpl. repeat split. exists new. auto. }
  destruct Hq as [(Hf & Hdirs & Htr) He]. simpl.
  rewrite He. split; [reflexivity |]. split; [discriminate |].
  split; [exact Hf |]. split; [exact Hdirs | exact Htr].
Qed.

Lemma unsupported_platform_is_fatal_witness :
  (main (sample_host freebsd) sample_env sample_world).1 = Exit 1
  /\ files (main (sample_host freebsd) sample_env sample_world).2
     = files sample_world.
Proof.
  destruct (unsupported_platform_is_fatal (sample_host freebsd) sample_env
              sample_world) as (Hexit & _ & Hfiles & _).
  - discriminate.
  - discriminate.
  - discriminate.
  - split; [exact Hexit | exact Hfiles].
Defined.

(** ** C8 *)

Lemma env_truthy_true (env : gmap string string) (k s : string) :
  env !! k = Some s -> s <> "" -> env_truthy env k = true.
Proof.
  intros E Hne. unfold env_truthy, env_value. rewrite E. simpl.
  apply negb_true_iff. apply String.eqb_neq. exact Hne.
Qed.

(** C8. After [updateBaseConfigs] has returned: the target URL, the product
    title and the bundle identifier have been set whatever the optional
    variables are; and for each optional override (WIDTH, HEIGHT,
    FULLSCREEN, HIDE_TITLE_BAR, FORCE_INTERNAL_NAVIGATION, and
    SHOW_SYSTEM_TRAY for the three tray flags) the overridden member of
    pake.json reads as before the call when the variable is absent (or
    empty), and holds the value given by the variable when it is set. *)
Theorem base_overrides_are_sparse (h : Host) (env : gmap string string)
    (w w' : World) :
  updateBaseConfigs h env w = (Ret tt, w') ->
  field PakeJson [Prop_ "windows"; Idx 0; Prop_ "url"] w' = Ok (env_value env "URL")
  /\ field TauriJson [Prop_ "productName"] w' = Ok (env_value env "TITLE")
  /\ field TauriJson [Prop_ "identifier"] w'
     = Ok (JStr ("com.pake." +:+ env_text env "NAME"))
  /\ forall k q v, (k, q, v) ∈ overrides h env ->
       (env !! k = None \/ env !! k = Some "" ->
        field PakeJson q w' = field PakeJson q w)
       /\ (forall s, env !! k = Some s -> s <> "" -> field PakeJson q w' = Ok v).
Proof.
  intros Hrun.
  split; [exact (updateBaseConfigs_url h env w tt w' Hrun) |].
  split; [exact (updateBaseConfigs_productName h env w tt w' Hrun) |].
  split; [exact (updateBaseConfigs_identifier h env w tt w' Hrun) |].
  intros k q v Hin. split.
  - intros Habsent.
    pose proof (override_skipped h env k q v Hin (env_truthy_false env k Habsent) w) as H.
    rewrite Hrun in H. exact H.
  - intros s Hs Hne.
    exact (override_applied h env k q v Hin (env_truthy_true env k s Hs Hne)
             w tt w' Hrun).
Qed.

Lemma base_overrides_are_sparse_witness :
  let w' := (updateBaseConfigs (sample_host linux) sample_env_sized sample_world).2 in
  field PakeJson [Prop_ "windows"; Idx 0; Prop_ "url"] w'
  = Ok (env_value sample_env_sized "URL")
  /\ field PakeJson [Prop_ "windows"; Idx 0; Prop_ "height"] w' = Ok (JNum 780)
  /\ field PakeJson [Prop_ "windows"; Idx 0; Prop_ "width"] w' = Ok (JNum 800).
Proof.
  intros w'.
  assert (Hrun : updateBaseConfigs (sample_host linux) sample_env_sized sample_world
                 = (Ret tt, w')) by (vm_compute; reflexivity).
  destruct (base_overrides_are_sparse _ _ _ _ Hrun) as (Hurl & _ & _ & Hov).
  split; [exact Hurl |]. split.
  - destruct (Hov "HEIGHT" ([Prop_ "windows"; Idx 0] ++ [Prop_ "height"])
                (parseInt (sample_host linux) (env_text sample_env_sized "HEIGHT")))
      as [Hskip _].
    { unfold overrides. apply elem_of_cons. right. apply elem_of_cons. left. reflexivity. }
    etrans; [apply Hskip; left; vm_compute; reflexivity | vm_compute; reflexivity].
  - destruct (Hov "WIDTH" ([Prop_ "windows"; Idx 0] ++ [Prop_ "width"])
                (parseInt (sample_host linux) (env_text sample_env_sized "WIDTH")))
      as [_ Hset].
    { unfold overrides. apply elem_of_cons. left. reflexivity. }
    apply (Hset "800"); [vm_compute; reflexivity | discriminate].
Defined.

(** ** C3 *)

Lemma main_returns (h : Host) (env : gmap string string) (w w' : World) :
  main h env w = (Ret tt, w') ->
  exists pc w1 w2 w3 w4,
    CONFIG.platforms env (os_platform h) = Some pc
    /\ validateEnvironment env w = (Ret tt, w1)
    /\ updateBaseConfigs h env w1 = (Ret tt, w2)
    /\ platformHandlers h env pc w2 = (Ret tt, w3)
    /\ saveConfigurations h env w3 = (Ret tt, w4)
    /\ console_log ("✅ Tauri configuration complete for "
                    +:+ platform_name (os_platform h)) w4 = (Ret tt, w').
Proof.
  intros H. unfold main, try_catch in H.
  match type of H with
  | context [match ?b w with _ => _ end] => destruct (b w) as [[[] | e | c] wb] eqn:B
  end; try discriminate H.
  injection H as ->.
  apply bind_ret_inv in B. destruct B as ([] & w1 & H1 & B).
  apply bind_ret_inv in B. destruct B as ([] & w2 & H2 & B).
  apply bind_ret_inv in B. destruct B as ([] & w3 & H3 & B).
  apply bind_ret_inv in B. destruct B as ([] & w4 & H4 & B).
  destruct (CONFIG.platforms env (os_platform h)) as [pc |] eqn:P;
    [| discriminate H3].
  exists pc, w1, w2, w3, w4. auto 10.
Qed.

(** C3 (as the code has it). After a run of [main] that completes, NAME and
    TITLE are set and the host platform has a configuration object; in the
    framework configuration (tauri.conf.json) and in that platform
    configuration object, [identifier] is "com.pake." followed by NAME and
    [productName] is TITLE; in the app-window configuration (pake.json) the
    members [identifier] and [productName] read as they did before the run. *)
Theorem identifiers_after_run (h : Host) (env : gmap string string)
    (w w' : World) :
  main h env w = (Ret tt, w') ->
  exists name title r,
    env !! "NAME" = Some name /\ env !! "TITLE" = Some title
    /\ active_config (os_platform h) = Some r
    /\ field TauriJson [Prop_ "identifier"] w' = Ok (JStr ("com.pake." +:+ name))
    /\ field r [Prop_ "identifier"] w' = Ok (JStr ("com.pake." +:+ name))
    /\ field TauriJson [Prop_ "productName"] w' = Ok (JStr title)
    /\ field r [Prop_ "productName"] w' = Ok (JStr title)
    /\ field PakeJson [Prop_ "identifier"] w' = field PakeJson [Prop_ "identifier"] w
    /\ field PakeJson [Prop_ "productName"] w' = field PakeJson [Prop_ "productName"] w.
Proof.
  intros Hmain.
  destruct (main_returns h env w w' Hmain) as (pc & w1 & w2 & w3 & w4 & P & H1 & H2 & H3 & H4 & H5).
  (* the mandatory variables are set *)
  assert (Hreq : forall key, key ∈ requiredEnvVars -> is_Some (env !! key)).
  { intros key Hin. destruct (env !! key) eqn:E; [eauto |].
    destruct (validateEnvironment_missing env w key Hin E) as (msg & E').
    rewrite E' in H1. discriminate H1. }
  destruct (Hreq "NAME") as [name Hname].
  { unfold requiredEnvVars. apply elem_of_cons. right. apply elem_of_cons. left. reflexivity. }
  destruct (Hreq "TITLE") as [title Htitle].
  { unfold requiredEnvVars. do 2 (apply elem_of_cons; right).
    apply elem_of_cons. left. reflexivity. }
  assert (Hr : exists r, active_config (os_platform h) = Some r).
  { destruct (os_platform h); try discriminate P; simpl; eauto. }
  destruct Hr as [r Hr].
  assert (Hid : CONFIG.identifier env = "com.pake." +:+ name).
  { unfold CONFIG.identifier, env_text. rewrite Hname. reflexivity. }
  assert (Hti : env_value env "TITLE" = JStr title).
  { unfold env_value. rewrite Htitle. reflexivity. }
  (* frames *)
  assert (F1 : forall c, config c w1 = config c w).
  { intros c. destruct (validateEnvironment_cases env w) as (o & new & E & _).
    rewrite E in H1. injection H1 as _ <-. destruct c; reflexivity. }
  assert (F4 : forall c, config c w' = config c w3).
  { intros c.
    pose proof (saveConfigurations_config h env c w3) as S. rewrite H4 in S.
    unfold same in S. simpl in S. rewrite <- S.
    unfold console_log, emit in H5. injection H5 as <-. destruct c; reflexivity. }
  assert (F3 : forall c, r <> c -> config c w3 = config c w2).
  { intros c Hne.
    pose proof (platformHandlers_other_config h env _ pc r c P Hr Hne w2) as S.
    rewrite H3 in S. exact S. }
  assert (Hrt : r <> TauriJson /\ r <> PakeJson).
  { destruct (os_platform h); try discriminate Hr; injection Hr as <-;
      split; discriminate. }
  destruct Hrt as [HrT HrP].
  exists name, title, r.
  split; [exact Hname |]. split; [exact Htitle |]. split; [exact Hr |].
  unfold field. rewrite !F4, (F3 TauriJson HrT), (F3 PakeJson HrP).
  split.
  { rewrite <- Hid. exact (updateBaseConfigs_identifier h env w1 tt w2 H2). }
  split.
  { rewrite <- Hid.
    exact (platformHandlers_establishes h env
             (fun r w => field r ([] ++ [Prop_ "identifier"]) w
                         = Ok (JStr (CONFIG.identifier env)))
             _ pc r (updatePlatformConfig_identifier env) P Hr w2 tt w3 H3). }
  split.
  { rewrite <- Hti. exact (updateBaseConfigs_productName h env w1 tt w2 H2). }
  split.
  { rewrite <- Hti.
    exact (platformHandlers_establishes h env
             (fun r w => field r ([] ++ [Prop_ "productName"]) w
                         = Ok (env_value env "TITLE"))
             _ pc r (updatePlatformConfig_productName env) P Hr w2 tt w3 H3). }
  split.
  - pose proof (updateBaseConfigs_pake_top h env "identifier" (or_introl eq_refl) w1) as S.
    rewrite H2 in S. unfold same, field in S. simpl in S.
    rewrite <- (F1 PakeJson). exact S.
  - pose proof (updateBaseConfigs_pake_top h env "productName" (or_intror eq_refl) w1) as S.
    rewrite H2 in S. unfold same, field in S. simpl in S.
    rewrite <- (F1 PakeJson). exact S.
Qed.

Lemma identifiers_after_run_witness :
  exists name title r,
    sample_env !! "NAME" = Some name /\ sample_env !! "TITLE" = Some title
    /\ active_config linux = Some r
    /\ field r [Prop_ "identifier"]
         (main (sample_host linux) sample_env sample_world).2
       = Ok (JStr ("com.pake." +:+ name)).
Proof.
  assert (Hrun : main (sample_host linux) sample_env sample_world
                 = (Ret tt, (main (sample_host linux) sample_env sample_world).2))
    by (vm_compute; reflexivity).
  destruct (identifiers_after_run _ _ _ _ Hrun)
    as (name & title & r & Hn & Ht & Hr & _ & Hid & _).
  exists name, title, r. auto.
Defined.

(** C3, as stated, fails on pake.json: the run below completes, the
    framework configuration gets identifier "com.pake.Foo" and productName
    "Foo App", and pake.json has neither member. *)
Lemma identifiers_absent_from_pake_json :
  let r := main (sample_host linux) sample_env sample_world in
  r.1 = Ret tt
  /\ field TauriJson [Prop_ "identifier"] r.2 = Ok (JStr "com.pake.Foo")
  /\ field PakeJson [Prop_ "identifier"] r.2 = Ok JUndefined
  /\ field PakeJson [Prop_ "identifier"] r.2 <> field TauriJson [Prop_ "identifier"] r.2
  /\ field TauriJson [Prop_ "productName"] r.2 = Ok (JStr "Foo App")
  /\ field PakeJson [Prop_ "productName"] r.2 <> field TauriJson [Prop_ "productName"] r.2.
Proof. vm_compute. repeat split; try reflexivity; discriminate. Qed.

(** ** C9 *)



(** ** C10 *)

Lemma has_icon_url_delete (env : gmap string string) :
  has_icon_url (delete "ICON" env) = false.
Proof.
  unfold has_icon_url, env_truthy, env_value. rewrite lookup_delete_eq. reflexivity.
Qed.

Lemma has_icon_url_non_http (env : gmap string string) (v : string) :
  env !! "ICON" = Some v -> startsWith v "http" = false ->
  has_icon_url env = false.
Proof.
  intros E Hs. unfold has_icon_url, env_text. rewrite E, Hs. apply andb_false_r.
Qed.

Lemma ensureIconExists_no_url_no_fetch (h : Host) (env : gmap string string)
    (iconPath defaultPath description : string) (ensureRgba : bool) :
  has_icon_url env = false ->
  respects (trace_grows (fun e => ~ is_fetch e))
    (ensureIconExists h env iconPath defaultPath description ensureRgba).
Proof.
  intros Hno. unfold ensureIconExists. rewrite Hno. eauto 200 with world.
Qed.

(** ** C2 *)

Lemma when_true (m : M unit) : when true m = m.
Proof. reflexivity. Qed.

Lemma when_false (m : M unit) : when false m = mret tt.
Proof. reflexivity. Qed.

Lemma ensureRgbaPng_effect (h : Host) (p : string) (w : World) :
  exists w',
    ensureRgbaPng h p w = (Ret tt, w')
    /\ dirs w' = dirs w
    /\ (forall c, config c w' = config c w)
    /\ (forall q, q <> p -> files w' !! q = files w !! q)
    /\ (exists_on_disk w p = true -> exists_on_disk w' p = true)
    /\ exists new, trace w' = new ++ trace w /\ Forall (rgba_only p) new.
Proof.
  unfold ensureRgbaPng, try_catch, sharp_path, writeFileSync, console_warn,
    primitive, emit, lift, throw.
  rewrite !bind_run. simpl.
  destruct (files w !! p) as [data |] eqn:F; simpl.
  - destruct (sharp h [EnsureAlpha; PngForce] data) as [out | e] eqn:S; simpl.
    + rewrite !bind_run. simpl.
      destruct (bool_decide (p ∈ dirs w)) eqn:D; simpl.
      * eexists. split; [reflexivity |]. simpl.
        split; [reflexivity |]. split; [intros c; destruct c; reflexivity |].
        split; [reflexivity |]. split; [auto |].
        eexists [_; _; _]. split; [reflexivity |]. repeat constructor; simpl; auto.
      * destruct (fs_fault h (OpWrite p)) as [e |]; simpl.
        -- eexists. split; [reflexivity |]. simpl.
           split; [reflexivity |]. split; [intros c; destruct c; reflexivity |].
           split; [reflexivity |]. split; [auto |].
           eexists [_; _; _]. split; [reflexivity |]. repeat constructor; simpl; auto.
        -- eexists. split; [reflexivity |]. simpl.
           split; [reflexivity |]. split; [intros c; destruct c; reflexivity |].
           split; [intros q Hq; apply lookup_insert_ne; congruence |].
           split.
           { intros _. unfold exists_on_disk. simpl. rewrite lookup_insert_eq.
             rewrite bool_decide_eq_true_2 by eauto. reflexivity. }
           eexists [_; _]. split; [reflexivity |]. repeat constructor; simpl; auto.
    + eexists. split; [reflexivity |]. simpl.
      split; [reflexivity |]. split; [intros c; destruct c; reflexivity |].
      split; [reflexivity |]. split; [auto |].
      eexists [_; _]. split; [reflexivity |]. repeat constructor; simpl; auto.
  - eexists. split; [reflexivity |]. simpl.
    split; [reflexivity |]. split; [intros c; destruct c; reflexivity |].
    split; [reflexivity |]. split; [auto |].
    eexists [_; _]. split; [reflexivity |]. repeat constructor; simpl; auto.
Qed.

(** C2, as stated, fails: the PNG below exists, yet the call (made as the
    linux handler makes it) runs one image conversion on it and rewrites the
    file with other bytes. *)
Lemma existing_png_is_rewritten :
  let p := "src-tauri/png/Foo_512.png" in
  let r := ensureIconExists (sample_host linux) sample_env p
             "src-tauri/png/icon_512.png" "Linux icon" true sample_world_with_icon in
  exists_on_disk sample_world_with_icon p = true
  /\ files sample_world_with_icon !! p = Some [Byte.x05]
  /\ files r.2 !! p = Some [Byte.x02; Byte.x05]
  /\ trace r.2 = [WriteFile p [Byte.x02; Byte.x05];
                  SharpCall [EnsureAlpha; PngForce] (FromPath p)].
Proof. vm_compute. repeat split; reflexivity. Qed.

(** ** C1 *)

Lemma endsWith_ico_not_png (p : string) :
  endsWith p ".ico" = true -> endsWith p ".png" = false.
Proof.
  unfold endsWith. simpl String.length.
  intros H. apply andb_true_iff in H. destruct H as [Hlen Heq].
  apply String.eqb_eq in Heq. rewrite Hlen, Heq. reflexivity.
Qed.

Lemma generate_from_source_ico (h : Host) (p source : string) :
  endsWith p ".ico" = true ->
  generate_from_source h p source = copyFileSync h source p.
Proof. intros H. unfold generate_from_source. rewrite H. reflexivity. Qed.

Lemma respects_axios_get_bind {B} (R : relation World) `{!PreOrder R}
    (get : string -> Res bytes) (url : string) (f : bytes -> M B) :
  respects R (emit (HttpGet url)) ->
  (forall data, get url = Ok data -> respects R (f data)) ->
  respects R (axios_get get url ≫= f).
Proof.
  intros He Hf w. unfold axios_get. rewrite !bind_run.
  specialize (He w). unfold emit in *. simpl in *.
  destruct (get url) as [data | e] eqn:G; simpl.
  - etrans; [exact He | apply (Hf data)]. reflexivity.
  - exact He.
Qed.

Lemma respects_try_ret_bind {A B} (R : relation World) (a : A)
    (handler : string -> M A) (f : A -> M B) :
  respects R (f a) -> respects R (try_catch (mret a) handler ≫= f).
Proof. intros H w. exact (H w). Qed.

Lemma respects_when_and_false (R : relation World) `{!PreOrder R} (b : bool)
    (m : M unit) :
  respects R (when (b && false) m).
Proof. rewrite andb_false_r. apply (respects_ret R). Qed.

Section CopyThrough.
Variable h : Host.
Variable url p : string.
Hypothesis Hico : endsWith p ".ico" = true.

Lemma downloadIcon_ico :
  respects (trace_grows (copied_through h url p)) (downloadIcon h url p).
Proof.
  pose proof (endsWith_ico_not_png p Hico) as Hpng.
  unfold downloadIcon. rewrite Hico, Hpng. simpl negb. cbv iota.
  destruct (axios h) as [get |] eqn:Hax; [| eauto with world].
  apply respects_try_catch; [apply _ | | eauto with world].
  apply respects_bind; [apply _ | eauto with world |]. intros _.
  apply respects_axios_get_bind; [apply _ | prim_respects |]. intros data Hget.
  apply respects_bind; [apply _ | eauto with world |]. intros dir_exists.
  apply respects_bind; [apply _ | eauto with world |]. intros _.
  apply respects_try_ret_bind.
  apply respects_bind; [apply _ | | eauto with world].
  intros w. unfold writeFileSync, primitive, emit. rewrite bind_run. simpl.
  repeat (case_match; simpl);
    (eexists [_]; split; [reflexivity |]; repeat constructor; simpl; eauto).
Qed.

Lemma try_sources_ico (description : string) (sources : list string) :
  respects (trace_grows (copied_through h url p))
    (try_sources h p description sources).
Proof.
  apply try_sources_respects; [apply _ | eauto with world ..].
  intros source. rewrite (generate_from_source_ico h p source Hico).
  eauto with world.
Qed.

End CopyThrough.


(** ** C4 *)

Lemma run_bind_ret {A B} (m : M A) (f : A -> M B) (w w' : World) (a : A) :
  m w = (Ret a, w') -> (m ≫= f) w = f a w'.
Proof. intros H. rewrite bind_run, H. reflexivity. Qed.

Lemma bind_assoc_run {A B C} (m : M A) (f : A -> M B) (g : B -> M C) (w : World) :
  ((m ≫= f) ≫= g) w = (m ≫= fun a => f a ≫= g) w.
Proof. rewrite !bind_run. destruct (m w) as [[a | e | c] w1]; reflexivity. Qed.

Lemma exists_on_disk_file (w : World) (p : string) (data : bytes) :
  files w !! p = Some data -> exists_on_disk w p = true.
Proof.
  intros H. unfold exists_on_disk. rewrite H.
  rewrite bool_decide_eq_true_2 by eauto. reflexivity.
Qed.

Lemma exists_on_disk_set_trace (t : list Event) (w : World) (p : string) :
  exists_on_disk (set_trace t w) p = exists_on_disk w p.
Proof. reflexivity. Qed.

(** One step of a run: the first computation of a sequence returns. *)
Ltac step_with tac :=
  rewrite ?bind_assoc_run; erewrite run_bind_ret by tac; cbv beta.

Section Fallbacks.
Variable h : Host.
Variable env : gmap string string.

(** A failed download leaves the file store alone, prints an error and
    reports [false]. *)
Lemma downloadIcon_fetch_failure (url p : string) (w : World) :
  fetch_fails h url ->
  exists new,
    downloadIcon h url p w = (Ret false, set_trace (new ++ trace w) w)
    /\ Exists is_error_line new.
Proof.
  intros [Hnone | (get & e & Hsome & Herr)]; unfold downloadIcon.
  - rewrite Hnone. eexists [_]. split; [reflexivity |]. left. exact I.
  - rewrite Hsome. unfold try_catch, axios_get, console_log, console_error, emit, lift.
    rewrite !bind_run. simpl. rewrite Herr. simpl.
    eexists [_; _; _]. split; [reflexivity |]. left. exact I.
Qed.

(** After a failed download the remaining tiers run as if no URL had been
    given. *)
Lemma ensureIconExists_fetch_failure (p d description : string)
    (ensureRgba : bool) (w : World) :
  exists_on_disk w p = false -> has_icon_url env = true ->
  fetch_fails h (env_text env "ICON") ->
  exists new,
    ensureIconExists h env p d description ensureRgba w
    = ensureIconExists h (delete "ICON" env) p d description ensureRgba
        (set_trace (new ++ trace w) w)
    /\ Exists is_error_line new.
Proof.
  intros Hex Hurl Hfail.
  destruct (downloadIcon_fetch_failure (env_text env "ICON") p
              (set_trace (Console Log ("Attempting to download custom icon from "
                                       +:+ env_text env "ICON") :: trace w) w) Hfail)
    as (new & Hd & Herr).
  exists (Console Warn ("Failed to download " +:+ description
                        +:+ ", trying fallback options")
          :: new ++ [Console Log ("Attempting to download custom icon from "
                                  +:+ env_text env "ICON")]).
  split.
  - unfold ensureIconExists.
    rewrite Hurl, has_icon_url_delete.
    rewrite (lookup_delete_ne env "ICON" "PAKE_CREATE_APP") by discriminate.
    erewrite (run_bind_ret (existsSync p) _ w)
      by (unfold existsSync; rewrite Hex; reflexivity).
    erewrite (run_bind_ret (existsSync p) _ (set_trace _ w))
      by (unfold existsSync; rewrite exists_on_disk_set_trace, Hex; reflexivity).
    cbn [negb].
    step_with ltac:(reflexivity).
    step_with ltac:(exact Hd). cbv iota.
    step_with ltac:(reflexivity).
    step_with ltac:(reflexivity).
    step_with ltac:(unfold existsSync; rewrite !exists_on_disk_set_trace, Hex; reflexivity).
    symmetry.
    step_with ltac:(reflexivity).
    step_with ltac:(unfold existsSync; rewrite !exists_on_disk_set_trace, Hex; reflexivity).
    cbn [negb].
    match goal with
    | |- ?f ?a = ?g ?b => assert (E : a = b); [| rewrite E; reflexivity]
    end.
    unfold set_trace. simpl. rewrite <- app_assoc. reflexivity.
  - right. apply Exists_app. left. exact Herr.
Qed.

Lemma run_bind_throw {A B} (m : M A) (f : A -> M B) (w w' : World) (e : string) :
  m w = (Throw e, w') -> (m ≫= f) w = (Throw e, w').
Proof. intros H. rewrite bind_run, H. reflexivity. Qed.

Lemma run_try_catch_throw {A} (body : M A) (handler : string -> M A)
    (w w' : World) (e : string) :
  body w = (Throw e, w') -> try_catch body handler w = handler e w'.
Proof. intros H. unfold try_catch. rewrite H. reflexivity. Qed.

Lemma run_try_catch_ret {A} (body : M A) (handler : string -> M A)
    (w w' : World) (a : A) :
  body w = (Ret a, w') -> try_catch body handler w = (Ret a, w').
Proof. intros H. unfold try_catch. rewrite H. reflexivity. Qed.

(** A source that cannot be converted is given up with a warning, nothing is
    written, and the search goes on with the next source. *)
Lemma try_sources_conversion_failure (p description source : string)
    (rest : list string) (data : bytes) (e : string) (w : World) :
  endsWith p ".ico" = false ->
  files w !! source = Some data ->
  sharp h (source_resize p) data = Err e ->
  try_sources h p description (source :: rest) w
  = try_sources h p description rest
      (set_trace
         (Console Warn ("Failed to generate " +:+ description +:+ " from "
                        +:+ source +:+ ": " +:+ e)
          :: SharpCall (source_resize p) (FromPath source)
          :: Console Log ("Found source icon at " +:+ source +:+ ", generating "
                          +:+ description)
          :: trace w) w).
Proof.
  intros Hico Hfile Hsharp. cbn [try_sources].
  step_with ltac:(unfold existsSync; rewrite (exists_on_disk_file _ _ _ Hfile);
                  reflexivity).
  cbv iota.
  step_with ltac:(reflexivity).
  erewrite run_bind_ret.
  2:{ erewrite run_try_catch_throw.
      2:{ apply run_bind_throw. unfold generate_from_source. rewrite Hico.
          apply run_bind_throw. unfold sharp_path, primitive.
          step_with ltac:(reflexivity). simpl. rewrite Hfile.
          unfold source_resize in Hsharp. rewrite Hsharp. reflexivity. }
      step_with ltac:(reflexivity). reflexivity. }
  reflexivity.
Qed.

(** When no source could be used, the default icon is copied. *)
Lemma create_from_sources_default (p d description : string) (iconCreated : bool)
    (data : bytes) (w w1 : World) :
  try_sources h p description (possibleSources d) w = (Ret false, w1) ->
  files w1 !! d = Some data ->
  p ∉ dirs w1 ->
  fs_fault h (OpWrite p) = None ->
  create_from_sources h p d description iconCreated w
  = (Ret true,
     set_files (<[p := data]> (files w1))
       (set_trace (CopyFile d p
                   :: Console Warn ("Using default icon for " +:+ description)
                   :: trace w1) w1)).
Proof.
  intros Hsrc Hfile Hdir Hfault. unfold create_from_sources.
  step_with ltac:(exact Hsrc).
  step_with ltac:(unfold existsSync; rewrite (exists_on_disk_file _ _ _ Hfile);
                  reflexivity).
  cbn [negb andb]. cbv iota.
  step_with ltac:(reflexivity).
  unfold copyFileSync, primitive, emit. rewrite !bind_run. simpl.
  rewrite Hfile, Hfault. rewrite bool_decide_eq_false_2 by exact Hdir.
  reflexivity.
Qed.

(** A failed icon generation is followed by a copy of the default icon. *)
Lemma generate_windows_ico_failure (c : Win32Vars.t) (base e : string)
    (data : bytes) (w : World) :
  exists_on_disk w (Win32Vars.iconPath c) = false ->
  icongen h (files w !! base) ico_sizes = Err e ->
  files w !! Win32Vars.defaultIcon c = Some data ->
  fs_fault h (OpWrite (Win32Vars.iconPath c)) = None ->
  generate_windows_ico h env c base w
  = (Ret tt,
     set_files (<[Win32Vars.iconPath c := data]> (files w))
       (set_trace
          (CopyFile (Win32Vars.defaultIcon c) (Win32Vars.iconPath c)
           :: Console Warn "Falling back to default Windows icon"
           :: Console Warn ("Failed to generate Windows ICO: " +:+ e)
           :: IconGen base "src-tauri/png" (env_text env "NAME" +:+ "_256") ico_sizes
           :: Console Log ("Generating Windows ICO from " +:+ base +:+ " -> "
                           +:+ Win32Vars.iconPath c)
           :: trace w) w)).
Proof.
  intros Hex Hgen Hfile Hfault.
  assert (Hdir : bool_decide (Win32Vars.iconPath c ∈ dirs w) = false).
  { unfold exists_on_disk in Hex. apply orb_false_iff in Hex. apply Hex. }
  unfold generate_windows_ico.
  step_with ltac:(unfold existsSync; rewrite Hex; reflexivity).
  cbn [negb]. rewrite when_true.
  erewrite run_try_catch_throw.
  2:{ step_with ltac:(reflexivity).
      unfold icongen_ico, primitive, emit. rewrite !bind_run. simpl.
      rewrite Hgen. reflexivity. }
  step_with ltac:(reflexivity).
  step_with ltac:(unfold existsSync; rewrite !exists_on_disk_set_trace;
                  rewrite (exists_on_disk_file _ _ _ Hfile); reflexivity).
  rewrite when_true.
  step_with ltac:(reflexivity).
  unfold copyFileSync, primitive, emit. rewrite !bind_run. simpl.
  rewrite Hfile, Hfault, Hdir. reflexivity.
Qed.

(** A failed conversion of a downloaded icon: the bytes received are
    written to the target as they are, and the download counts as done. *)
Lemma downloadIcon_conversion_failure (get : string -> Res bytes)
    (url p e : string) (data : bytes) (w : World) :
  axios h = Some get -> get url = Ok data ->
  endsWith p ".ico" = false ->
  sharp h (download_conversion p) data = Err e ->
  exists_on_disk w (path_join h p "..") = true ->
  p ∉ dirs w ->
  fs_fault h (OpWrite p) = None ->
  downloadIcon h url p w
  = (Ret true,
     set_files (<[p := data]> (files w))
       (set_trace
          (Console Log ("Icon downloaded and processed successfully to " +:+ p)
           :: WriteFile p data
           :: Console Warn ("Icon conversion failed, using original: " +:+ e)
           :: SharpCall (download_conversion p) (FromBuffer data)
           :: HttpGet url
           :: Console Log ("Downloading icon from " +:+ url +:+ " to " +:+ p)
           :: trace w) w)).
Proof.
  intros Hax Hget Hico Hsharp Hdirex Hdir Hfault.
  unfold download_conversion in *.
  unfold downloadIcon. rewrite Hax, Hico. cbn [negb].
  apply run_try_catch_ret.
  destruct (endsWith p ".png").
  all: step_with ltac:(reflexivity).
  all: step_with ltac:(unfold axios_get, emit, lift; rewrite bind_run; simpl;
                       rewrite Hget; reflexivity).
  all: step_with ltac:(unfold existsSync; rewrite !exists_on_disk_set_trace, Hdirex;
                       reflexivity).
  all: cbn [negb]; rewrite when_false.
  all: step_with ltac:(reflexivity).
  all: step_with ltac:(
         erewrite run_try_catch_throw
           by (unfold sharp_buffer, emit, lift; rewrite bind_run; simpl;
               rewrite Hsharp; reflexivity);
         step_with ltac:(reflexivity); reflexivity).
  all: unfold writeFileSync, primitive, console_log, emit; rewrite !bind_run; simpl.
  all: rewrite Hfault; rewrite bool_decide_eq_false_2 by exact Hdir.
  all: reflexivity.
Qed.

End Fallbacks.




(** ** C7 *)

Lemma string_app_assoc (a b c : string) : (a +:+ b) +:+ c = a +:+ b +:+ c.
Proof.
  induction a as [| x a IH]; [reflexivity |].
  change (String x ((a +:+ b) +:+ c) = String x (a +:+ b +:+ c)).
  rewrite IH. reflexivity.
Qed.

Lemma ico_path_join (n : string) :
  "src-tauri/png" +:+ "/" +:+ (n +:+ "_256") +:+ ".ico"
  = "src-tauri/png/" +:+ n +:+ "_256.ico".
Proof. rewrite string_app_assoc. reflexivity. Qed.

Lemma filter_none {A} (f : A -> bool) (l : list A) :
  Forall (fun x => f x = false) l -> List.filter f l = [].
Proof.
  induction 1 as [| x l Hx _ IH]; simpl; [reflexivity |]. rewrite Hx. exact IH.
Qed.

Section WindowsIco.
Variable h : Host.
Variable env : gmap string string.

Lemma generate_windows_ico_existing (w : World) :
  exists_on_disk w (Win32Vars.iconPath (CONFIG.platforms_win32 env)) = true ->
  generate_windows_ico h env (CONFIG.platforms_win32 env) (win32_basePng env) w = (Ret tt, w).
Proof.
  intros Hex. unfold generate_windows_ico.
  step_with ltac:(unfold existsSync; rewrite Hex; reflexivity).
  reflexivity.
Qed.

Lemma icongen_ico_trace (src dir name : string) (sizes : list Z) (w : World) :
  exists o w',
    icongen_ico h src dir name sizes w = (o, w')
    /\ trace w' = IconGen src dir name sizes :: trace w
    /\ (o = Ret tt \/ exists e, o = Throw e).
Proof.
  unfold icongen_ico, primitive, emit. rewrite bind_run. simpl.
  destruct (icongen h (files w !! src) sizes) as [data | e].
  - eexists _, _. split; [reflexivity |]. split; [reflexivity | auto].
  - eexists _, _. split; [reflexivity |]. split; [reflexivity | eauto].
Qed.

Lemma generate_windows_ico_once (w : World) :
  exists_on_disk w (Win32Vars.iconPath (CONFIG.platforms_win32 env)) = false ->
  exists new,
    trace (generate_windows_ico h env (CONFIG.platforms_win32 env)
             (win32_basePng env) w).2 = new ++ trace w
    /\ generator_calls new = [win32_generator_call env].
Proof.
  intros Hex. unfold generate_windows_ico.
  step_with ltac:(unfold existsSync; rewrite Hex; reflexivity).
  cbn [negb]. rewrite when_true. unfold try_catch.
  erewrite run_bind_ret by reflexivity.
  match goal with
  | |- context [icongen_ico h ?s ?d ?n ?z ?w0] =>
      destruct (icongen_ico_trace s d n z w0) as (o & w' & E & T & [-> | [e ->]])
  end; rewrite E; cbv beta iota.
  - eexists [_; _]. split; [simpl; rewrite T; reflexivity | reflexivity].
  - match goal with
    | |- context [trace (?handler w').2] =>
        assert (Hh : respects (trace_grows (fun e => is_icongen e = false)) handler)
          by eauto 50 with world;
        destruct (Hh w') as (new & En & Fn)
    end.
    exists (new ++ [win32_generator_call env; Console Log ("Generating Windows ICO from "
                                        +:+ win32_basePng env +:+ " -> "
                                        +:+ Win32Vars.iconPath (CONFIG.platforms_win32 env))]).
    split.
    + rewrite En, T. rewrite <- app_assoc. reflexivity.
    + unfold generator_calls. rewrite List.filter_app.
      rewrite (filter_none is_icongen new Fn). reflexivity.
Qed.

Lemma generate_windows_ico_success (data : bytes) (w : World) :
  exists_on_disk w (Win32Vars.iconPath (CONFIG.platforms_win32 env)) = false ->
  icongen h (files w !! win32_basePng env) ico_sizes = Ok data ->
  exists w',
    generate_windows_ico h env (CONFIG.platforms_win32 env) (win32_basePng env) w = (Ret tt, w')
    /\ files w' = <[Win32Vars.iconPath (CONFIG.platforms_win32 env) := data]> (files w).
Proof.
  intros Hex Hgen. unfold generate_windows_ico.
  step_with ltac:(unfold existsSync; rewrite Hex; reflexivity).
  cbn [negb]. rewrite when_true.
  eexists. split.
  - apply run_try_catch_ret.
    step_with ltac:(reflexivity).
    unfold icongen_ico, primitive, emit. rewrite bind_run. simpl.
    rewrite Hgen. reflexivity.
  - simpl. rewrite ico_path_join. reflexivity.
Qed.

(** The rest of the handler makes no win32_generator_call env and leaves the file store. *)
Lemma win32_tail_quiet :
  respects (both (same files) (same trace))
    (assign_config WindowsJson [Prop_ "bundle"] "resources"
       (JArr (map JStr (Win32Vars.resources (CONFIG.platforms_win32 env))) []) ;;
     updatePlatformConfig env WindowsJson (Win32Vars.icons (CONFIG.platforms_win32 env))).
Proof. eauto 50 with world. Qed.

Lemma ensureIconExists_no_generator (p d description : string) (ensureRgba : bool) :
  respects (trace_grows (fun e => is_icongen e = false))
    (ensureIconExists h env p d description ensureRgba).
Proof. eauto 200 with world. Qed.

Lemma platformHandlers_win32_run (w w1 : World) :
  ensureIconExists h env (win32_basePng env) "src-tauri/png/icon_512.png"
    "Windows base icon PNG" true w = (Ret tt, w1) ->
  let r := platformHandlers_win32 h env (CONFIG.platforms_win32 env) w in
  let b := generate_windows_ico h env (CONFIG.platforms_win32 env) (win32_basePng env) w1 in
  files r.2 = files b.2 /\ trace r.2 = trace b.2.
Proof.
  intros He r b. subst r b. unfold platformHandlers_win32.
  fold (win32_basePng env).
  step_with ltac:(exact He).
  rewrite bind_run.
  destruct (generate_windows_ico h env (CONFIG.platforms_win32 env) (win32_basePng env) w1)
    as [[[] | e | code] w2]; simpl; try (split; reflexivity).
  pose proof (win32_tail_quiet w2) as [Hf Ht]. split; assumption.
Qed.

End WindowsIco.

(** C7 (as the code has it). On win32, once the base PNG has been resolved
    (world [w1]): when the target .ico is not there yet, the handler invokes
    the icon generator exactly once, on the base PNG, for one .ico with the
    sizes 16, 32, 48, 64, 128 and 256; a successful generation puts its
    output at the target path, and a failed one is followed, when the
    default .ico is there, by a copy of the default .ico to the target
    path.  When the target .ico is already there, the generator is not
    invoked and the file store is left as it is. *)
Theorem windows_ico_generated_once (h : Host) (env : gmap string string)
    (w w1 : World) :
  let c := CONFIG.platforms_win32 env in
  ensureIconExists h env (win32_basePng env) "src-tauri/png/icon_512.png"
    "Windows base icon PNG" true w = (Ret tt, w1) ->
  let r := platformHandlers_win32 h env c w in
  (exists_on_disk w1 (Win32Vars.iconPath c) = true ->
   generator_calls (trace r.2) = generator_calls (trace w)
   /\ files r.2 = files w1)
  /\ (exists_on_disk w1 (Win32Vars.iconPath c) = false ->
      generator_calls (trace r.2)
      = IconGen (win32_basePng env) "src-tauri/png" (env_text env "NAME" +:+ "_256")
          [16; 32; 48; 64; 128; 256]
        :: generator_calls (trace w)
      /\ (forall data,
            icongen h (files w1 !! win32_basePng env) [16; 32; 48; 64; 128; 256]
            = Ok data ->
            files r.2 = <[Win32Vars.iconPath c := data]> (files w1))
      /\ (forall e data,
            icongen h (files w1 !! win32_basePng env) [16; 32; 48; 64; 128; 256]
            = Err e ->
            files w1 !! Win32Vars.defaultIcon c = Some data ->
            fs_fault h (OpWrite (Win32Vars.iconPath c)) = None ->
            files r.2 = <[Win32Vars.iconPath c := data]> (files w1))).
Proof.
  cbv zeta. intros He.
  destruct (platformHandlers_win32_run h env w w1 He) as [Hf Ht].
  destruct (ensureIconExists_no_generator h env (win32_basePng env)
              "src-tauri/png/icon_512.png" "Windows base icon PNG" true w)
    as (newe & Ee & Fe).
  rewrite He in Ee. simpl in Ee.
  assert (Hcalls1 : generator_calls (trace w1) = generator_calls (trace w)).
  { rewrite Ee. unfold generator_calls. rewrite List.filter_app.
    rewrite (filter_none is_icongen newe Fe). reflexivity. }
  split.
  - intros Hex.
    rewrite (generate_windows_ico_existing h env w1 Hex) in Hf, Ht. simpl in Hf, Ht.
    rewrite Ht, Hf. split; [exact Hcalls1 | reflexivity].
  - intros Hex. split; [| split].
    + destruct (generate_windows_ico_once h env w1 Hex) as (new & En & Cn).
      rewrite Ht, En.
      unfold generator_calls in *. rewrite List.filter_app, Cn, Hcalls1. reflexivity.
    + intros data Hgen.
      destruct (generate_windows_ico_success h env data w1 Hex Hgen) as (w' & E & F).
      rewrite E in Hf. simpl in Hf. rewrite Hf. exact F.
    + intros e data Hgen Hdef Hfault.
      rewrite (generate_windows_ico_failure h env _ (win32_basePng env) e data w1
                 Hex Hgen Hdef Hfault) in Hf.
      exact Hf.
Qed.

Lemma windows_ico_generated_once_witness :
  generator_calls
    (trace (platformHandlers_win32 (sample_host win32) sample_env
              (CONFIG.platforms_win32 sample_env) sample_world_win32).2)
  = [IconGen "src-tauri/png/Foo_512.png" "src-tauri/png" "Foo_256"
       [16; 32; 48; 64; 128; 256]].
Proof.
  destruct (windows_ico_generated_once (sample_host win32) sample_env
              sample_world_win32
              (ensureIconExists (sample_host win32) sample_env
                 (win32_basePng sample_env) "src-tauri/png/icon_512.png"
                 "Windows base icon PNG" true sample_world_win32).2)
    as [_ Hgen].
  - vm_compute. reflexivity.
  - destruct Hgen as [Hcalls _]; [vm_compute; reflexivity |].
    rewrite Hcalls. reflexivity.
Defined.

(** C7, as stated, fails when the target .ico is already there: on the run
    below the base PNG exists and the handler completes, and the icon
    generator is not invoked at all. *)
Lemma existing_ico_is_not_regenerated :
  let w := sample_world_with_ico in
  let r := platformHandlers_win32 (sample_host win32) sample_env
             (CONFIG.platforms_win32 sample_env) w in
  exists_on_disk w "src-tauri/png/Foo_512.png" = true
  /\ trace w = []
  /\ r.1 = Ret tt
  /\ generator_calls (trace r.2) = []
  /\ files r.2 !! "src-tauri/png/Foo_256.ico" = Some [Byte.x08].
Proof. vm_compute. repeat split; reflexivity. Qed.

(** * Runs of the primitives *)

Lemma writeFileSync_ok (h : Host) (p : string) (d : bytes) (w : World) :
  p ∉ dirs w -> fs_fault h (OpWrite p) = None ->
  writeFileSync h p d w
  = (Ret tt, set_files (<[p := d]> (files w)) (set_trace (WriteFile p d :: trace w) w)).
Proof.
  intros Hd Hf. unfold writeFileSync, primitive, emit. rewrite bind_run. simpl.
  rewrite bool_decide_eq_false_2 by exact Hd. rewrite Hf. reflexivity.
Qed.

(** * The icon functions, case by case *)

(** ** The end of [ensureIconExists] *)

Lemma ensureIconExists_postprocess (h : Host) (env : gmap string string)
    (p d description : string) (ensureRgba : bool) :
  ensureIconExists h env p d description ensureRgba
  = (icon_exists ← existsSync p;
     iconCreated ←
       (if negb (icon_exists : bool) then
          iconCreated ←
            (if has_icon_url env then
               console_log ("Attempting to download custom icon from "
                            +:+ env_text env "ICON") ;;
               downloaded ← downloadIcon h (env_text env "ICON") p;
               if (downloaded : bool) then
                 console_log ("Successfully downloaded " +:+ description
                              +:+ " from URL") ;;
                 mret true
               else
                 console_warn ("Failed to download " +:+ description
                               +:+ ", trying fallback options") ;;
                 mret false
             else mret false);
          icon_exists ← existsSync p;
          if negb (icon_exists : bool) then
            create_from_sources h p d description iconCreated
          else mret iconCreated
        else mret true);
     icon_postprocess h env p description ensureRgba iconCreated).
Proof. reflexivity. Qed.

Lemma icon_postprocess_existing (h : Host) (env : gmap string string)
    (p description : string) (ensureRgba : bool) (w : World) :
  exists_on_disk w p = true ->
  icon_postprocess h env p description ensureRgba true w
  = if ensureRgba && endsWith p ".png" then ensureRgbaPng h p w else (Ret tt, w).
Proof.
  intros Hex. unfold icon_postprocess.
  step_with ltac:(unfold existsSync; rewrite Hex; reflexivity).
  rewrite !andb_true_r.
  assert (Hfinal : forall w', exists_on_disk w' p = true ->
            (icon_exists ← existsSync p;
             when (negb icon_exists
                   && negb (bool_decide (env !! "PAKE_CREATE_APP" = Some "1")))
               (console_error ("Failed to create " +:+ description +:+ " at " +:+ p)))
              w' = (Ret tt, w')).
  { intros w' Hex'. rewrite bind_run. unfold existsSync. rewrite Hex'. reflexivity. }
  destruct (ensureRgba && endsWith p ".png").
  - rewrite when_true.
    destruct (ensureRgbaPng_effect h p w) as (w' & E & _ & _ & _ & Hx & _).
    erewrite run_bind_ret by (apply run_try_catch_ret; exact E).
    rewrite E. apply Hfinal. apply Hx. exact Hex.
  - rewrite when_false. erewrite run_bind_ret by reflexivity.
    apply Hfinal. exact Hex.
Qed.

Lemma ensureIconExists_existing (h : Host) (env : gmap string string)
    (p d description : string) (ensureRgba : bool) (w : World) :
  exists_on_disk w p = true ->
  ensureIconExists h env p d description ensureRgba w
  = if ensureRgba && endsWith p ".png" then ensureRgbaPng h p w else (Ret tt, w).
Proof.
  intros Hex. rewrite ensureIconExists_postprocess.
  step_with ltac:(unfold existsSync; rewrite Hex; reflexivity).
  cbn [negb]. step_with ltac:(reflexivity).
  apply icon_postprocess_existing. exact Hex.
Qed.

(** * An icon that already exists *)

(** C2 (as the code has it). When the icon path already exists, [ensureIconExists]
    returns normally; no directory, no configuration object and no file other
    than the icon itself changes; every call made belongs to the RGBA
    normalisation of the icon (so no network fetch, no resize, no source
    search, no copy).  When [ensureRgba] is false or the path does not end in
    ".png" the world is unchanged.  When [ensureRgba] is true and the path
    ends in ".png" the final world is exactly this: one sharp
    ensureAlpha/png call on the path, then
    - if the path is not a readable file, or sharp fails: a warning, nothing
      written;
    - if sharp succeeds but the write fails (the path is a directory, or the
      file system refuses): the write attempt and a warning, the files as
      they were;
    - otherwise one write, and the icon holds the bytes sharp returned. *)
Theorem existing_icon_is_kept (h : Host) (env : gmap string string)
    (p d description : string) (ensureRgba : bool) (w : World) :
  exists_on_disk w p = true ->
  let r := ensureIconExists h env p d description ensureRgba w in
  let call := SharpCall [EnsureAlpha; PngForce] (FromPath p) in
  let warn e := Console Warn ("Failed to normalize " +:+ p +:+ " to RGBA: " +:+ e) in
  r.1 = Ret tt
  /\ dirs r.2 = dirs w
  /\ (forall c, config c r.2 = config c w)
  /\ (forall q, q <> p -> files r.2 !! q = files w !! q)
  /\ (exists new, trace r.2 = new ++ trace w /\ Forall (rgba_only p) new)
  /\ (ensureRgba && endsWith p ".png" = false -> r.2 = w)
  /\ (ensureRgba && endsWith p ".png" = true ->
      match files w !! p with
      | None =>
          r.2 = set_trace (warn ("Input file is missing: " +:+ p) :: call :: trace w) w
      | Some data =>
          match sharp h [EnsureAlpha; PngForce] data with
          | Err e => r.2 = set_trace (warn e :: call :: trace w) w
          | Ok out =>
              if bool_decide (p ∈ dirs w) then
                r.2 = set_trace
                        (warn ("EISDIR: illegal operation on a directory, open '"
                               +:+ p +:+ "'")
                         :: WriteFile p out :: call :: trace w) w
              else
                match fs_fault h (OpWrite p) with
                | Some e =>
                    r.2 = set_trace (warn e :: WriteFile p out :: call :: trace w) w
                | None =>
                    r.2 = set_files (<[p := out]> (files w))
                            (set_trace (WriteFile p out :: call :: trace w) w)
                end
          end
      end).
Proof.
  intros Hex r call warn. subst r.
  rewrite (ensureIconExists_existing h env p d description ensureRgba w Hex).
  destruct (ensureRgba && endsWith p ".png") eqn:Hrgba.
  - destruct (ensureRgbaPng_effect h p w) as (w' & E & Hd & Hc & Hf & _ & Ht).
    rewrite E. cbn [fst snd].
    repeat split; try assumption; try discriminate.
    intros _. subst call warn. cbv beta.
    assert (E2 : (ensureRgbaPng h p w).2 = w') by (rewrite E; reflexivity).
    rewrite <- E2. clear.
    unfold ensureRgbaPng, try_catch, sharp_path, writeFileSync, console_warn,
      primitive, emit, lift, throw.
    rewrite !bind_run. simpl.
    destruct (files w !! p) as [data |]; simpl; [| reflexivity].
    destruct (sharp h [EnsureAlpha; PngForce] data) as [out | e]; simpl;
      [| reflexivity].
    rewrite !bind_run. simpl.
    destruct (bool_decide (p ∈ dirs w)); simpl; [reflexivity |].
    destruct (fs_fault h (OpWrite p)); reflexivity.
  - cbn [fst snd]. repeat split; try reflexivity; try discriminate.
    exists []. split; [reflexivity | constructor].
Qed.

Lemma existing_icon_is_kept_witness :
  let p := "src-tauri/png/Foo_512.png" in
  let r := ensureIconExists (sample_host linux) sample_env p
             "src-tauri/png/icon_512.png" "Linux icon" true sample_world_with_icon in
  exists_on_disk sample_world_with_icon p = true
  /\ r.1 = Ret tt
  /\ r.2 = set_files (<[p := [Byte.x02; Byte.x05]]> (files sample_world_with_icon))
             (set_trace
                (WriteFile p [Byte.x02; Byte.x05]
                 :: SharpCall [EnsureAlpha; PngForce] (FromPath p)
                 :: trace sample_world_with_icon) sample_world_with_icon).
Proof.
  intros p r. subst p r.
  assert (Hex : exists_on_disk sample_world_with_icon "src-tauri/png/Foo_512.png"
                = true) by (vm_compute; reflexivity).
  destruct (existing_icon_is_kept (sample_host linux) sample_env
              "src-tauri/png/Foo_512.png" "src-tauri/png/icon_512.png"
              "Linux icon" true sample_world_with_icon Hex)
    as (Hret & _ & _ & _ & _ & _ & Hrgba).
  split; [exact Hex |]. split; [exact Hret |].
  exact (Hrgba eq_refl).
Defined.

(** * Resolution without a custom icon URL *)

Section KnownSources.
Variable h : Host.
Variable env : gmap string string.

Lemma run_existsSync (w : World) (q : string) :
  existsSync q w = (Ret (exists_on_disk w q), w).
Proof. reflexivity. Qed.

Lemma run_sharp_path_ok (steps : list SharpStep) (source : string)
    (data out : bytes) (w : World) :
  files w !! source = Some data ->
  sharp h steps data = Ok out ->
  sharp_path h steps source w
  = (Ret out, set_trace (SharpCall steps (FromPath source) :: trace w) w).
Proof.
  intros Hfile Hsharp. unfold sharp_path, primitive, emit, lift.
  rewrite bind_run. simpl. rewrite Hfile, Hsharp. reflexivity.
Qed.

Lemma run_sharp_buffer_ok (steps : list SharpStep) (buffer out : bytes)
    (w : World) :
  sharp h steps buffer = Ok out ->
  sharp_buffer h steps buffer w
  = (Ret out, set_trace (SharpCall steps (FromBuffer buffer) :: trace w) w).
Proof.
  intros Hsharp. unfold sharp_buffer, emit, lift.
  rewrite bind_run. simpl. rewrite Hsharp. reflexivity.
Qed.

(** Sources that do not exist are passed over in silence. *)
Lemma try_sources_skip (p description : string) (pre rest : list string)
    (w : World) :
  Forall (fun q => exists_on_disk w q = false) pre ->
  try_sources h p description (pre ++ rest) w = try_sources h p description rest w.
Proof.
  induction 1 as [| q pre Hq _ IH]; [reflexivity |].
  cbn [app try_sources].
  erewrite run_bind_ret by apply run_existsSync.
  rewrite Hq. exact IH.
Qed.

Lemma try_sources_none (p description : string) (sources : list string)
    (w : World) :
  Forall (fun q => exists_on_disk w q = false) sources ->
  try_sources h p description sources w = (Ret false, w).
Proof.
  intros H. rewrite <- (app_nil_r sources).
  rewrite (try_sources_skip p description sources [] w H). reflexivity.
Qed.

(** A source that exists and converts ends the search: the target is
    written with the converted bytes. *)
Lemma try_sources_converted (p description source : string) (rest : list string)
    (data mid out : bytes) (w : World) :
  files w !! source = Some data ->
  endsWith p ".ico" = false ->
  sharp h (source_resize p) data = Ok mid ->
  (if endsWith p ".png" then sharp h [Png9] mid else Ok mid) = Ok out ->
  p ∉ dirs w ->
  fs_fault h (OpWrite p) = None ->
  try_sources h p description (source :: rest) w
  = (Ret true,
     set_files (<[p := out]> (files w))
       (set_trace
          (Console Log ("Generated " +:+ description +:+ " from " +:+ source)
           :: WriteFile p out
           :: (if endsWith p ".png" then [SharpCall [Png9] (FromBuffer mid)] else [])
           ++ SharpCall (source_resize p) (FromPath source)
           :: Console Log ("Found source icon at " +:+ source +:+ ", generating "
                           +:+ description)
           :: trace w) w)).
Proof.
  intros Hfile Hico Hmid Hout Hdir Hfault. cbn [try_sources].
  erewrite run_bind_ret by apply run_existsSync.
  rewrite (exists_on_disk_file _ _ _ Hfile). cbv iota.
  erewrite run_bind_ret by reflexivity.
  assert (Hgen : generate_from_source h p source
                 = (buffer ← sharp_path h (source_resize p) source;
                    buffer ← (if endsWith p ".png" then sharp_buffer h [Png9] buffer
                              else mret buffer);
                    writeFileSync h p buffer)).
  { unfold generate_from_source. rewrite Hico. reflexivity. }
  rewrite Hgen. clear Hgen.
  destruct (endsWith p ".png").
  - erewrite run_bind_ret; cycle 1.
    { apply run_try_catch_ret.
      step_with ltac:(eapply run_sharp_path_ok; [exact Hfile | exact Hmid]).
      step_with ltac:(apply run_sharp_buffer_ok; exact Hout).
      step_with ltac:(apply writeFileSync_ok; [exact Hdir | exact Hfault]).
      reflexivity. }
    reflexivity.
  - injection Hout as <-.
    erewrite run_bind_ret; cycle 1.
    { apply run_try_catch_ret.
      step_with ltac:(eapply run_sharp_path_ok; [exact Hfile | exact Hmid]).
      step_with ltac:(reflexivity).
      step_with ltac:(apply writeFileSync_ok; [exact Hdir | exact Hfault]).
      reflexivity. }
    reflexivity.
Qed.

Lemma create_from_sources_found (p d description : string) (iconCreated : bool)
    (w w' : World) :
  try_sources h p description (possibleSources d) w = (Ret true, w') ->
  create_from_sources h p d description iconCreated w = (Ret true, w').
Proof.
  intros Hsrc. unfold create_from_sources.
  erewrite run_bind_ret by exact Hsrc.
  erewrite run_bind_ret by apply run_existsSync.
  cbn [negb andb]. rewrite orb_true_r. reflexivity.
Qed.

Lemma create_from_sources_nothing (p d description : string) (w : World) :
  Forall (fun q => exists_on_disk w q = false) (possibleSources d) ->
  create_from_sources h p d description false w = (Ret false, w).
Proof.
  intros Hnone. unfold create_from_sources.
  erewrite run_bind_ret by (apply try_sources_none; exact Hnone).
  erewrite run_bind_ret by apply run_existsSync.
  assert (Hd : exists_on_disk w d = false).
  { unfold possibleSources in Hnone. rewrite !Forall_cons in Hnone. tauto. }
  rewrite Hd. reflexivity.
Qed.

(** The end of [ensureIconExists] when the icon is still missing: only the
    final validation speaks. *)
Lemma icon_postprocess_missing (p description : string)
    (ensureRgba iconCreated : bool) (w : World) :
  exists_on_disk w p = false ->
  icon_postprocess h env p description ensureRgba iconCreated w
  = (Ret tt,
     if bool_decide (env !! "PAKE_CREATE_APP" = Some "1") then w
     else set_trace (Console Error ("Failed to create " +:+ description +:+ " at "
                                    +:+ p) :: trace w) w).
Proof.
  intros Hex. unfold icon_postprocess.
  erewrite run_bind_ret by apply run_existsSync.
  rewrite Hex, andb_false_r. cbn [andb]. rewrite when_false.
  erewrite run_bind_ret by reflexivity.
  erewrite run_bind_ret by apply run_existsSync.
  rewrite Hex. cbn [negb andb].
  destruct (bool_decide (env !! "PAKE_CREATE_APP" = Some "1")); reflexivity.
Qed.

(** Without a custom icon URL, a missing icon goes straight to the known
    sources and the default icon. *)
Lemma ensureIconExists_missing_no_url (p d description : string)
    (ensureRgba : bool) (w : World) :
  has_icon_url env = false ->
  exists_on_disk w p = false ->
  ensureIconExists h env p d description ensureRgba w
  = (iconCreated ← create_from_sources h p d description false;
     icon_postprocess h env p description ensureRgba iconCreated) w.
Proof.
  intros Hno Hex. rewrite ensureIconExists_postprocess. rewrite Hno.
  step_with ltac:(apply run_existsSync).
  rewrite Hex. cbn [negb]. cbv iota.
  step_with ltac:(reflexivity).
  step_with ltac:(apply run_existsSync).
  rewrite Hex. cbn [negb]. cbv iota. reflexivity.
Qed.

End KnownSources.

(** C10. When ICON is set to a value that does not start with "http" (a
    local path, for instance), [ensureIconExists] behaves exactly as if ICON
    were not set at all and makes no HTTP request: the value is never used
    as an icon source.  When the icon is missing, the run is the
    known-source search and default copy, started at once, followed by the
    common end of the function.  In particular:
    - the first known source that exists is converted (resize, and PNG
      re-encoding for a ".png" target) and written to the target, when the
      target is not an ".ico" and the conversion and the write succeed;
    - when the search ends without a usable source and the default icon is
      a file, the default icon is copied to the target;
    - when neither a known source nor the default icon exists, nothing is
      written, and the only output is the error line of the final
      validation (none when PAKE_CREATE_APP is "1").
    In the first two cases the run ends with the RGBA normalisation of the
    new icon when that was asked for and the target is a ".png". *)
Theorem non_http_icon_is_ignored (h : Host) (env : gmap string string)
    (v iconPath defaultPath description : string) (ensureRgba : bool)
    (w : World) :
  env !! "ICON" = Some v -> startsWith v "http" = false ->
  let run := ensureIconExists h env iconPath defaultPath description ensureRgba in
  let finish (w' : World) :=
    if ensureRgba && endsWith iconPath ".png" then ensureRgbaPng h iconPath w'
    else (Ret tt, w') in
  run w
  = ensureIconExists h (delete "ICON" env) iconPath defaultPath description
      ensureRgba w
  /\ (exists new,
        trace (run w).2 = new ++ trace w
        /\ Forall (fun e => ~ is_fetch e) new)
  /\ (exists_on_disk w iconPath = false ->
      run w
      = (iconCreated ← create_from_sources h iconPath defaultPath description false;
         icon_postprocess h env iconPath description ensureRgba iconCreated) w)
  /\ (exists_on_disk w iconPath = false ->
      forall (pre rest : list string) (source : string) (data mid out : bytes),
        possibleSources defaultPath = pre ++ source :: rest ->
        Forall (fun q => exists_on_disk w q = false) pre ->
        files w !! source = Some data ->
        endsWith iconPath ".ico" = false ->
        sharp h (source_resize iconPath) data = Ok mid ->
        (if endsWith iconPath ".png" then sharp h [Png9] mid else Ok mid) = Ok out ->
        iconPath ∉ dirs w ->
        fs_fault h (OpWrite iconPath) = None ->
        run w
        = finish
            (set_files (<[iconPath := out]> (files w))
               (set_trace
                  (Console Log ("Generated " +:+ description +:+ " from " +:+ source)
                   :: WriteFile iconPath out
                   :: (if endsWith iconPath ".png"
                       then [SharpCall [Png9] (FromBuffer mid)] else [])
                   ++ SharpCall (source_resize iconPath) (FromPath source)
                   :: Console Log ("Found source icon at " +:+ source
                                   +:+ ", generating " +:+ description)
                   :: trace w) w)))
  /\ (exists_on_disk w iconPath = false ->
      forall (w1 : World) (data : bytes),
        try_sources h iconPath description (possibleSources defaultPath) w
        = (Ret false, w1) ->
        files w1 !! defaultPath = Some data ->
        iconPath ∉ dirs w1 ->
        fs_fault h (OpWrite iconPath) = None ->
        run w
        = finish
            (set_files (<[iconPath := data]> (files w1))
               (set_trace
                  (CopyFile defaultPath iconPath
                   :: Console Warn ("Using default icon for " +:+ description)
                   :: trace w1) w1)))
  /\ (exists_on_disk w iconPath = false ->
      Forall (fun q => exists_on_disk w q = false) (possibleSources defaultPath) ->
      run w
      = (Ret tt,
         if bool_decide (env !! "PAKE_CREATE_APP" = Some "1") then w
         else set_trace
                (Console Error ("Failed to create " +:+ description +:+ " at "
                                +:+ iconPath) :: trace w) w)).
Proof.
  intros E Hs run finish. subst run finish. cbv beta.
  pose proof (has_icon_url_non_http env v E Hs) as Hno.
  split.
  { unfold ensureIconExists.
    rewrite Hno, has_icon_url_delete.
    rewrite (lookup_delete_ne env "ICON" "PAKE_CREATE_APP") by discriminate.
    reflexivity. }
  split.
  { exact (ensureIconExists_no_url_no_fetch h env iconPath defaultPath description
             ensureRgba Hno w). }
  split.
  { intros Hex. apply ensureIconExists_missing_no_url; assumption. }
  split.
  { intros Hex pre rest source data mid out Hsrc Hpre Hfile Hico Hmid Hout Hdir Hfault.
    rewrite (ensureIconExists_missing_no_url h env _ _ _ _ w Hno Hex).
    erewrite run_bind_ret; cycle 1.
    { apply create_from_sources_found. rewrite Hsrc.
      rewrite (try_sources_skip h _ _ pre _ w Hpre).
      exact (try_sources_converted h _ _ _ rest data mid out w
               Hfile Hico Hmid Hout Hdir Hfault). }
    apply icon_postprocess_existing.
    apply (exists_on_disk_file _ _ out). cbn. apply lookup_insert_eq. }
  split.
  { intros Hex w1 data Hsrc Hfile Hdir Hfault.
    rewrite (ensureIconExists_missing_no_url h env _ _ _ _ w Hno Hex).
    erewrite run_bind_ret; cycle 1.
    { exact (create_from_sources_default h iconPath defaultPath description false
               data w w1 Hsrc Hfile Hdir Hfault). }
    apply icon_postprocess_existing.
    apply (exists_on_disk_file _ _ data). cbn. apply lookup_insert_eq. }
  intros Hex Hnone.
  rewrite (ensureIconExists_missing_no_url h env _ _ _ _ w Hno Hex).
  erewrite run_bind_ret
    by (apply create_from_sources_nothing; exact Hnone).
  apply icon_postprocess_missing. exact Hex.
Qed.

Lemma non_http_icon_is_ignored_witness :
  let p := "src-tauri/png/Foo_512.png" in
  let d := "src-tauri/png/icon_512.png" in
  let r := ensureIconExists (sample_host linux) sample_env_local_icon p d
             "Linux icon" true sample_world in
  let r' := ensureIconExists (sample_host_no_sharp linux) sample_env_local_icon p d
              "Linux icon" false sample_world in
  r = ensureIconExists (sample_host linux) (delete "ICON" sample_env_local_icon) p d
        "Linux icon" true sample_world
  /\ files r.2 !! p = Some [Byte.x02; Byte.x02; Byte.x02; Byte.x09]
  /\ files r'.2 !! p = Some [Byte.x09].
Proof.
  intros p d r r'. subst p d r r'.
  assert (E : sample_env_local_icon !! "ICON" = Some "/home/me/icon.png")
    by (vm_compute; reflexivity).
  assert (Hs : startsWith "/home/me/icon.png" "http" = false)
    by (vm_compute; reflexivity).
  destruct (non_http_icon_is_ignored (sample_host linux) sample_env_local_icon
              "/home/me/icon.png" "src-tauri/png/Foo_512.png"
              "src-tauri/png/icon_512.png" "Linux icon" true sample_world E Hs)
    as (Hsame & _ & _ & Hsource & _).
  destruct (non_http_icon_is_ignored (sample_host_no_sharp linux)
              sample_env_local_icon
              "/home/me/icon.png" "src-tauri/png/Foo_512.png"
              "src-tauri/png/icon_512.png" "Linux icon" false sample_world E Hs)
    as (_ & _ & _ & _ & Hdefault & _).
  split; [exact Hsame |]. split.
  - rewrite (Hsource ltac:(vm_compute; reflexivity)
               ["src-tauri/icons/icon.icns"]
               ["src-tauri/png/icon_32.ico"; "src-tauri/png/icon_512.png"]
               "src-tauri/png/icon_512.png"
               [Byte.x09] [Byte.x02; Byte.x09] [Byte.x02; Byte.x02; Byte.x09]).
    + vm_compute. reflexivity.
    + reflexivity.
    + repeat constructor.
    + vm_compute. reflexivity.
    + vm_compute. reflexivity.
    + reflexivity.
    + reflexivity.
    + vm_compute. set_solver.
    + reflexivity.
  - assert (Hex : exists_on_disk sample_world "src-tauri/png/Foo_512.png" = false)
      by (vm_compute; reflexivity).
    rewrite (Hdefault Hex
               (try_sources (sample_host_no_sharp linux) "src-tauri/png/Foo_512.png"
                  "Linux icon" (possibleSources "src-tauri/png/icon_512.png")
                  sample_world).2
               [Byte.x09]).
    + vm_compute. reflexivity.
    + vm_compute. reflexivity.
    + vm_compute. reflexivity.
    + vm_compute. set_solver.
    + reflexivity.
Defined.

(** * A target ending in ".ico" *)

Lemma not_on_disk (w : World) (p : string) :
  exists_on_disk w p = false -> files w !! p = None /\ p ∉ dirs w.
Proof.
  unfold exists_on_disk. intros H. apply orb_false_iff in H. destruct H as [Hf Hd].
  apply bool_decide_eq_false_1 in Hf. apply bool_decide_eq_false_1 in Hd.
  split; [| exact Hd].
  destruct (files w !! p) eqn:E; [| reflexivity]. exfalso. apply Hf. eauto.
Qed.

Lemma copyFileSync_ok (h : Host) (src dst : string) (data : bytes) (w : World) :
  files w !! src = Some data ->
  dst ∉ dirs w ->
  fs_fault h (OpWrite dst) = None ->
  copyFileSync h src dst w
  = (Ret tt,
     set_files (<[dst := data]> (files w)) (set_trace (CopyFile src dst :: trace w) w)).
Proof.
  intros Hfile Hdir Hfault. unfold copyFileSync, primitive, emit.
  rewrite bind_run. simpl. rewrite Hfile.
  rewrite bool_decide_eq_false_2 by exact Hdir. rewrite Hfault. reflexivity.
Qed.

Section IcoTarget.
Variable h : Host.
Variable env : gmap string string.
Variable p : string.
Hypothesis Hico : endsWith p ".ico" = true.

(** The download tier writes the body of the response as received. *)
Lemma downloadIcon_ico_success (get : string -> Res bytes) (url : string)
    (body : bytes) (w : World) :
  axios h = Some get ->
  get url = Ok body ->
  exists_on_disk w (path_join h p "..") = true ->
  p ∉ dirs w ->
  fs_fault h (OpWrite p) = None ->
  downloadIcon h url p w
  = (Ret true,
     set_files (<[p := body]> (files w))
       (set_trace
          (Console Log ("Icon downloaded and processed successfully to " +:+ p)
           :: WriteFile p body
           :: HttpGet url
           :: Console Log ("Downloading icon from " +:+ url +:+ " to " +:+ p)
           :: trace w) w)).
Proof.
  intros Hax Hget Hdir Hp Hfault.
  pose proof (endsWith_ico_not_png p Hico) as Hpng.
  unfold downloadIcon. rewrite Hax, Hico, Hpng. cbn [negb]. cbv iota.
  apply run_try_catch_ret.
  step_with ltac:(reflexivity).
  step_with ltac:(unfold axios_get, emit, lift; rewrite bind_run; simpl;
                  rewrite Hget; reflexivity).
  step_with ltac:(apply run_existsSync).
  rewrite exists_on_disk_set_trace, exists_on_disk_set_trace, Hdir.
  cbn [negb]. rewrite when_false.
  step_with ltac:(reflexivity).
  step_with ltac:(reflexivity).
  step_with ltac:(apply writeFileSync_ok; [exact Hp | exact Hfault]).
  step_with ltac:(reflexivity).
  reflexivity.
Qed.

(** The known-source tier copies the first source that exists. *)
Lemma try_sources_ico_copied (description source : string) (rest : list string)
    (data : bytes) (w : World) :
  files w !! source = Some data ->
  p ∉ dirs w ->
  fs_fault h (OpWrite p) = None ->
  try_sources h p description (source :: rest) w
  = (Ret true,
     set_files (<[p := data]> (files w))
       (set_trace
          (Console Log ("Generated " +:+ description +:+ " from " +:+ source)
           :: CopyFile source p
           :: Console Log ("Found source icon at " +:+ source +:+ ", generating "
                           +:+ description)
           :: trace w) w)).
Proof.
  intros Hfile Hdir Hfault. cbn [try_sources].
  erewrite run_bind_ret by apply run_existsSync.
  rewrite (exists_on_disk_file _ _ _ Hfile). cbv iota.
  erewrite run_bind_ret by reflexivity.
  rewrite (generate_from_source_ico h p source Hico).
  erewrite run_bind_ret; cycle 1.
  { apply run_try_catch_ret.
    step_with ltac:(apply (copyFileSync_ok h source p data); [exact Hfile | exact Hdir | exact Hfault]).
    step_with ltac:(reflexivity).
    reflexivity. }
  reflexivity.
Qed.

Lemma ensureIconExists_ico_downloaded (d description : string) (ensureRgba : bool)
    (get : string -> Res bytes) (body : bytes) (w : World) :
  exists_on_disk w p = false ->
  has_icon_url env = true ->
  axios h = Some get ->
  get (env_text env "ICON") = Ok body ->
  exists_on_disk w (path_join h p "..") = true ->
  fs_fault h (OpWrite p) = None ->
  ensureIconExists h env p d description ensureRgba w
  = (Ret tt,
     set_files (<[p := body]> (files w))
       (set_trace
          (Console Log ("Successfully downloaded " +:+ description +:+ " from URL")
           :: Console Log ("Icon downloaded and processed successfully to " +:+ p)
           :: WriteFile p body
           :: HttpGet (env_text env "ICON")
           :: Console Log ("Downloading icon from " +:+ env_text env "ICON"
                           +:+ " to " +:+ p)
           :: Console Log ("Attempting to download custom icon from "
                           +:+ env_text env "ICON")
           :: trace w) w)).
Proof.
  intros Hex Hurl Hax Hget Hdir Hfault.
  destruct (not_on_disk w p Hex) as [_ Hp].
  pose proof (endsWith_ico_not_png p Hico) as Hpng.
  rewrite ensureIconExists_postprocess. rewrite Hurl.
  step_with ltac:(apply run_existsSync).
  rewrite Hex. cbn [negb]. cbv iota.
  step_with ltac:(reflexivity).
  step_with ltac:(apply (downloadIcon_ico_success get _ body); assumption).
  cbv iota.
  step_with ltac:(reflexivity).
  step_with ltac:(reflexivity).
  step_with ltac:(apply run_existsSync).
  erewrite exists_on_disk_file by (cbn; apply lookup_insert_eq).
  cbn [negb]. cbv iota.
  step_with ltac:(reflexivity).
  erewrite icon_postprocess_existing
    by (apply (exists_on_disk_file _ _ body); cbn; apply lookup_insert_eq).
  rewrite Hpng, andb_false_r. reflexivity.
Qed.

Lemma ensureIconExists_ico_copied (d description : string) (ensureRgba : bool)
    (pre rest : list string) (source : string) (data : bytes) (w : World) :
  exists_on_disk w p = false ->
  has_icon_url env = false ->
  possibleSources d = pre ++ source :: rest ->
  Forall (fun q => exists_on_disk w q = false) pre ->
  files w !! source = Some data ->
  fs_fault h (OpWrite p) = None ->
  ensureIconExists h env p d description ensureRgba w
  = (Ret tt,
     set_files (<[p := data]> (files w))
       (set_trace
          (Console Log ("Generated " +:+ description +:+ " from " +:+ source)
           :: CopyFile source p
           :: Console Log ("Found source icon at " +:+ source +:+ ", generating "
                           +:+ description)
           :: trace w) w)).
Proof.
  intros Hex Hurl Hsrc Hpre Hfile Hfault.
  destruct (not_on_disk w p Hex) as [_ Hp].
  pose proof (endsWith_ico_not_png p Hico) as Hpng.
  rewrite (ensureIconExists_missing_no_url h env _ _ _ _ w Hurl Hex).
  erewrite run_bind_ret; cycle 1.
  { apply create_from_sources_found. rewrite Hsrc.
    rewrite (try_sources_skip h _ _ pre _ w Hpre).
    exact (try_sources_ico_copied _ _ rest data w Hfile Hp Hfault). }
  erewrite icon_postprocess_existing
    by (apply (exists_on_disk_file _ _ data); cbn; apply lookup_insert_eq).
  rewrite Hpng, andb_false_r. reflexivity.
Qed.

End IcoTarget.



(** * Further properties of the script *)

(** ** Writing the configurations *)

Lemma writeFileSync_ret (h : Host) (p : string) (d : bytes) (w w' : World) :
  writeFileSync h p d w = (Ret tt, w') ->
  w' = set_files (<[p := d]> (files w)) (set_trace (WriteFile p d :: trace w) w).
Proof.
  unfold writeFileSync, primitive, emit. rewrite bind_run. simpl.
  destruct (bool_decide (p ∈ dirs w)); [discriminate |].
  destruct (fs_fault h (OpWrite p)); [discriminate |].
  intros H. injection H as <-. reflexivity.
Qed.

Lemma save_one_ret (h : Host) (p : string) (r : ConfigRef) (w w' : World) :
  (text ← primitive (fun w => (Ret (JSON_stringify h (config r w)), w));
   writeFileSync h p (utf8 (text +:+ nl))) w = (Ret tt, w') ->
  w' = set_files (<[p := saved_text h (config r w)]> (files w))
         (set_trace (WriteFile p (saved_text h (config r w)) :: trace w) w).
Proof.
  intros H. rewrite bind_run in H. unfold primitive at 1 in H.
  apply writeFileSync_ret in H. exact H.
Qed.

Lemma saveConfigurations_ret (h : Host) (env : gmap string string) (w w' : World) :
  saveConfigurations h env w = (Ret tt, w') ->
  (forall path r, (path, r) ∈ saved_files env ->
     files w' !! path = Some (saved_text h (config r w)))
  /\ (forall q, (forall path r, (path, r) ∈ saved_files env -> q <> path) ->
        files w' !! q = files w !! q)
  /\ dirs w' = dirs w
  /\ (forall r, config r w' = config r w)
  /\ trace w'
     = rev (map (fun '(path, r) => WriteFile path (saved_text h (config r w)))
              (saved_files env)) ++ trace w.
Proof.
  intros H. unfold saveConfigurations in H. cbn [forEach] in H.
  apply bind_ret_inv in H. destruct H as ([] & w1 & H1 & H).
  apply bind_ret_inv in H. destruct H as ([] & w2 & H2 & H).
  apply bind_ret_inv in H. destruct H as ([] & w3 & H3 & H).
  apply bind_ret_inv in H. destruct H as ([] & w4 & H4 & H).
  apply bind_ret_inv in H. destruct H as ([] & w5 & H5 & H).
  injection H as <-.
  apply save_one_ret in H1, H2, H3, H4, H5. subst w5 w4 w3 w2 w1.
  split; [| split; [| split; [| split]]].
  - intros path r Hin. unfold saved_files in Hin.
    repeat (apply elem_of_cons in Hin; destruct Hin as [Hin | Hin];
            [injection Hin as -> -> | ]);
      try (inversion Hin; fail); simpl;
      repeat first [ rewrite lookup_insert_eq; reflexivity
                   | rewrite lookup_insert_ne by discriminate ].
  - intros q Hq. simpl.
    rewrite !lookup_insert_ne; [reflexivity | ..]; intros <-;
      eapply Hq; try reflexivity; unfold saved_files;
      repeat first [ apply list_elem_of_here | apply list_elem_of_further ].
  - reflexivity.
  - intros r. destruct r; reflexivity.
  - reflexivity.
Qed.

Lemma saveConfigurations_runs (h : Host) (env : gmap string string) (w : World) :
  (forall path r, (path, r) ∈ saved_files env ->
     (path ∉ dirs w) /\ fs_fault h (OpWrite path) = None) ->
  exists w', saveConfigurations h env w = (Ret tt, w').
Proof.
  intros Hok. unfold saveConfigurations. cbn [forEach].
  assert (Hin : forall i pr, saved_files env !! i = Some pr ->
                  ((pr.1) ∉ dirs w) /\ fs_fault h (OpWrite (pr.1)) = None).
  { intros i [path r] Hi. apply (Hok path r). eapply list_elem_of_lookup_2. exact Hi. }
  destruct (Hin 0%nat _ eq_refl) as [D0 F0].
  destruct (Hin 1%nat _ eq_refl) as [D1 F1].
  destruct (Hin 2%nat _ eq_refl) as [D2 F2].
  destruct (Hin 3%nat _ eq_refl) as [D3 F3].
  destruct (Hin 4%nat _ eq_refl) as [D4 F4].
  simpl in D0, D1, D2, D3, D4, F0, F1, F2, F3, F4.
  eexists. cbv beta iota.
  erewrite run_bind_ret by (rewrite bind_run; unfold primitive at 1;
                  apply writeFileSync_ok; [exact D0 | exact F0]). cbv beta.
  erewrite run_bind_ret by (rewrite bind_run; unfold primitive at 1;
                  apply writeFileSync_ok; [exact D1 | exact F1]). cbv beta.
  erewrite run_bind_ret by (rewrite bind_run; unfold primitive at 1;
                  apply writeFileSync_ok; [exact D2 | exact F2]). cbv beta.
  erewrite run_bind_ret by (rewrite bind_run; unfold primitive at 1;
                  apply writeFileSync_ok; [exact D3 | exact F3]). cbv beta.
  erewrite run_bind_ret by (rewrite bind_run; unfold primitive at 1;
                  apply writeFileSync_ok; [exact D4 | exact F4]). cbv beta.
  reflexivity.
Qed.

(** X1. On a file system where none of the five configuration paths is a
    directory and writing them raises no error, [saveConfigurations]
    returns, and afterwards each of the five files holds the serialisation
    of its configuration object followed by a newline; no other file, no
    directory and no configuration object has changed, and the calls made
    are the five writes, in the order pake, tauri, linux, macos, windows. *)
Theorem saveConfigurations_writes_five (h : Host) (env : gmap string string)
    (w : World) :
  (forall path r, (path, r) ∈ saved_files env ->
     (path ∉ dirs w) /\ fs_fault h (OpWrite path) = None) ->
  exists w',
    saveConfigurations h env w = (Ret tt, w')
    /\ (forall path r, (path, r) ∈ saved_files env ->
          files w' !! path = Some (saved_text h (config r w)))
    /\ (forall q, (forall path r, (path, r) ∈ saved_files env -> q <> path) ->
          files w' !! q = files w !! q)
    /\ dirs w' = dirs w
    /\ (forall r, config r w' = config r w)
    /\ trace w'
       = rev (map (fun '(path, r) => WriteFile path (saved_text h (config r w)))
                (saved_files env)) ++ trace w.
Proof.
  intros Hok. destruct (saveConfigurations_runs h env w Hok) as [w' Hrun].
  exists w'. split; [exact Hrun |]. exact (saveConfigurations_ret h env w w' Hrun).
Qed.

Lemma saveConfigurations_writes_five_witness :
  exists w',
    saveConfigurations (sample_host linux) sample_env sample_world = (Ret tt, w')
    /\ files w' !! "src-tauri/tauri.conf.json"
       = Some (saved_text (sample_host linux) (tauriJson sample_world)).
Proof.
  destruct (saveConfigurations_writes_five (sample_host linux) sample_env sample_world)
    as (w' & Hrun & Hfiles & _).
  - intros path r Hin. split; [vm_compute; set_solver | reflexivity].
  - exists w'. split; [exact Hrun |].
    apply (Hfiles "src-tauri/tauri.conf.json" TauriJson).
    unfold saved_files. apply elem_of_cons. right. apply elem_of_cons. left.
    reflexivity.
Defined.

(** ** The run as a whole *)

Lemma find_source_no_exit (sources : list string) : no_exit (find_source sources).
Proof.
  induction sources as [| s rest IH]; simpl.
  - apply no_exit_ret.
  - apply no_exit_bind; [prim_no_exit |].
    intros present. destruct present; [apply no_exit_ret | exact IH].
Qed.

Lemma try_sources_no_exit (h : Host) (iconPath description : string)
    (sources : list string) :
  (forall source, no_exit (generate_from_source h iconPath source)) ->
  no_exit (try_sources h iconPath description sources).
Proof.
  intros Hg. induction sources as [| s rest IH]; simpl.
  - apply no_exit_ret.
  - apply no_exit_bind; [prim_no_exit |].
    intros present. destruct present; [| exact IH].
    apply no_exit_bind; [prim_no_exit |]. intros _.
    apply no_exit_bind.
    + apply no_exit_try_catch.
      * apply no_exit_bind; [apply Hg |]. intros _.
        apply no_exit_bind; [prim_no_exit |]. intros _. apply no_exit_ret.
      * intros e. apply no_exit_bind; [prim_no_exit |]. intros _. apply no_exit_ret.
    + intros generated. destruct generated; [apply no_exit_ret | exact IH].
Qed.

#[export] Hint Resolve find_source_no_exit try_sources_no_exit : world.

#[export] Hint Extern 2 (no_exit (primitive _)) => prim_no_exit : world.
#[export] Hint Extern 4 (no_exit (generate_from_source _ _ _)) =>
  unfold generate_from_source : world.
#[export] Hint Extern 4 (no_exit (downloadIcon ?h _ _)) =>
  unfold downloadIcon; destruct (axios h) : world.
#[export] Hint Extern 4 (no_exit (ensureRgbaPng _ _)) =>
  unfold ensureRgbaPng : world.
#[export] Hint Extern 4 (no_exit (create_from_sources _ _ _ _ _)) =>
  unfold create_from_sources : world.
#[export] Hint Extern 4 (no_exit (ensureIconExists _ _ _ _ _ _)) =>
  unfold ensureIconExists : world.
#[export] Hint Extern 4 (no_exit (updatePlatformConfig _ _ _)) =>
  unfold updatePlatformConfig : world.
#[export] Hint Extern 4 (no_exit (generate_macos_icon ?h _ ?p)) =>
  unfold generate_macos_icon; destruct (match_png_size p) : world.
#[export] Hint Extern 4 (no_exit (generate_windows_ico _ _ _ _)) =>
  unfold generate_windows_ico : world.
#[export] Hint Extern 4 (no_exit (saveConfigurations _ _)) =>
  unfold saveConfigurations : world.
#[export] Hint Extern 1 (no_exit (let '(_, _) := ?x in _)) =>
  destruct x : world.
#[export] Hint Extern 4 (no_exit (platformHandlers_linux _ _ _)) =>
  unfold platformHandlers_linux : world.
#[export] Hint Extern 4 (no_exit (platformHandlers_darwin _ _ _)) =>
  unfold platformHandlers_darwin : world.
#[export] Hint Extern 4 (no_exit (platformHandlers_win32 _ _ _)) =>
  unfold platformHandlers_win32 : world.
#[export] Hint Extern 1 (no_exit (match ?x with Some _ => _ | None => _ end)) =>
  destruct x : world.

Lemma ensureIconExists_no_exit (h : Host) (env : gmap string string)
    (p d description : string) (ensureRgba : bool) :
  no_exit (ensureIconExists h env p d description ensureRgba).
Proof. eauto 200 with world. Qed.

Lemma platformHandlers_no_exit (h : Host) (env : gmap string string)
    (pc : PlatformVars) :
  no_exit (platformHandlers h env pc).
Proof. destruct pc; unfold platformHandlers; eauto 200 with world. Qed.

Lemma saveConfigurations_no_exit (h : Host) (env : gmap string string) :
  no_exit (saveConfigurations h env).
Proof. eauto 200 with world. Qed.

Lemma validateEnvironment_exit (env : gmap string string) (w w' : World) (c : Z) :
  validateEnvironment env w = (Exit c, w') ->
  c = 1 /\ exists msg, trace w' = Console Error msg :: trace w.
Proof.
  unfold validateEnvironment.
  destruct (filter (fun key => env !! key = None) requiredEnvVars) as [| k0 ks].
  - intros H. discriminate H.
  - intros H. injection H as <- <-. split; [reflexivity |]. eexists. reflexivity.
Qed.

Lemma main_no_throw (h : Host) (env : gmap string string) (w w' : World)
    (e : string) :
  main h env w <> (Throw e, w').
Proof.
  intros Hmain. unfold main, try_catch in Hmain.
  match type of Hmain with
  | context [match ?b w with _ => _ end] => destruct (b w) as [[[] | e' | c] wb]
  end; discriminate Hmain.
Qed.

Lemma main_exit (h : Host) (env : gmap string string) (w w' : World) (c : Z) :
  main h env w = (Exit c, w') ->
  c = 1 /\ exists msg t, trace w' = Console Error msg :: t.
Proof.
  intros Hmain. unfold main, try_catch in Hmain.
  match type of Hmain with
  | context [match ?b w with _ => _ end] =>
      destruct (b w) as [[[] | e' | c'] wb] eqn:B
  end.
  - discriminate Hmain.
  - injection Hmain as <- <-. split; [reflexivity |]. eexists _, _. reflexivity.
  - injection Hmain as <- <-.
    rewrite bind_run in B.
    destruct (validateEnvironment env w) as [[[] | e0 | c0] w1] eqn:V.
    + exfalso.
      assert (N : no_exit
                    (updateBaseConfigs h env ;;
                     match CONFIG.platforms env (os_platform h) with
                     | Some platformConfig => platformHandlers h env platformConfig
                     | None => throw ("Unsupported platform: "
                                      +:+ platform_name (os_platform h))
                     end ;;
                     saveConfigurations h env ;;
                     console_log ("✅ Tauri configuration complete for "
                                  +:+ platform_name (os_platform h)))).
      { apply no_exit_bind; [apply updateBaseConfigs_no_exit |]. intros _.
        apply no_exit_bind.
        - destruct (CONFIG.platforms env (os_platform h));
            [apply platformHandlers_no_exit | apply no_exit_throw].
        - intros _. apply no_exit_bind; [apply saveConfigurations_no_exit |].
          intros _. prim_no_exit. }
      apply (N w1 c'). rewrite B. reflexivity.
    + discriminate B.
    + injection B as <- <-. apply validateEnvironment_exit in V.
      destruct V as [-> [msg Ht]]. split; [reflexivity |]. eexists _, _. exact Ht.
Qed.

(** X2. Every run of [main] ends in one of two ways: it returns (exit
    status 0) and its last output is the confirmation line naming the
    platform, or it exits with status 1 and its last output is an error
    line.  No exception escapes and no other exit status occurs. *)
Theorem main_ends_with_a_verdict (h : Host) (env : gmap string string) (w : World) :
  let r := main h env w in
  (r.1 = Ret tt
   /\ exists t,
        trace r.2
        = Console Log ("✅ Tauri configuration complete for "
                       +:+ platform_name (os_platform h)) :: t)
  \/ (r.1 = Exit 1 /\ exists msg t, trace r.2 = Console Error msg :: t).
Proof.
  cbv zeta.
  destruct (main h env w) as [[[] | e | c] w'] eqn:Hmain.
  - left. split; [reflexivity |].
    destruct (main_returns h env w w' Hmain)
      as (pc & w1 & w2 & w3 & w4 & _ & _ & _ & _ & _ & H5).
    unfold console_log, emit in H5. injection H5 as <-. eexists. reflexivity.
  - exfalso. exact (main_no_throw h env w w' e Hmain).
  - right. destruct (main_exit h env w w' c Hmain) as [-> Ht].
    split; [reflexivity | exact Ht].
Qed.

(** X3. After a run of [main] that completes, each of the five
    configuration files holds the serialisation of its configuration object
    as that object is at the end of the run. *)
Theorem main_saves_final_configs (h : Host) (env : gmap string string)
    (w w' : World) :
  main h env w = (Ret tt, w') ->
  forall path r, (path, r) ∈ saved_files env ->
    files w' !! path = Some (saved_text h (config r w')).
Proof.
  intros Hmain path r Hin.
  destruct (main_returns h env w w' Hmain)
    as (pc & w1 & w2 & w3 & w4 & _ & _ & _ & _ & H4 & H5).
  destruct (saveConfigurations_ret h env w3 w4 H4) as (Hfiles & _ & _ & Hcfg & _).
  unfold console_log, emit in H5. injection H5 as <-.
  change (files w4 !! path = Some (saved_text h (config r (set_trace
            (Console Log ("✅ Tauri configuration complete for "
                          +:+ platform_name (os_platform h)) :: trace w4) w4)))).
  replace (config r (set_trace _ w4)) with (config r w4) by (destruct r; reflexivity).
  rewrite Hcfg. apply Hfiles. exact Hin.
Qed.

Lemma main_saves_final_configs_witness :
  exists w',
    main (sample_host linux) sample_env sample_world = (Ret tt, w')
    /\ files w' !! "src-tauri/tauri.linux.conf.json"
       = Some (saved_text (sample_host linux) (linuxJson w')).
Proof.
  assert (Hmain : exists w',
            main (sample_host linux) sample_env sample_world = (Ret tt, w'))
    by (eexists; vm_compute; reflexivity).
  destruct Hmain as [w' Hmain]. exists w'. split; [exact Hmain |].
  apply (main_saves_final_configs (sample_host linux) sample_env sample_world w'
           Hmain "src-tauri/tauri.linux.conf.json" LinuxJson).
  unfold saved_files. do 2 (apply elem_of_cons; right). apply elem_of_cons. left.
  reflexivity.
Defined.

Lemma main_other_config (h : Host) (env : gmap string string) (r : ConfigRef) :
  r <> PakeJson -> r <> TauriJson -> active_config (os_platform h) <> Some r ->
  respects (same (config r)) (main h env).
Proof.
  intros Hp Ht Ha. unfold main, validateEnvironment.
  apply respects_try_catch; [apply _ | | eauto 20 with world].
  apply respects_bind; [apply _ | eauto 50 with world |]. intros _.
  apply respects_bind; [apply _ | |].
  { destruct r; try congruence; unfold updateBaseConfigs; eauto 100 with world. }
  intros _.
  apply respects_bind; [apply _ | | intros _; eauto 200 with world].
  destruct (CONFIG.platforms env (os_platform h)) as [pc |] eqn:P;
    [| eauto with world].
  destruct (active_config (os_platform h)) as [a |] eqn:A.
  - eapply platformHandlers_other_config; [exact P | exact A | congruence].
  - destruct (os_platform h); discriminate.
Qed.

(** X4. Whatever the outcome of a run of [main], the configuration objects
    of the platforms other than the host's are left as imported: the run
    edits pake.json, tauri.conf.json and the host platform's object only. *)
Theorem main_edits_host_platform_only (h : Host) (env : gmap string string)
    (w : World) (r : ConfigRef) :
  r <> PakeJson -> r <> TauriJson -> active_config (os_platform h) <> Some r ->
  config r (main h env w).2 = config r w.
Proof. intros Hp Ht Ha. exact (main_other_config h env r Hp Ht Ha w). Qed.

Lemma main_edits_host_platform_only_witness :
  windowsJson (main (sample_host linux) sample_env sample_world).2
  = windowsJson sample_world.
Proof.
  apply (main_edits_host_platform_only (sample_host linux) sample_env sample_world
           WindowsJson); discriminate.
Defined.

(** ** The bundle of the host platform *)

Lemma js_assign_result_container (path : list key) (last : string) (x v v' : json) :
  js_assign path last x v = Ok v' -> is_container v' = true.
Proof.
  intros H. pose proof (js_assign_container path last x v v' H) as Hc.
  destruct path as [| k path].
  - destruct v; simpl in H; try discriminate; injection H as <-; reflexivity.
  - simpl in H. destruct (js_get k v) as [c |]; simpl in H; [| discriminate].
    destruct (js_assign path last x c) as [c' |]; simpl in H; [| discriminate].
    injection H as <-. destruct v; try discriminate Hc; simpl; [| reflexivity].
    destruct k; reflexivity.
Qed.

(** After [v.k. ... .last = x], the member [v.k] is an object. *)
Lemma js_assign_head_container (k : key) (path : list key) (last : string)
    (x v v' : json) :
  js_assign (k :: path) last x v = Ok v' ->
  exists c, js_get k v' = Ok c /\ is_container c = true.
Proof.
  intros H. pose proof (js_assign_container _ _ _ _ _ H) as Hv. simpl in H.
  destruct (js_get k v) as [c |] eqn:G; simpl in H; [| discriminate].
  destruct (js_assign path last x c) as [c' |] eqn:A; simpl in H; [| discriminate].
  injection H as <-. exists c'. split.
  - apply (js_get_put_eq k c c' v G). exact (js_assign_container _ _ _ _ _ A).
  - exact (js_assign_result_container _ _ _ _ _ A).
Qed.

Lemma is_container_truthy (v : json) : is_container v = true -> truthy v = true.
Proof. destruct v; simpl; congruence. Qed.

Section Bundle.
Variable h : Host.
Variable env : gmap string string.

Lemma updatePlatformConfig_icon (r : ConfigRef) (icons : list string) :
  establishes (fun w => field r ([Prop_ "bundle"] ++ [Prop_ "icon"]) w
                        = Ok (JArr (map JStr icons) []))
    (updatePlatformConfig env r icons).
Proof. unfold updatePlatformConfig, when. establish. Qed.

(** When [bundle] is an object already, [updatePlatformConfig] leaves its
    members other than [icon] alone. *)
Lemma updatePlatformConfig_bundle_member (r : ConfigRef) (icons : list string)
    (q : list key) (c : json) (w : World) :
  field r [Prop_ "bundle"] w = Ok c -> is_container c = true ->
  diverge [Prop_ "bundle"; Prop_ "icon"] q = true ->
  diverge [Prop_ "identifier"] q = true ->
  diverge [Prop_ "productName"] q = true ->
  field r q (updatePlatformConfig env r icons w).2 = field r q w.
Proof.
  intros Hb Hc D1 D2 D3. unfold updatePlatformConfig.
  erewrite run_bind_ret
    by (unfold read_config, lift; unfold field in Hb; rewrite Hb; reflexivity).
  rewrite (is_container_truthy c Hc). cbn [negb]. rewrite when_false.
  erewrite run_bind_ret by reflexivity.
  assert (R : respects (same (field r q))
                (assign_config r [Prop_ "bundle"] "icon" (JArr (map JStr icons) []) ;;
                 assign_config r [] "identifier" (JStr (CONFIG.identifier env)) ;;
                 assign_config r [] "productName" (env_value env "TITLE"))).
  { apply respects_bind; [apply _ | | intros _].
    - apply assign_config_field_same. right. exact D1.
    - apply respects_bind; [apply _ | | intros _].
      + apply assign_config_field_same. right. exact D2.
      + apply assign_config_field_same. right. exact D3. }
  exact (R w).
Qed.

End Bundle.

Section BundleAfterRun.
Variable h : Host.
Variable env : gmap string string.

Lemma assign_config_ret (r : ConfigRef) (path : list key) (last : string)
    (x : json) (w w' : World) :
  assign_config r path last x w = (Ret tt, w') ->
  exists v, js_assign path last x (config r w) = Ok v /\ w' = set_config r v w.
Proof.
  unfold assign_config. intros H.
  destruct (js_assign path last x (config r w)) as [v |]; [| discriminate H].
  injection H as <-. eauto.
Qed.

Lemma assign_config_bundle (r : ConfigRef) (path : list key) (last : string)
    (x : json) (w w' : World) :
  assign_config r (Prop_ "bundle" :: path) last x w = (Ret tt, w') ->
  field r (Prop_ "bundle" :: path ++ [Prop_ last]) w' = Ok x
  /\ exists c, field r [Prop_ "bundle"] w' = Ok c /\ is_container c = true.
Proof.
  intros H. split.
  - exact (assign_config_establishes r (Prop_ "bundle" :: path) last x w tt w' H).
  - destruct (assign_config_ret _ _ _ _ _ _ H) as (v & A & ->).
    destruct (js_assign_head_container _ _ _ _ _ _ A) as (c & G & Hc).
    exists c. split; [| exact Hc].
    unfold field. rewrite config_set_config_eq. simpl. rewrite G. reflexivity.
Qed.

Lemma platformHandlers_win32_resources (c : Win32Vars.t) (w w' : World) :
  platformHandlers_win32 h env c w = (Ret tt, w') ->
  field WindowsJson [Prop_ "bundle"; Prop_ "resources"] w'
  = Ok (JArr (map JStr (Win32Vars.resources c)) []).
Proof.
  intros H. unfold platformHandlers_win32 in H.
  apply bind_ret_inv in H. destruct H as ([] & w1 & _ & H).
  apply bind_ret_inv in H. destruct H as ([] & w2 & _ & H).
  apply bind_ret_inv in H. destruct H as ([] & w3 & Ha & H).
  destruct (assign_config_bundle _ [] _ _ _ _ Ha) as (Hres & b & Hb & Hc).
  pose proof (updatePlatformConfig_bundle_member env WindowsJson
                (Win32Vars.icons c) [Prop_ "bundle"; Prop_ "resources"] b w3
                Hb Hc eq_refl eq_refl eq_refl) as K.
  rewrite H in K. cbn [snd] in K. rewrite K. exact Hres.
Qed.

Lemma platformHandlers_linux_desktop (c : LinuxVars.t) (w w' : World) :
  platformHandlers_linux h env c w = (Ret tt, w') ->
  field LinuxJson [Prop_ "bundle"; Prop_ "linux"; Prop_ "deb"; Prop_ "files"] w'
  = Ok (JObj [(fst (LinuxVars.desktopConfig c),
               JStr (snd (LinuxVars.desktopConfig c)))])
  /\ files w' !! LinuxVars.desktopEntryPath c
     = Some (utf8 (LinuxVars.desktopEntry c)).
Proof.
  intros H. unfold platformHandlers_linux in H.
  apply bind_ret_inv in H. destruct H as ([] & w1 & _ & H).
  apply bind_ret_inv in H. destruct H as ([] & w2 & Ha & H).
  apply bind_ret_inv in H. destruct H as ([] & w3 & Hw & H).
  destruct (assign_config_bundle _ [Prop_ "linux"; Prop_ "deb"] _ _ _ _ Ha)
    as (Hfiles & b & Hb & Hc).
  apply writeFileSync_ret in Hw.
  assert (Hcfg : forall q, field LinuxJson q w3 = field LinuxJson q w2)
    by (intros q; rewrite Hw; reflexivity).
  split.
  - pose proof (updatePlatformConfig_bundle_member env LinuxJson
                  (LinuxVars.icons c)
                  [Prop_ "bundle"; Prop_ "linux"; Prop_ "deb"; Prop_ "files"] b w3
                  ltac:(rewrite Hcfg; exact Hb) Hc eq_refl eq_refl eq_refl) as K.
    rewrite H in K. cbn [snd] in K. rewrite K, Hcfg. exact Hfiles.
  - assert (R : respects (same files) (updatePlatformConfig env LinuxJson
                                         (LinuxVars.icons c)))
      by eauto 50 with world.
    specialize (R w3). rewrite H in R. unfold same in R. cbn [snd] in R.
    rewrite R, Hw. cbn. apply lookup_insert_eq.
Qed.

Lemma platformHandlers_icon (pc : PlatformVars) (p : NodePlatform) (r : ConfigRef)
    (w w' : World) :
  CONFIG.platforms env p = Some pc -> active_config p = Some r ->
  platformHandlers h env pc w = (Ret tt, w') ->
  field r [Prop_ "bundle"; Prop_ "icon"] w'
  = Ok (JArr (map JStr (platform_icons pc)) []).
Proof.
  intros Hpc Hr H.
  destruct p; try discriminate Hpc; injection Hpc as <-; injection Hr as <-;
    unfold platformHandlers, platformHandlers_linux, platformHandlers_darwin,
      platformHandlers_win32 in H;
    do 3 (apply bind_ret_inv in H; destruct H as (? & ? & _ & H));
    exact (updatePlatformConfig_icon env _ _ _ _ _ H).
Qed.

End BundleAfterRun.

Lemma desktop_entry_is_not_saved (env : gmap string string) (path : string)
    (r : ConfigRef) :
  (path, r) ∈ saved_files env ->
  LinuxVars.desktopEntryPath (CONFIG.platforms_linux env) <> path.
Proof.
  intros Hin. unfold saved_files in Hin.
  repeat (apply elem_of_cons in Hin; destruct Hin as [Hin | Hin];
          [injection Hin as -> _; cbn; discriminate |]).
  inversion Hin.
Qed.

(** X5. After a run of [main] that completes, the configuration object of
    the host platform has the platform's icon list as [bundle.icon].  On
    win32 its [bundle.resources] is the platform's resource list.  On linux
    its [bundle.linux.deb.files] maps the installed desktop entry to the
    asset, and the desktop entry file holds the desktop entry text. *)
Theorem host_bundle_after_run (h : Host) (env : gmap string string)
    (w w' : World) :
  main h env w = (Ret tt, w') ->
  exists pc r,
    CONFIG.platforms env (os_platform h) = Some pc
    /\ active_config (os_platform h) = Some r
    /\ field r [Prop_ "bundle"; Prop_ "icon"] w'
       = Ok (JArr (map JStr (platform_icons pc)) [])
    /\ match pc with
       | OfLinux c =>
           field LinuxJson [Prop_ "bundle"; Prop_ "linux"; Prop_ "deb"; Prop_ "files"] w'
           = Ok (JObj [(fst (LinuxVars.desktopConfig c),
                        JStr (snd (LinuxVars.desktopConfig c)))])
           /\ files w' !! LinuxVars.desktopEntryPath c
              = Some (utf8 (LinuxVars.desktopEntry c))
       | OfDarwin c => True
       | OfWin32 c =>
           field WindowsJson [Prop_ "bundle"; Prop_ "resources"] w'
           = Ok (JArr (map JStr (Win32Vars.resources c)) [])
       end.
Proof.
  intros Hmain.
  destruct (main_returns h env w w' Hmain)
    as (pc & w1 & w2 & w3 & w4 & P & _ & _ & H3 & H4 & H5).
  destruct (saveConfigurations_ret h env w3 w4 H4) as (_ & Hother & _ & Hcfg & _).
  unfold console_log, emit in H5. injection H5 as <-.
  assert (F : forall c q, field c q (set_trace
                (Console Log ("✅ Tauri configuration complete for "
                              +:+ platform_name (os_platform h)) :: trace w4) w4)
              = field c q w3).
  { intros c q. unfold field. rewrite <- Hcfg. destruct c; reflexivity. }
  assert (Hr : exists r, active_config (os_platform h) = Some r).
  { destruct (os_platform h); try discriminate P; simpl; eauto. }
  destruct Hr as [r Hr].
  exists pc, r. split; [exact P |]. split; [exact Hr |]. split.
  { rewrite F. exact (platformHandlers_icon h env pc _ r w2 w3 P Hr H3). }
  destruct pc as [c | c | c].
  - assert (Hc : c = CONFIG.platforms_linux env).
    { destruct (os_platform h); try discriminate P; injection P as <-; reflexivity. }
    destruct (platformHandlers_linux_desktop h env c w2 w3 H3) as [Hdeb Hfile].
    rewrite F. split; [exact Hdeb |].
    change (files w4 !! LinuxVars.desktopEntryPath c
            = Some (utf8 (LinuxVars.desktopEntry c))).
    rewrite Hother; [exact Hfile |].
    intros path r' Hin. rewrite Hc. exact (desktop_entry_is_not_saved env path r' Hin).
  - exact I.
  - rewrite F. exact (platformHandlers_win32_resources h env c w2 w3 H3).
Qed.

Lemma host_bundle_after_run_witness :
  exists w',
    main (sample_host linux) sample_env sample_world = (Ret tt, w')
    /\ field LinuxJson [Prop_ "bundle"; Prop_ "icon"] w'
       = Ok (JArr [JStr "png/Foo_512.png"] [])
    /\ files w' !! "src-tauri/assets/com-pake-Foo.desktop"
       = Some (utf8 (LinuxVars.desktopEntry (CONFIG.platforms_linux sample_env))).
Proof.
  assert (Hmain : exists w',
            main (sample_host linux) sample_env sample_world = (Ret tt, w'))
    by (eexists; vm_compute; reflexivity).
  destruct Hmain as [w' Hmain]. exists w'. split; [exact Hmain |].
  destruct (host_bundle_after_run (sample_host linux) sample_env sample_world w'
              Hmain) as (pc & r & P & Hr & Hicon & Hrest).
  injection P as <-. injection Hr as <-.
  destruct Hrest as [_ Hfile]. split; [exact Hicon | exact Hfile].
Defined.

(** ** A platform configuration without the expected members *)

(** An assignment [v.k1. ... .kn.last = x] succeeds only if [v.k1. ... .kn]
    is an object. *)
Lemma js_assign_reads (path : list key) (last : string) (x v v' : json) :
  js_assign path last x v = Ok v' ->
  exists c, js_read path v = Ok c /\ is_container c = true.
Proof.
  revert v v'. induction path as [| k path IH]; intros v v' H.
  - exists v. split; [reflexivity |]. exact (js_assign_container [] last x v v' H).
  - simpl in H. destruct (js_get k v) as [c |] eqn:G; simpl in H; [| discriminate].
    destruct (js_assign path last x c) as [c' |] eqn:A; simpl in H; [| discriminate].
    destruct (IH c c' A) as (d & Hd & Hc). exists d. split; [| exact Hc].
    simpl. rewrite G. exact Hd.
Qed.

Lemma updateBaseConfigs_platform_config (h : Host) (env : gmap string string)
    (r : ConfigRef) :
  r <> PakeJson -> r <> TauriJson ->
  respects (same (config r)) (updateBaseConfigs h env).
Proof.
  intros Hp Ht. destruct r; try congruence; unfold updateBaseConfigs;
    eauto 100 with world.
Qed.

(** X6. On linux, when [linuxJson.bundle.linux.deb] is not an object (the
    member expression throws, or gives a primitive value), no run of [main]
    completes: the script exits with status 1 after an error line. *)
Theorem linux_without_deb_section_fails (h : Host) (env : gmap string string)
    (w : World) :
  os_platform h = linux ->
  (forall c, js_read [Prop_ "bundle"; Prop_ "linux"; Prop_ "deb"] (linuxJson w) = Ok c ->
             is_container c = false) ->
  let r := main h env w in
  r.1 = Exit 1 /\ exists msg t, trace r.2 = Console Error msg :: t.
Proof.
  intros Hlinux Hdeb. cbv zeta.
  destruct (main h env w) as [[[] | e | c] w'] eqn:Hmain.
  - exfalso.
    destruct (main_returns h env w w' Hmain)
      as (pc & w1 & w2 & w3 & w4 & P & H1 & H2 & H3 & _).
    rewrite Hlinux in P. injection P as <-.
    unfold platformHandlers, platformHandlers_linux in H3.
    apply bind_ret_inv in H3. destruct H3 as ([] & wa & Ha & H3).
    apply bind_ret_inv in H3. destruct H3 as ([] & wb & Hb & _).
    destruct (assign_config_ret _ _ _ _ _ _ Hb) as (v & A & _).
    destruct (js_assign_reads _ _ _ _ _ A) as (d & Hd & Hc).
    assert (E : config LinuxJson wa = linuxJson w).
    { pose proof (ensureIconExists_config h env LinuxJson
                    (LinuxVars.iconPath (CONFIG.platforms_linux env))
                    (LinuxVars.defaultIcon (CONFIG.platforms_linux env))
                    "Linux icon" true w2) as Sa.
      rewrite Ha in Sa. unfold same in Sa. cbn [snd] in Sa. rewrite Sa.
      pose proof (updateBaseConfigs_platform_config h env LinuxJson
                    ltac:(discriminate) ltac:(discriminate) w1) as Sb.
      rewrite H2 in Sb. unfold same in Sb. cbn [snd] in Sb. rewrite Sb.
      destruct (validateEnvironment_cases env w) as (o & new & Ev & _).
      rewrite Ev in H1. injection H1 as _ <-. reflexivity. }
    rewrite E in Hd. rewrite (Hdeb d Hd) in Hc. discriminate Hc.
  - exfalso. exact (main_no_throw h env w w' e Hmain).
  - destruct (main_exit h env w w' c Hmain) as [-> Ht].
    split; [reflexivity | exact Ht].
Qed.

Lemma linux_without_deb_section_fails_witness :
  (main (sample_host linux) sample_env sample_world_bare_linux).1 = Exit 1.
Proof.
  apply (linux_without_deb_section_fails (sample_host linux) sample_env
           sample_world_bare_linux).
  - reflexivity.
  - intros c Hc. vm_compute in Hc. discriminate Hc.
Defined.

(** ** The macOS icon sizes *)

Section MacosIcons.
Variable h : Host.

Lemma generate_macos_icon_returns (sourceIcon iconPath : string) (w : World) :
  exists w', generate_macos_icon h sourceIcon iconPath w = (Ret tt, w').
Proof.
  unfold generate_macos_icon.
  erewrite run_bind_ret by apply run_existsSync.
  destruct (exists_on_disk w iconPath); cbn [negb]; [rewrite when_false; eauto |].
  rewrite when_true. unfold try_catch.
  match goal with
  | |- context [match ?b w with _ => _ end] =>
      assert (N : no_exit b) by eauto 100 with world;
      destruct (b w) as [[[] | e | c] w1] eqn:B
  end.
  - eauto.
  - unfold console_warn, emit. eauto.
  - exfalso. apply (N w c). rewrite B. reflexivity.
Qed.

Lemma forEach_returns {A} (f : A -> M unit) (xs : list A) (w : World) :
  (forall x w, exists w', f x w = (Ret tt, w')) ->
  exists w', forEach xs f w = (Ret tt, w').
Proof.
  intros Hf. revert w. induction xs as [| x xs IH]; intros w; cbn [forEach].
  - eexists. reflexivity.
  - destruct (Hf x w) as [w1 H1]. erewrite run_bind_ret by exact H1. apply IH.
Qed.

Lemma generate_macos_icon_existing (sourceIcon iconPath : string) (w : World) :
  exists_on_disk w iconPath = true ->
  generate_macos_icon h sourceIcon iconPath w = (Ret tt, w).
Proof.
  intros Hex. unfold generate_macos_icon.
  erewrite run_bind_ret by apply run_existsSync.
  rewrite Hex. reflexivity.
Qed.

Lemma generate_macos_icon_success (sourceIcon iconPath digits : string)
    (data out : bytes) (w : World) :
  exists_on_disk w iconPath = false ->
  match_png_size iconPath = Some digits ->
  files w !! sourceIcon = Some data ->
  sharp h [Resize (parseInt h digits) (parseInt h digits); Png9] data = Ok out ->
  fs_fault h (OpWrite iconPath) = None ->
  generate_macos_icon h sourceIcon iconPath w
  = (Ret tt,
     set_files (<[iconPath := out]> (files w))
       (set_trace
          (Console Log ("Generated macOS icon: " +:+ iconPath)
           :: WriteFile iconPath out
           :: SharpCall [Resize (parseInt h digits) (parseInt h digits); Png9]
                (FromPath sourceIcon)
           :: Console Log ("Generating macOS icon size "
                           +:+ js_text (parseInt h digits) +:+ "x"
                           +:+ js_text (parseInt h digits))
           :: trace w) w)).
Proof.
  intros Hex Hsize Hfile Hsharp Hfault.
  destruct (not_on_disk w iconPath Hex) as [_ Hdir].
  unfold generate_macos_icon.
  erewrite run_bind_ret by apply run_existsSync.
  rewrite Hex, Hsize. cbn [negb]. rewrite when_true.
  apply run_try_catch_ret.
  step_with ltac:(reflexivity).
  step_with ltac:(reflexivity).
  step_with ltac:(eapply run_sharp_path_ok; [exact Hfile | exact Hsharp]).
  step_with ltac:(apply writeFileSync_ok; [exact Hdir | exact Hfault]).
  reflexivity.
Qed.

End MacosIcons.



(** ** Network access *)

Section Offline.
Variable h : Host.
Variable env : gmap string string.
Hypothesis Hno : has_icon_url env = false.

Lemma platformHandlers_no_fetch (pc : PlatformVars) :
  respects (trace_grows (fun e => ~ is_fetch e)) (platformHandlers h env pc).
Proof.
  pose proof (fun p d s b => ensureIconExists_no_url_no_fetch h env p d s b Hno) as Hi.
  destruct pc as [c | c | c]; unfold platformHandlers, platformHandlers_linux,
    platformHandlers_darwin, platformHandlers_win32;
    (apply respects_bind; [apply _ | apply Hi | intros _; eauto 200 with world]).
Qed.

Lemma main_no_fetch :
  respects (trace_grows (fun e => ~ is_fetch e)) (main h env).
Proof.
  unfold main, validateEnvironment.
  apply respects_try_catch; [apply _ | | eauto 20 with world].
  apply respects_bind; [apply _ | eauto 50 with world |]. intros _.
  apply respects_bind; [apply _ | unfold updateBaseConfigs; eauto 100 with world |].
  intros _.
  apply respects_bind; [apply _ | | intros _; eauto 200 with world].
  destruct (CONFIG.platforms env (os_platform h)) as [pc |];
    [apply platformHandlers_no_fetch | eauto with world].
Qed.

End Offline.

(** X8. Without a custom icon URL (ICON unset, empty, or not starting with
    "http") a run of [main] makes no HTTP request, whatever its outcome. *)
Theorem main_is_offline_without_icon_url (h : Host) (env : gmap string string)
    (w : World) :
  has_icon_url env = false ->
  exists new,
    trace (main h env w).2 = new ++ trace w
    /\ Forall (fun e => ~ is_fetch e) new.
Proof. intros Hno. exact (main_no_fetch h env Hno w). Qed.

Lemma main_is_offline_without_icon_url_witness :
  exists new,
    trace (main (sample_host linux) sample_env_local_icon sample_world).2
    = new ++ trace sample_world
    /\ Forall (fun e => ~ is_fetch e) new.
Proof.
  apply (main_is_offline_without_icon_url (sample_host linux) sample_env_local_icon
           sample_world).
  vm_compute. reflexivity.
Defined.
